(** * MingHe buck converter serial protocol: framing, checksum and read-back

    A shallow embedding of [MingHeChecksum.cpp] and [MingHeBuckConverter.cpp].

    - A [char] is its byte value, a [Z] in [0, 256).  Whether the platform's
      [char] is signed does not matter for the operations used by the code:
      [counter_ += c] is taken modulo 256 either way, and [isupper],
      [isdigit] and the comparisons against character literals only
      succeed on byte values below 128.
    - [uint8_t], [uint32_t] arithmetic is arithmetic on [Z] followed by the
      explicit wrap-around [uint8] / [uint32].
    - The serial port is a clock in milliseconds together with the bytes
      still to come on the receive line, each with the delay that separates
      it from the previous one, and the log of the bytes written.
    - A C array that the code writes beyond its end has no defined result:
      the functions that can do so return [option], [None] standing for the
      undefined behaviour. *)

From Equations Require Import Equations.
From Stdlib Require Import Ascii String ZArith List Lia Bool.
From Stdlib Require DecimalFacts DecimalN.
Import ListNotations.
Local Open Scope Z_scope.

(** ** Machine integers and characters *)

Definition uint8 (x : Z) : Z := x mod 2 ^ 8.
Definition uint32 (x : Z) : Z := x mod 2 ^ 32.

(** Conversion of a [uint32_t] to [long] (32-bit two's complement). *)
Definition int32 (x : Z) : Z := (x + 2 ^ 31) mod 2 ^ 32 - 2 ^ 31.

(** The byte value of a character literal. *)
Definition ch (c : ascii) : Z := Z.of_N (N_of_ascii c).

Fixpoint bytes (s : string) : list Z :=
  match s with
  | EmptyString => []
  | String c r => ch c :: bytes r
  end.

Definition newline : Z := 10.
Definition carriage_return : Z := 13.

Definition isupper (c : Z) : bool := (ch "A" <=? c) && (c <=? ch "Z").
Definition isdigit (c : Z) : bool := (ch "0" <=? c) && (c <=? ch "9").
Definition isspace (c : Z) : bool := (c =? 32) || ((9 <=? c) && (c <=? 13)).

(** The bytes of a NUL-terminated string stored in an array. *)
Fixpoint cstring (m : list Z) : list Z :=
  match m with
  | [] => []
  | c :: r => if c =? 0 then [] else c :: cstring r
  end.

Fixpoint list_eqb (a b : list Z) : bool :=
  match a, b with
  | [], [] => true
  | x :: a', y :: b' => (x =? y) && list_eqb a' b'
  | _, _ => false
  end.

(** Array store [a[i] = v]; the array keeps its length. *)
Fixpoint store (i : nat) (v : Z) (a : list Z) : list Z :=
  match a, i with
  | [], _ => []
  | _ :: r, O => v :: r
  | x :: r, S j => x :: store j v r
  end.

Definition load (i : nat) (a : list Z) : Z := nth i a 0.

(** ** C library: number rendering and parsing *)

Fixpoint digits_of_uint (u : Decimal.uint) : list Z :=
  match u with
  | Decimal.Nil => []
  | Decimal.D0 r => ch "0" :: digits_of_uint r
  | Decimal.D1 r => ch "1" :: digits_of_uint r
  | Decimal.D2 r => ch "2" :: digits_of_uint r
  | Decimal.D3 r => ch "3" :: digits_of_uint r
  | Decimal.D4 r => ch "4" :: digits_of_uint r
  | Decimal.D5 r => ch "5" :: digits_of_uint r
  | Decimal.D6 r => ch "6" :: digits_of_uint r
  | Decimal.D7 r => ch "7" :: digits_of_uint r
  | Decimal.D8 r => ch "8" :: digits_of_uint r
  | Decimal.D9 r => ch "9" :: digits_of_uint r
  end.

(** [itoa(n, buf, 10)] and [ltoa(n, buf, 10)]: the characters stored before
    the terminating NUL. *)
Definition ltoa (n : Z) : list Z :=
  if n <? 0 then ch "-" :: digits_of_uint (N.to_uint (Z.to_N (- n)))
  else digits_of_uint (N.to_uint (Z.to_N n)).

Definition itoa (n : Z) : list Z := ltoa n.

Fixpoint skip_space (s : list Z) : list Z :=
  match s with
  | c :: r => if isspace c then skip_space r else s
  | [] => []
  end.

Fixpoint parse_digits (acc : Z) (s : list Z) : Z :=
  match s with
  | c :: r => if isdigit c then parse_digits (acc * 10 + (c - ch "0")) r else acc
  | [] => acc
  end.

(** [atol]: leading white space, an optional sign, then decimal digits up
    to the first other character (the NUL at the latest).  The 32-bit
    result wraps around. *)
Definition atol (s : list Z) : Z :=
  match skip_space s with
  | c :: r =>
      if c =? ch "-" then int32 (- parse_digits 0 r)
      else if c =? ch "+" then int32 (parse_digits 0 r)
      else int32 (parse_digits 0 (c :: r))
  | [] => 0
  end.

(** [atoi] is only applied to the two address characters, whose value is
    between -9 and 99 and fits every [int]. *)
Definition atoi (s : list Z) : Z := atol s.

(** ** MingHeChecksum.cpp *)

Module MingHeBuckConverterChecksum.

(** The state of the class is its one byte [counter_]. *)
Definition reset (counter_ : Z) : Z := 0.

Definition constructor : Z := reset 0.

(** [while (counter_ >= 26) counter_ -= 26;]  Every turn takes 26 off the
    counter, so a counter of value [n] allows at most [n] turns: with
    [turns] at least the counter, [turns = 0] is only reached with the
    loop condition false. *)
Fixpoint subtract_loop (turns : nat) (counter_ : Z) : Z :=
  match turns with
  | O => counter_
  | S turns' =>
      if 26 <=? counter_ then subtract_loop turns' (uint8 (counter_ - 26))
      else counter_
  end.

Definition addOutputCharacter (c : Z) (counter_ : Z) : Z :=
  let counter_ := uint8 (counter_ + c) in
  subtract_loop (Z.to_nat counter_) counter_.

Fixpoint addOutputString (s : list Z) (counter_ : Z) : Z :=
  match s with
  | [] => counter_
  | c :: r => if c =? 0 then counter_ else addOutputString r (addOutputCharacter c counter_)
  end.

Definition getChecksumCharacter (counter_ : Z) : Z := uint8 (counter_ + ch "A").

End MingHeBuckConverterChecksum.


(** ** The serial port (SoftwareSerial and the millisecond clock)

    [rx_line] lists the bytes that have not been read yet, in order of
    arrival.  The delay of a byte is the time in milliseconds between the
    arrival of the byte before it (or now, when that byte has arrived
    already) and its own arrival; a byte whose delay is 0 at the head of the
    line is in the receive buffer.  Time only passes where the code waits:
    in the polling loop of [readCharUntilTimeout], one millisecond per
    unsuccessful poll, and in [delay]. *)

Record SoftwareSerial := mkSerial {
  clock : Z;
  rx_line : list (Z * Z);
  tx_log : list Z
}.

(** The line after [n] milliseconds: the bytes due within [n] ms move into
    the receive buffer, the next one is [n] ms closer. *)
Fixpoint advance (n : Z) (line : list (Z * Z)) : list (Z * Z) :=
  match line with
  | [] => []
  | (d, b) :: rest =>
      if n <=? 0 then line
      else if d <=? n then (0, b) :: advance (n - Z.max d 0) rest
      else (d - n, b) :: rest
  end.

(** [n] milliseconds pass. *)
Definition elapse (n : Z) (p : SoftwareSerial) : SoftwareSerial :=
  mkSerial (clock p + n) (advance n (rx_line p)) (tx_log p).

Definition delay (ms : Z) (p : SoftwareSerial) : SoftwareSerial := elapse ms p.

(** [millis()] is a [uint32_t] and wraps around. *)
Definition millis (p : SoftwareSerial) : Z := uint32 (clock p).

Definition available (p : SoftwareSerial) : bool :=
  match rx_line p with
  | (d, _) :: _ => d <=? 0
  | [] => false
  end.

(** [peek()] and [read()] return -1 when nothing is in the buffer. *)
Definition peek (p : SoftwareSerial) : Z :=
  match rx_line p with
  | (d, b) :: _ => if d <=? 0 then b else -1
  | [] => -1
  end.

Definition read (p : SoftwareSerial) : Z * SoftwareSerial :=
  match rx_line p with
  | (d, b) :: rest =>
      if d <=? 0 then (b, mkSerial (clock p) rest (tx_log p)) else (-1, p)
  | [] => (-1, p)
  end.

Definition write (c : Z) (p : SoftwareSerial) : SoftwareSerial :=
  mkSerial (clock p) (rx_line p) (tx_log p ++ [c]).

(** ** MingHeBuckConverter.h *)

Definition MINGHE_PER_CHARACTER_TIMEOUT_MS : Z := 500.
Definition MINGHE_MAX_JUNK_CHARACTERS : Z := 32.
Definition MINGHE_COMMAND_MAMP_HOURS : Z := ch "a".
Definition MINGHE_COMMAND_RUNTIME : Z := ch "t".
Definition MINGHE_COMMAND_MACHINE_MODEL : Z := ch "z".
Definition MINGHE_POST_READ_DELAY_MS : Z := 5.
Definition REQUEST_GET : bool := false.
Definition REQUEST_SET : bool := true.
Definition MAMP_HOUR_TOLERANCE : Z := 100.
Definition SECOND_TOLERANCE : Z := 2.

Definition response_ok : list Z := bytes "ok".
Definition response_err : list Z := bytes "err".

(** The private members of the class. *)
Record MingHeBuckConverter := mkConverter {
  swserial_ : SoftwareSerial;
  checksum_ : Z;
  device_id_ : Z
}.

Definition with_serial (p : SoftwareSerial) (s : MingHeBuckConverter) :=
  mkConverter p (checksum_ s) (device_id_ s).

Definition with_checksum (k : Z) (s : MingHeBuckConverter) :=
  mkConverter (swserial_ s) k (device_id_ s).

(** The constructor, given the port it opens; [device_id] is a [uint8_t]. *)
Definition constructor (port : SoftwareSerial) (device_id : Z) : MingHeBuckConverter :=
  mkConverter port MingHeBuckConverterChecksum.constructor (uint8 device_id).

Definition resetDeviceId (device_id : Z) (s : MingHeBuckConverter) : MingHeBuckConverter :=
  mkConverter (swserial_ s) (checksum_ s) (uint8 device_id).

Definition checksum_reset (s : MingHeBuckConverter) : MingHeBuckConverter :=
  with_checksum (MingHeBuckConverterChecksum.reset (checksum_ s)) s.

Definition checksum_addOutputCharacter (c : Z) (s : MingHeBuckConverter) : MingHeBuckConverter :=
  with_checksum (MingHeBuckConverterChecksum.addOutputCharacter c (checksum_ s)) s.

Definition checksum_getChecksumCharacter (s : MingHeBuckConverter) : Z :=
  MingHeBuckConverterChecksum.getChecksumCharacter (checksum_ s).

(** ** MingHeBuckConverter.cpp: sending *)

Definition sendSerialChar (c : Z) (s : MingHeBuckConverter) : MingHeBuckConverter :=
  let s := checksum_addOutputCharacter c s in
  with_serial (write c (swserial_ s)) s.

(** The loop over [value] in [sendRequest]: every character up to the
    terminating NUL is sent. *)
Fixpoint sendSerialChars (p : list Z) (s : MingHeBuckConverter) : MingHeBuckConverter :=
  match p with
  | [] => s
  | c :: r => if c =? 0 then s else sendSerialChars r (sendSerialChar c s)
  end.

(** [value] is [None] for a null pointer.  [itoa] stores the digits of
    [device_id_] and a NUL into [char address[3]]: with three digits the
    NUL is written past the end of the array and the call has no defined
    result. *)
Definition sendRequest (set : bool) (command : Z) (value : option (list Z))
    (s : MingHeBuckConverter) : option MingHeBuckConverter :=
  let s := checksum_reset s in
  let s := sendSerialChar (ch ":") s in
  let address := itoa (device_id_ s) in
  if (3 <? Z.of_nat (length address) + 1) then None
  else
    let s :=
      if device_id_ s <? 10 then
        sendSerialChar (load 0 address) (sendSerialChar (ch "0") s)
      else
        sendSerialChar (load 1 address) (sendSerialChar (load 0 address) s) in
    let s := sendSerialChar (if set then ch "s" else ch "r") s in
    let s := sendSerialChar command s in
    let s :=
      match value with
      | Some p => sendSerialChars p s
      | None => s
      end in
    let s := with_serial (write (checksum_getChecksumCharacter s) (swserial_ s)) s in
    let s := with_serial (write newline (swserial_ s)) s in
    Some s.

(** ** MingHeBuckConverter.cpp: receiving *)

(** The polling loop of [readCharUntilTimeout]: one millisecond passes
    between a poll that finds the buffer empty and the next one. *)
Equations? wait_loop (timeout_ms start_millis : Z) (p : SoftwareSerial) : Z * SoftwareSerial
  by wf (Z.to_nat (uint32 timeout_ms - uint32 (millis p - start_millis))) lt :=
  wait_loop timeout_ms start_millis p with available p => {
    | true := let '(c, p') := read p in (uint8 c, p');
    | false with Z_ge_dec (uint32 (millis p - start_millis)) (uint32 timeout_ms) => {
        | left _ := (0, p);
        | right _ := wait_loop timeout_ms start_millis (elapse 1 p) } }.
Proof.
  unfold millis, elapse, uint32 in *; cbn [clock] in *.
  set (m := 2 ^ 32) in *.
  assert (Hm : 0 < m) by (unfold m; lia).
  pose proof (Z.mod_pos_bound timeout_ms m Hm).
  rewrite !Zminus_mod_idemp_l in *.
  pose proof (Z.mod_pos_bound (clock p - start_millis) m Hm).
  replace (clock p + 1 - start_millis) with ((clock p - start_millis) + 1) by lia.
  assert (E : (clock p - start_millis + 1) mod m = (clock p - start_millis) mod m + 1).
  { rewrite <- Zplus_mod_idemp_l. apply Z.mod_small. lia. }
  rewrite E. lia.
Qed.

Definition readCharUntilTimeout (timeout_ms : Z) (s : MingHeBuckConverter)
    : Z * MingHeBuckConverter :=
  let start_millis := millis (swserial_ s) in
  let '(c, p) := wait_loop timeout_ms start_millis (swserial_ s) in
  (c, with_serial p s).

(** The [while (1)] loop of [swallowNewlines]: every turn either returns or
    takes one byte out of the receive buffer. *)
Equations? swallow_loop (p : SoftwareSerial) : SoftwareSerial
  by wf (length (rx_line p)) lt :=
  swallow_loop p with Sumbool.sumbool_of_bool (available p) => {
    | right _ := delay MINGHE_POST_READ_DELAY_MS p;
    | left Hav with (peek p =? carriage_return) || (peek p =? newline) => {
        | true := swallow_loop (snd (read p));
        | false := p } }.
Proof.
  unfold available, read in *.
  destruct (rx_line p) as [|[d b] rest]; [discriminate|].
  rewrite Hav. simpl. lia.
Qed.

Definition swallowNewlines (timeout_ms : Z) (s : MingHeBuckConverter) : MingHeBuckConverter :=
  with_serial (swallow_loop (swserial_ s)) s.

(** The number of turns the loop below can still take before [chars_read],
    a [uint8_t], reaches [MINGHE_MAX_JUNK_CHARACTERS]. *)
Definition junk_budget_left (chars_read : Z) : nat :=
  Z.to_nat ((31 - uint8 chars_read) mod 2 ^ 8).
Arguments junk_budget_left : simpl never.

(** The [do ... while (c != ':')] loop of [readResponseIntoBuffer].
    [None] is the [return false] inside the loop, [Some c] the normal exit
    with the last character read. *)
Equations? sync_loop (chars_read : Z) (s : MingHeBuckConverter)
    : option Z * MingHeBuckConverter
  by wf (junk_budget_left chars_read) lt :=
  sync_loop chars_read s with readCharUntilTimeout MINGHE_PER_CHARACTER_TIMEOUT_MS s => {
    | (c, s1) with Z_ge_dec (uint8 (chars_read + 1)) MINGHE_MAX_JUNK_CHARACTERS => {
        | left _ := (None, s1);
        | right _ with Z.eq_dec c (ch ":") => {
            | left _ := (Some c, s1);
            | right _ := sync_loop (uint8 (chars_read + 1)) s1 } } }.
Proof.
  unfold junk_budget_left, MINGHE_MAX_JUNK_CHARACTERS, uint8 in *.
  set (m := 2 ^ 8) in *.
  assert (Hm : m = 256) by reflexivity.
  rewrite Z.mod_mod by lia.
  rewrite <- Zplus_mod_idemp_l in *.
  pose proof (Z.mod_pos_bound chars_read m ltac:(lia)) as Hb.
  destruct (Z.eq_dec (chars_read mod m) 255) as [E|E].
  - rewrite E. rewrite Hm. vm_compute. apply le_n.
  - rewrite (Z.mod_small (chars_read mod m + 1)) in * by lia.
    rewrite (Z.mod_small (31 - (chars_read mod m + 1))) by lia.
    rewrite (Z.mod_small (31 - chars_read mod m)) by lia. lia.
Qed.

(** The [for (data_length = 0; data_length < buffer_length; data_length++)]
    loop; [n] is [buffer_length - data_length].  The boolean is [false]
    for the [return false] of a checksum mismatch and [true] for the exit
    through [break] or through the loop condition; with it comes the
    buffer as the loop leaves it, the bytes stored before a mismatch
    included. *)
Fixpoint payload_loop (n : nat) (data_length : nat) (buffer : list Z)
    (s : MingHeBuckConverter) : (bool * list Z) * MingHeBuckConverter :=
  match n with
  | O => ((true, buffer), s)
  | S n' =>
      let '(c, s1) := readCharUntilTimeout MINGHE_PER_CHARACTER_TIMEOUT_MS s in
      if isupper c then
        if negb (c =? checksum_getChecksumCharacter s1) then ((false, buffer), s1)
        else ((true, buffer), s1)
      else
        payload_loop n' (S data_length) (store data_length c buffer)
          (checksum_addOutputCharacter c s1)
  end.

(** [readResponseIntoBuffer(buffer, buffer_length)] returns its boolean
    together with the contents of [buffer] afterwards. *)
Definition readResponseIntoBuffer (buffer : list Z) (buffer_length : Z)
    (s : MingHeBuckConverter) : (bool * list Z) * MingHeBuckConverter :=
  let s := checksum_reset s in
  match sync_loop 0 s with
  | (None, s) => ((false, buffer), s)
  | (Some c, s) =>
      let s := checksum_addOutputCharacter c s in
      let '(d0, s) := readCharUntilTimeout MINGHE_PER_CHARACTER_TIMEOUT_MS s in
      let s := checksum_addOutputCharacter d0 s in
      let '(d1, s) := readCharUntilTimeout MINGHE_PER_CHARACTER_TIMEOUT_MS s in
      let s := checksum_addOutputCharacter d1 s in
      let device_id := [d0; d1; 0] in
      if negb (atoi device_id =? device_id_ s) then ((false, buffer), s)
      else
        match payload_loop (Z.to_nat (uint8 buffer_length)) 0 buffer s with
        | ((false, buffer), s) => ((false, buffer), s)
        | ((true, buffer), s) =>
            let s := swallowNewlines MINGHE_PER_CHARACTER_TIMEOUT_MS s in
            ((true, buffer), s)
        end
  end.

Definition response_buffer_init : list Z := repeat 0 16.

(** The copy loop of [readResponse]; [n] is the number of turns left and
    [value] the bytes stored so far into [value[0..i-1]]. *)
Fixpoint copy_loop (n : nat) (i : nat) (response_buffer value : list Z) : list Z :=
  match n with
  | O => value
  | S n' =>
      let value := value ++ [load (i + 2) response_buffer] in
      if negb (isdigit (load i value)) then value
      else copy_loop n' (S i) response_buffer value
  end.

(** [readResponse(set, command, value)] returns its boolean and the bytes
    it stored into [value[0]], [value[1]], ... (none when it fails). *)
Definition readResponse (set : bool) (command : Z) (s : MingHeBuckConverter)
    : (bool * list Z) * MingHeBuckConverter :=
  let response_buffer := response_buffer_init in
  match readResponseIntoBuffer response_buffer (16 - 1) s with
  | ((false, _), s) => ((false, []), s)
  | ((true, response_buffer), s) =>
      if negb (load 0 response_buffer =? (if set then ch "s" else ch "r")) then
        ((false, []), s)
      else if negb (load 1 response_buffer =? command) then
        ((false, []), s)
      else
        ((true, copy_loop (16 - 2) 0 response_buffer []), s)
  end.

(** [strcmp_P(response_buffer, response_ok) == 0] *)
Definition checkForOk (s : MingHeBuckConverter) : bool * MingHeBuckConverter :=
  let response_buffer := response_buffer_init in
  match readResponseIntoBuffer response_buffer (16 - 1) s with
  | ((false, _), s) => (false, s)
  | ((true, response_buffer), s) =>
      if list_eqb (cstring response_buffer) response_ok then (true, s)
      else (false, s)
  end.

(** ** MingHeBuckConverter.cpp: commands *)

Definition bind {A B} (m : option (A * MingHeBuckConverter))
    (k : A -> MingHeBuckConverter -> option (B * MingHeBuckConverter))
    : option (B * MingHeBuckConverter) :=
  match m with
  | Some (a, s) => k a s
  | None => None
  end.

(** [char response[11] = {0}]: storing more than 11 bytes through [value]
    overruns the array. *)
Definition executeGetCommand (command : Z) (s : MingHeBuckConverter)
    : option (Z * MingHeBuckConverter) :=
  match sendRequest REQUEST_GET command None s with
  | None => None
  | Some s =>
      match readResponse REQUEST_GET command s with
      | ((false, _), s) => Some (0, s)
      | ((true, value), s) =>
          if (11 <? Z.of_nat (length value)) then None
          else
            let response := value ++ repeat 0 (11 - length value) in
            Some (uint32 (atol response), s)
      end
  end.

Definition getmAmpHours := executeGetCommand MINGHE_COMMAND_MAMP_HOURS.
Definition getPowerOnTime := executeGetCommand MINGHE_COMMAND_RUNTIME.

(** [value] is a [uint32_t]; [ltoa] takes a [long]. *)
Definition executeSetCommand (command : Z) (value : Z) (s : MingHeBuckConverter)
    : option (bool * MingHeBuckConverter) :=
  let request := ltoa (int32 (uint32 value)) in
  match sendRequest REQUEST_SET command (Some request) s with
  | None => None
  | Some s =>
      let '(ok, s) := checkForOk s in
      if ok then Some (true, s) else Some (false, s)
  end.

Definition setmAmpHours (mamp_hours : Z) (s : MingHeBuckConverter)
    : option (bool * MingHeBuckConverter) :=
  bind (executeSetCommand MINGHE_COMMAND_MAMP_HOURS mamp_hours s) (fun ok s =>
    if ok then
      bind (getmAmpHours s) (fun r s =>
        let diff := uint32 (r - uint32 mamp_hours) in
        if diff <? MAMP_HOUR_TOLERANCE then Some (true, s) else Some (false, s))
    else Some (false, s)).

Definition setPowerOnTime (seconds : Z) (s : MingHeBuckConverter)
    : option (bool * MingHeBuckConverter) :=
  bind (executeSetCommand MINGHE_COMMAND_RUNTIME seconds s) (fun ok s =>
    if ok then
      bind (getPowerOnTime s) (fun r s =>
        let diff := uint32 (r - uint32 seconds) in
        if diff <? SECOND_TOLERANCE then Some (true, s) else Some (false, s))
    else Some (false, s)).

(** ** Vocabulary of the statements *)

(** A call made on a checksum object after its construction. *)
Inductive checksum_call :=
| call_reset
| call_addOutputCharacter (c : Z)
| call_addOutputString (s : list Z).

Definition checksum_step (counter_ : Z) (call : checksum_call) : Z :=
  match call with
  | call_reset => MingHeBuckConverterChecksum.reset counter_
  | call_addOutputCharacter c => MingHeBuckConverterChecksum.addOutputCharacter c counter_
  | call_addOutputString s => MingHeBuckConverterChecksum.addOutputString s counter_
  end.

Definition checksum_run (calls : list checksum_call) : Z :=
  fold_left checksum_step calls MingHeBuckConverterChecksum.constructor.

(** A [char]: a byte value. *)
Definition is_char (c : Z) : bool := (0 <=? c) && (c <? 256).

(** The bytes of a receive line, and the lines on which every byte arrives
    within the per-character timeout after the one before it. *)
Definition line_bytes (line : list (Z * Z)) : list Z := map snd line.

Definition prompt (line : list (Z * Z)) : bool :=
  forallb (fun e => fst e <=? MINGHE_PER_CHARACTER_TIMEOUT_MS) line.

(** Bytes that are all in the receive buffer already. *)
Definition buffered (l : list Z) : list (Z * Z) := map (fun b => (0, b)) l.

(** The accumulator after the characters [l] have been added in order. *)
Definition checksum_of (l : list Z) (counter_ : Z) : Z :=
  fold_left (fun k c => MingHeBuckConverterChecksum.addOutputCharacter c k) l counter_.

(** Consecutive stores [buffer[i] = x0; buffer[i+1] = x1; ...]. *)
Fixpoint store_from (i : nat) (l : list Z) (buffer : list Z) : list Z :=
  match l with
  | [] => buffer
  | x :: r => store_from (S i) r (store i x buffer)
  end.

(** The bytes [sendRequest] writes on a port whose log is empty. *)
Definition request_bytes (device_id : Z) (set : bool) (command : Z)
    (value : option (list Z)) : option (list Z) :=
  match sendRequest set command value (constructor (mkSerial 0 [] []) device_id) with
  | Some s => Some (tx_log (swserial_ s))
  | None => None
  end.

(** The number a string of decimal digits denotes. *)
Definition decimal (digits : list Z) : Z :=
  fold_left (fun acc c => acc * 10 + (c - ch "0")) digits 0.

(** The character that stands for the direction of a request. *)
Definition direction_char (set : bool) : Z := if set then ch "s" else ch "r".

(** The characters of a request up to and including its value field, for
    an address below 100. *)
Definition request_body (device_id : Z) (set : bool) (command : Z)
    (value : option (list Z)) : list Z :=
  ch ":" :: (ch "0" + device_id / 10) :: (ch "0" + device_id mod 10)
    :: direction_char set :: command
    :: match value with Some p => cstring p | None => [] end.

(** The sum of the byte values of a string. *)
Definition ascii_sum (l : list Z) : Z := fold_right Z.add 0 l.

(** Seven-bit characters. *)
Definition is_ascii (c : Z) : bool := (0 <=? c) && (c <? 128).

Definition value_chars (value : option (list Z)) : list Z :=
  match value with Some p => p | None => [] end.

(** A converter for address [device_id] whose port holds [l] in its
    receive buffer. *)
Definition listening (device_id : Z) (l : list Z) : MingHeBuckConverter :=
  constructor (mkSerial 0 (buffered l) []) device_id.

(** Lines that never deliver the start marker. *)
Definition no_colon (line : list (Z * Z)) : bool :=
  forallb (fun e => negb (uint8 (snd e) =? ch ":")) line.

(** Nothing arrives on the line during the next [ms] milliseconds. *)
Definition silent_for (ms : Z) (line : list (Z * Z)) : bool :=
  match line with
  | [] => true
  | (d, _) :: _ => ms <? d
  end.

Definition with_line (line : list (Z * Z)) (s : MingHeBuckConverter) : MingHeBuckConverter :=
  with_serial (mkSerial (clock (swserial_ s)) line (tx_log (swserial_ s))) s.

(** The line [line] with its first byte held back by [ms] more
    milliseconds. *)
Definition postpone (ms : Z) (line : list (Z * Z)) : list (Z * Z) :=
  match line with
  | [] => []
  | (d, b) :: rest => (Z.max d 0 + ms, b) :: rest
  end.

(** Two converters that differ at most in their clocks and in that, after
    the same bytes [pre], the line of the first delivers a NUL byte in time
    where the line of the second stays silent for one per-character
    timeout; what follows is the same on both. *)
Inductive alike : MingHeBuckConverter -> MingHeBuckConverter -> Prop :=
| alike_same k1 k2 line log c id :
    alike (mkConverter (mkSerial k1 line log) c id)
          (mkConverter (mkSerial k2 line log) c id)
| alike_nul k1 k2 pre dn rest log c id :
    dn <= MINGHE_PER_CHARACTER_TIMEOUT_MS ->
    silent_for 0 rest = true ->
    alike (mkConverter (mkSerial k1 (pre ++ (dn, 0) :: rest) log) c id)
          (mkConverter
             (mkSerial k2 (pre ++ postpone MINGHE_PER_CHARACTER_TIMEOUT_MS rest) log) c id).

(** The state a command leaves behind ([s] itself when it has no defined
    result). *)
Definition state_after {A} (r : option (A * MingHeBuckConverter))
    (s : MingHeBuckConverter) : MingHeBuckConverter :=
  match r with
  | Some (_, s') => s'
  | None => s
  end.

(** ** MingHeBuckConverter.cpp: the other getters and setters *)

Definition uint16 (x : Z) : Z := x mod 2 ^ 16.

(** The conversion of an integer to [bool]. *)
Definition to_bool (x : Z) : bool := negb (x =? 0).

(** The conversion of a [bool] to an integer. *)
Definition of_bool (b : bool) : Z := if b then 1 else 0.

Definition MINGHE_COMMAND_MAX_VOLTAGE : Z := ch "u".
Definition MINGHE_COMMAND_MAX_CURRENT : Z := ch "i".
Definition MINGHE_COMMAND_VOLTAGE : Z := ch "v".
Definition MINGHE_COMMAND_CURRENT : Z := ch "j".
Definition MINGHE_COMMAND_OUTPUT_STATE : Z := ch "o".
Definition MINGHE_COMMAND_LIMITING_FACTOR : Z := ch "c".
Definition MINGHE_COMMAND_WATTS : Z := ch "w".
Definition MINGHE_COMMAND_TEMPERATURE : Z := ch "p".
Definition MINGHE_COMMAND_SHUTDOWN_TEMPERATURE : Z := ch "e".
Definition MINGHE_COMMAND_FAN_TEMPERATURE : Z := ch "f".
Definition MINGHE_COMMAND_FAST_VOLTAGE_CHANGE : Z := ch "g".
Definition MINGHE_COMMAND_BOOT_OUTPUT_ENABLED : Z := ch "s".
Definition MINGHE_COMMAND_BEEPER_ENABLED : Z := ch "x".
Definition MINGHE_COMMAND_COMMUNICATION_VERSION : Z := ch "r".
Definition MINGHE_COMMAND_BAUD_RATE : Z := ch "b".
Definition MINGHE_COMMAND_ADDRESS : Z := ch "d".
Definition MINGHE_COMMAND_STORE_TO_MEMORY : Z := ch "m".
Definition MINGHE_COMMAND_LOAD_FROM_MEMORY : Z := ch "n".

(** A getter is [executeGetCommand] followed by a conversion of its
    [uint32_t] result to the return type. *)
Definition get_as {A} (convert : Z -> A) (command : Z) (s : MingHeBuckConverter)
    : option (A * MingHeBuckConverter) :=
  bind (executeGetCommand command s) (fun r s => Some (convert r, s)).

Definition getMachineModel := get_as uint16 MINGHE_COMMAND_MACHINE_MODEL.
Definition getMaxVoltage := get_as uint16 MINGHE_COMMAND_MAX_VOLTAGE.
Definition getMaxCurrent := get_as uint16 MINGHE_COMMAND_MAX_CURRENT.
Definition getOutputEnabled := get_as to_bool MINGHE_COMMAND_OUTPUT_STATE.
Definition getVoltage := get_as uint16 MINGHE_COMMAND_VOLTAGE.
Definition getCurrent := get_as uint16 MINGHE_COMMAND_CURRENT.
Definition getLimitingFactor := get_as uint8 MINGHE_COMMAND_LIMITING_FACTOR.
Definition getWatts := executeGetCommand MINGHE_COMMAND_WATTS.
Definition getTemperature := get_as uint16 MINGHE_COMMAND_TEMPERATURE.
Definition getShutdownTemperature := get_as uint16 MINGHE_COMMAND_SHUTDOWN_TEMPERATURE.
Definition getFanStartTemperature := get_as uint16 MINGHE_COMMAND_FAN_TEMPERATURE.
Definition getFastVoltageChangeEnabled := get_as to_bool MINGHE_COMMAND_FAST_VOLTAGE_CHANGE.
Definition getBootOutputEnabled := get_as to_bool MINGHE_COMMAND_BOOT_OUTPUT_ENABLED.
Definition getBeeperEnabled := get_as to_bool MINGHE_COMMAND_BEEPER_ENABLED.
Definition getCommunicationVersion := get_as uint16 MINGHE_COMMAND_COMMUNICATION_VERSION.

(** [model_number] is a [uint16_t]. *)
Definition testConnection (model_number : Z) (s : MingHeBuckConverter)
    : option (bool * MingHeBuckConverter) :=
  bind (getMachineModel s) (fun model s =>
    if model =? uint16 model_number then Some (true, s) else Some (false, s)).

(** The setters that read the value back and compare it for equality:
    [if (executeSetCommand(command, value)) return (getter() == value);
     return false;] *)
Definition set_and_verify {A} (command : Z) (value : Z)
    (getter : MingHeBuckConverter -> option (A * MingHeBuckConverter))
    (same : A -> bool) (s : MingHeBuckConverter)
    : option (bool * MingHeBuckConverter) :=
  bind (executeSetCommand command value s) (fun ok s =>
    if ok then bind (getter s) (fun r s => Some (same r, s))
    else Some (false, s)).

Definition setMaxVoltage (volts_100 : Z) :=
  set_and_verify MINGHE_COMMAND_MAX_VOLTAGE (uint16 volts_100) getMaxVoltage
    (fun r => r =? uint16 volts_100).

Definition setMaxCurrent (amps_100 : Z) :=
  set_and_verify MINGHE_COMMAND_MAX_CURRENT (uint16 amps_100) getMaxCurrent
    (fun r => r =? uint16 amps_100).

Definition setOutputEnabled (enabled : bool) :=
  set_and_verify MINGHE_COMMAND_OUTPUT_STATE (of_bool enabled) getOutputEnabled
    (fun r => Bool.eqb r enabled).

Definition setShutdownTemperature (degrees_c : Z) :=
  set_and_verify MINGHE_COMMAND_SHUTDOWN_TEMPERATURE (uint8 degrees_c)
    getShutdownTemperature (fun r => r =? uint8 degrees_c).

Definition setFanStartTemperature (degrees_c : Z) :=
  set_and_verify MINGHE_COMMAND_FAN_TEMPERATURE (uint8 degrees_c)
    getFanStartTemperature (fun r => r =? uint8 degrees_c).

Definition setBootOutputEnabled (enabled : bool) :=
  set_and_verify MINGHE_COMMAND_BOOT_OUTPUT_ENABLED (of_bool enabled)
    getBootOutputEnabled (fun r => Bool.eqb r enabled).

Definition setBeeperEnabled (enabled : bool) :=
  set_and_verify MINGHE_COMMAND_BEEPER_ENABLED (of_bool enabled)
    getBeeperEnabled (fun r => Bool.eqb r enabled).

Definition setFastVoltageChangeEnabled (enabled : bool) :=
  set_and_verify MINGHE_COMMAND_FAST_VOLTAGE_CHANGE (of_bool enabled)
    getFastVoltageChangeEnabled (fun r => Bool.eqb r enabled).

(** The setters without read-back; their arguments are [uint8_t]. *)
Definition setBaudRate (baud_rate_index : Z) :=
  executeSetCommand MINGHE_COMMAND_BAUD_RATE (uint8 baud_rate_index).

Definition setAddress (new_address : Z) :=
  executeSetCommand MINGHE_COMMAND_ADDRESS (uint8 new_address).

Definition storeToMemory (slot : Z) :=
  executeSetCommand MINGHE_COMMAND_STORE_TO_MEMORY (uint8 slot).

Definition loadFromMemory (slot : Z) :=
  executeSetCommand MINGHE_COMMAND_LOAD_FROM_MEMORY (uint8 slot).

(** ** MingHeBuckConverter.cpp: the baud rate table

    [minghe_baud_index_table] holds eight [uint32_t] in program memory,
    four bytes each, least significant byte first.  The constructor and
    [resetBaudrate] fetch the rate with [pgm_read_word_near], which reads
    the two bytes at the address of the entry. *)

Definition minghe_baud_index_table : list Z :=
  [9600; 19200; 38400; 57600; 115200; 1200; 2400; 4800].

Fixpoint little_endian (n : nat) (x : Z) : list Z :=
  match n with
  | O => []
  | S n' => x mod 256 :: little_endian n' (x / 256)
  end.

Definition progmem_table : list Z :=
  flat_map (little_endian 4) minghe_baud_index_table.

(** [pgm_read_word_near] at byte offset [address] of the table; reading
    past the table has no defined result. *)
Definition pgm_read_word_near (address : nat) : option Z :=
  match nth_error progmem_table address, nth_error progmem_table (S address) with
  | Some lo, Some hi => Some (lo + 256 * hi)
  | _, _ => None
  end.

(** The rate passed to [swserial_->begin] for a baud index (a
    [uint8_t]). *)
Definition begin_baud_rate (baud_index : Z) : option Z :=
  pgm_read_word_near (4 * Z.to_nat (uint8 baud_index)).

(** The characters a payload can hold without ending the frame:
    seven-bit and not an upper-case letter. *)
Definition payload_char (b : Z) : bool := is_ascii b && negb (isupper b).

(** The part of [readResponseIntoBuffer] that follows the search for the
    start marker, [c] being the character on which the search stopped. *)
Definition read_after_marker (buffer : list Z) (buffer_length : Z) (c : Z)
    (s : MingHeBuckConverter) : (bool * list Z) * MingHeBuckConverter :=
  let s := checksum_addOutputCharacter c s in
  let '(d0, s) := readCharUntilTimeout MINGHE_PER_CHARACTER_TIMEOUT_MS s in
  let s := checksum_addOutputCharacter d0 s in
  let '(d1, s) := readCharUntilTimeout MINGHE_PER_CHARACTER_TIMEOUT_MS s in
  let s := checksum_addOutputCharacter d1 s in
  let device_id := [d0; d1; 0] in
  if negb (atoi device_id =? device_id_ s) then ((false, buffer), s)
  else
    match payload_loop (Z.to_nat (uint8 buffer_length)) 0 buffer s with
    | ((false, buffer), s) => ((false, buffer), s)
    | ((true, buffer), s) =>
        let s := swallowNewlines MINGHE_PER_CHARACTER_TIMEOUT_MS s in
        ((true, buffer), s)
    end.

(** What reading leaves alone: the address and the bytes written so
    far. *)
Definition kept (s s' : MingHeBuckConverter) : Prop :=
  device_id_ s' = device_id_ s /\ tx_log (swserial_ s') = tx_log (swserial_ s).

Definition is_newline (b : Z) : bool := (b =? carriage_return) || (b =? newline).

(** Carriage returns and line feeds that are in the receive buffer. *)
Definition buffered_newlines (line : list (Z * Z)) : bool :=
  forallb (fun e => (fst e <=? 0) && is_newline (snd e)) line.

(** A line that does not start with a carriage return or line feed that
    is in the receive buffer: it is empty, or its first byte has not
    arrived yet, or that byte is another character. *)
Definition ends_newlines (line : list (Z * Z)) : bool :=
  match line with
  | [] => true
  | (d, b) :: _ => negb ((d <=? 0) && is_newline b)
  end.

(** What reading does to the line: the bytes still to come after it are
    the bytes that were to come before it, less some at the front. *)
Definition taken (s s' : MingHeBuckConverter) : Prop :=
  exists n, line_bytes (rx_line (swserial_ s')) = skipn n (line_bytes (rx_line (swserial_ s))).

(** * Properties *)

(** ** The checksum accumulator *)

Section ChecksumFacts.
Import MingHeBuckConverterChecksum.

Lemma uint8_range x : 0 <= uint8 x < 256.
Proof. unfold uint8. apply Z.mod_pos_bound. lia. Qed.

Lemma uint8_small x : 0 <= x < 256 -> uint8 x = x.
Proof. intros H. unfold uint8. apply Z.mod_small. lia. Qed.

(** The loop leaves the residue modulo 26 of a byte, and the loop
    condition is false when it stops. *)
Lemma subtract_loop_mod turns : forall counter_,
  0 <= counter_ < 256 -> (Z.to_nat counter_ <= turns)%nat ->
  subtract_loop turns counter_ = counter_ mod 26.
Proof.
  induction turns as [|n IH]; intros c H Hn; simpl.
  - symmetry. apply Z.mod_small. lia.
  - destruct (Z.leb_spec 26 c) as [Hge|Hlt].
    + rewrite uint8_small by lia. rewrite IH by lia.
      replace c with ((c - 26) + 1 * 26) at 2 by lia.
      rewrite Z.mod_add by lia. reflexivity.
    + symmetry. apply Z.mod_small. lia.
Qed.

Lemma addOutputCharacter_range c counter_ :
  0 <= addOutputCharacter c counter_ < 26.
Proof.
  unfold addOutputCharacter. cbv zeta.
  rewrite subtract_loop_mod; [|apply uint8_range|lia].
  apply Z.mod_pos_bound. lia.
Qed.

(** No wrap-around of the byte happens on characters up to 230. *)
Lemma addOutputCharacter_mod c counter_ :
  0 <= counter_ < 26 -> 0 <= c <= 230 ->
  addOutputCharacter c counter_ = (counter_ + c) mod 26.
Proof.
  intros Hk Hc. unfold addOutputCharacter. cbv zeta.
  rewrite uint8_small by lia. apply subtract_loop_mod; lia.
Qed.

Lemma getChecksumCharacter_letter counter_ :
  0 <= counter_ < 26 ->
  getChecksumCharacter counter_ = ch "A" + counter_ /\
  isupper (getChecksumCharacter counter_) = true.
Proof.
  intros H. unfold getChecksumCharacter.
  change (ch "A") with 65. rewrite uint8_small by lia.
  split; [lia|]. unfold isupper. change (ch "A") with 65. change (ch "Z") with 90.
  apply andb_true_intro. split; apply Z.leb_le; lia.
Qed.

End ChecksumFacts.

Section ChecksumInvariant.
Import MingHeBuckConverterChecksum.

Lemma addOutputString_range s counter_ :
  0 <= counter_ < 26 -> 0 <= addOutputString s counter_ < 26.
Proof.
  revert counter_. induction s as [|c r IH]; intros k Hk; simpl; [exact Hk|].
  destruct (c =? 0); [exact Hk|]. apply IH, addOutputCharacter_range.
Qed.

Lemma checksum_step_range counter_ call :
  0 <= counter_ < 26 -> 0 <= checksum_step counter_ call < 26.
Proof.
  intros Hk. destruct call; simpl.
  - unfold reset. lia.
  - apply addOutputCharacter_range.
  - apply addOutputString_range, Hk.
Qed.

Lemma fold_checksum_step_range calls counter_ :
  0 <= counter_ < 26 -> 0 <= fold_left checksum_step calls counter_ < 26.
Proof.
  revert counter_. induction calls as [|call calls IH]; intros k Hk; simpl.
  - exact Hk.
  - apply IH, checksum_step_range, Hk.
Qed.

(** C6: whatever calls of [reset], [addOutputCharacter] and
    [addOutputString] are made on a checksum object, with whatever
    characters, the accumulator stays in [0, 26) and
    [getChecksumCharacter] returns a character between 'A' and 'Z'. *)
Theorem checksum_always_uppercase_letter (calls : list checksum_call) :
  0 <= checksum_run calls < 26 /\
  ch "A" <= getChecksumCharacter (checksum_run calls) <= ch "Z".
Proof.
  assert (H : 0 <= checksum_run calls < 26).
  { apply fold_checksum_step_range. unfold constructor, reset. lia. }
  split; [exact H|].
  destruct (getChecksumCharacter_letter _ H) as [E _]. rewrite E.
  change (ch "A") with 65. change (ch "Z") with 90. lia.
Qed.

End ChecksumInvariant.

(** ** The polling loop *)

Lemma uint32_range x : 0 <= uint32 x < 2 ^ 32.
Proof. unfold uint32. apply Z.mod_pos_bound. lia. Qed.

Lemma uint32_small x : 0 <= x < 2 ^ 32 -> uint32 x = x.
Proof. intros H. unfold uint32. apply Z.mod_small. lia. Qed.

Lemma wait_loop_step timeout_ms start_millis p :
  wait_loop timeout_ms start_millis p =
  if available p then (uint8 (fst (read p)), snd (read p))
  else if uint32 timeout_ms <=? uint32 (millis p - start_millis) then (0, p)
  else wait_loop timeout_ms start_millis (elapse 1 p).
Proof.
  rewrite wait_loop_equation_1 at 1.
  destruct (available p); simpl.
  - destruct (read p); reflexivity.
  - destruct (Z_ge_dec _ _) as [H|H]; simpl;
      destruct (Z.leb_spec (uint32 timeout_ms) (uint32 (millis p - start_millis)));
      trivial; lia.
Qed.

(** What one call of the polling loop amounts to when [left] milliseconds
    remain before the deadline. *)
Definition poll_result (left : Z) (p : SoftwareSerial) : Z * SoftwareSerial :=
  match rx_line p with
  | [] => (0, mkSerial (clock p + left) [] (tx_log p))
  | (d, b) :: rest =>
      if d <=? left then (uint8 b, mkSerial (clock p + Z.max d 0) rest (tx_log p))
      else (0, mkSerial (clock p + left) ((d - left, b) :: rest) (tx_log p))
  end.

Lemma elapsed_succ p start_millis bound :
  uint32 (millis p - start_millis) < bound -> bound <= 2 ^ 32 - 1 ->
  uint32 (millis (elapse 1 p) - start_millis) = uint32 (millis p - start_millis) + 1.
Proof.
  unfold millis, elapse, uint32; cbn [clock]. intros H Hb.
  set (m := 2 ^ 32) in *. assert (Hm : 0 < m) by (unfold m; lia).
  rewrite !Zminus_mod_idemp_l in *.
  pose proof (Z.mod_pos_bound (clock p - start_millis) m Hm).
  replace (clock p + 1 - start_millis) with ((clock p - start_millis) + 1) by lia.
  rewrite <- Zplus_mod_idemp_l. apply Z.mod_small. lia.
Qed.

Lemma wait_loop_spec (n : nat) : forall timeout_ms start_millis p,
  uint32 (millis p - start_millis) <= uint32 timeout_ms ->
  n = Z.to_nat (uint32 timeout_ms - uint32 (millis p - start_millis)) ->
  wait_loop timeout_ms start_millis p =
  poll_result (uint32 timeout_ms - uint32 (millis p - start_millis)) p.
Proof.
  induction n as [|n IH]; intros t st p Hle Hn;
    rewrite wait_loop_step; unfold poll_result, available, read;
    destruct p as [k line log]; cbn [rx_line clock tx_log] in *;
    pose proof (uint32_range t) as Ht.
  - assert (E : uint32 t - uint32 (millis (mkSerial k line log) - st) = 0) by lia.
    rewrite E.
    destruct line as [|[d b] rest].
    + destruct (Z.leb_spec (uint32 t) (uint32 (millis (mkSerial k [] log) - st))); [|lia].
      rewrite Z.add_0_r. reflexivity.
    + destruct (Z.leb_spec d 0).
      * cbn [fst snd]. rewrite Z.max_r by lia. rewrite Z.add_0_r. reflexivity.
      * destruct (Z.leb_spec (uint32 t) (uint32 (millis (mkSerial k ((d, b) :: rest) log) - st))); [|lia].
        rewrite Z.add_0_r, Z.sub_0_r. reflexivity.
  - set (e := uint32 (millis (mkSerial k line log) - st)) in *.
    assert (He : e < uint32 t) by lia.
    destruct line as [|[d b] rest].
    + destruct (Z.leb_spec (uint32 t) e); [lia|].
      rewrite (IH t st (elapse 1 (mkSerial k [] log))).
      * rewrite (elapsed_succ _ _ (uint32 t)) by (fold e; lia). fold e.
        unfold poll_result, elapse; cbn [rx_line clock tx_log advance].
        f_equal. f_equal. lia.
      * rewrite (elapsed_succ _ _ (uint32 t)) by (fold e; lia). fold e. lia.
      * rewrite (elapsed_succ _ _ (uint32 t)) by (fold e; lia). fold e. lia.
    + destruct (Z.leb_spec d 0).
      * cbn [fst snd]. destruct (Z.leb_spec d (uint32 t - e)); [|lia].
        rewrite Z.max_r by lia. rewrite Z.add_0_r. reflexivity.
      * destruct (Z.leb_spec (uint32 t) e); [lia|].
        rewrite (IH t st (elapse 1 (mkSerial k ((d, b) :: rest) log))).
        -- rewrite (elapsed_succ _ _ (uint32 t)) by (fold e; lia). fold e.
           unfold poll_result, elapse; cbn [rx_line clock tx_log advance].
           change (1 <=? 0) with false. cbv iota.
           destruct (Z.leb_spec d 1).
           ++ assert (d = 1) by lia. subst d.
              cbn [rx_line]. change (Z.max 1 0) with 1. change (1 - 1) with 0.
              destruct rest as [|[d' b'] rest']; cbn [advance];
                change (0 <=? 0) with true; cbv iota;
                (destruct (Z.leb_spec 0 (uint32 t - (e + 1))); [|lia]);
                (destruct (Z.leb_spec 1 (uint32 t - e)); [|lia]);
                rewrite Z.max_r by lia; f_equal; f_equal; lia.
           ++ cbn [rx_line].
              destruct (Z.leb_spec (d - 1) (uint32 t - (e + 1)));
                destruct (Z.leb_spec d (uint32 t - e)); try lia.
              ** rewrite !Z.max_l by lia. f_equal. f_equal. lia.
              ** f_equal. f_equal; [lia|]. f_equal. f_equal. lia.
        -- rewrite (elapsed_succ _ _ (uint32 t)) by (fold e; lia). fold e. lia.
        -- rewrite (elapsed_succ _ _ (uint32 t)) by (fold e; lia). fold e. lia.
Qed.

(** [readCharUntilTimeout] in closed form: the next byte when it arrives
    within the bound, 0 when the bound passes first. *)
Lemma readCharUntilTimeout_spec timeout_ms s :
  readCharUntilTimeout timeout_ms s =
  (fst (poll_result (uint32 timeout_ms) (swserial_ s)),
   with_serial (snd (poll_result (uint32 timeout_ms) (swserial_ s))) s).
Proof.
  unfold readCharUntilTimeout.
  assert (E : uint32 (millis (swserial_ s) - millis (swserial_ s)) = 0).
  { rewrite Z.sub_diag. reflexivity. }
  pose proof (uint32_range timeout_ms).
  rewrite (wait_loop_spec (Z.to_nat (uint32 timeout_ms))); rewrite ?E, ?Z.sub_0_r; try lia.
  destruct (poll_result _ _); reflexivity.
Qed.

(** ** The frame reader, one loop turn at a time *)

Lemma sync_loop_step chars_read s :
  sync_loop chars_read s =
  let '(c, s1) := readCharUntilTimeout MINGHE_PER_CHARACTER_TIMEOUT_MS s in
  if MINGHE_MAX_JUNK_CHARACTERS <=? uint8 (chars_read + 1) then (None, s1)
  else if c =? ch ":" then (Some c, s1)
  else sync_loop (uint8 (chars_read + 1)) s1.
Proof.
  rewrite sync_loop_equation_1 at 1.
  destruct (readCharUntilTimeout MINGHE_PER_CHARACTER_TIMEOUT_MS s) as [c s1]. simpl.
  destruct (Z_ge_dec _ _) as [H|H]; simpl;
    destruct (Z.leb_spec MINGHE_MAX_JUNK_CHARACTERS (uint8 (chars_read + 1)));
    trivial; try lia.
  destruct (Z.eq_dec c (ch ":")) as [E|E]; simpl;
    destruct (Z.eqb_spec c (ch ":")); trivial; contradiction.
Qed.

Lemma swallow_loop_step p :
  swallow_loop p =
  if available p then
    if (peek p =? carriage_return) || (peek p =? newline)
    then swallow_loop (snd (read p)) else p
  else delay MINGHE_POST_READ_DELAY_MS p.
Proof.
  remember (if available p then _ else _) as rhs eqn:Er.
  rewrite swallow_loop_equation_1.
  destruct (Sumbool.sumbool_of_bool (available p)) as [H|H]; rewrite H in Er; subst rhs; simpl.
  - destruct ((peek p =? carriage_return) || (peek p =? newline)); reflexivity.
  - reflexivity.
Qed.

(** A byte that arrives within the per-character timeout is the result of
    the read. *)
Lemma readChar_prompt k d b rest log c id :
  d <= MINGHE_PER_CHARACTER_TIMEOUT_MS ->
  readCharUntilTimeout MINGHE_PER_CHARACTER_TIMEOUT_MS
    (mkConverter (mkSerial k ((d, b) :: rest) log) c id) =
  (uint8 b, mkConverter (mkSerial (k + Z.max d 0) rest log) c id).
Proof.
  intros Hd. rewrite readCharUntilTimeout_spec.
  unfold poll_result; cbn [swserial_ rx_line clock tx_log].
  change (uint32 MINGHE_PER_CHARACTER_TIMEOUT_MS) with MINGHE_PER_CHARACTER_TIMEOUT_MS.
  destruct (Z.leb_spec d MINGHE_PER_CHARACTER_TIMEOUT_MS); [|lia].
  reflexivity.
Qed.

(** When nothing arrives within the timeout the read returns 0 and the
    line is left untouched, 500 ms later. *)
Lemma readChar_timeout k d b rest log c id :
  MINGHE_PER_CHARACTER_TIMEOUT_MS < d ->
  readCharUntilTimeout MINGHE_PER_CHARACTER_TIMEOUT_MS
    (mkConverter (mkSerial k ((d, b) :: rest) log) c id) =
  (0, mkConverter (mkSerial (k + MINGHE_PER_CHARACTER_TIMEOUT_MS)
                     ((d - MINGHE_PER_CHARACTER_TIMEOUT_MS, b) :: rest) log) c id).
Proof.
  intros Hd. rewrite readCharUntilTimeout_spec.
  unfold poll_result; cbn [swserial_ rx_line clock tx_log].
  change (uint32 MINGHE_PER_CHARACTER_TIMEOUT_MS) with MINGHE_PER_CHARACTER_TIMEOUT_MS.
  destruct (Z.leb_spec d MINGHE_PER_CHARACTER_TIMEOUT_MS); [lia|].
  reflexivity.
Qed.

Lemma readChar_silence k log c id :
  readCharUntilTimeout MINGHE_PER_CHARACTER_TIMEOUT_MS
    (mkConverter (mkSerial k [] log) c id) =
  (0, mkConverter (mkSerial (k + MINGHE_PER_CHARACTER_TIMEOUT_MS) [] log) c id).
Proof.
  rewrite readCharUntilTimeout_spec. reflexivity.
Qed.

(** ** Reading a frame whose bytes arrive in time *)

Lemma store_length i v a : length (store i v a) = length a.
Proof.
  revert i. induction a as [|x a IH]; intros [|i]; simpl; auto.
Qed.

Lemma store_app_cons pre x post v :
  store (length pre) v (pre ++ x :: post) = pre ++ v :: post.
Proof.
  induction pre as [|y pre IH]; simpl; [reflexivity|]. now rewrite IH.
Qed.

Lemma store_from_zeros pre l n :
  (length l <= n)%nat ->
  store_from (length pre) l (pre ++ repeat 0 n) = pre ++ l ++ repeat 0 (n - length l).
Proof.
  revert pre n. induction l as [|x l IH]; intros pre n Hn; simpl.
  - now rewrite Nat.sub_0_r.
  - destruct n as [|n]; [simpl in Hn; lia|]. simpl in Hn.
    cbn [repeat]. rewrite store_app_cons.
    replace (pre ++ x :: repeat 0 n) with ((pre ++ [x]) ++ repeat 0 n)
      by (rewrite <- app_assoc; reflexivity).
    replace (S (length pre)) with (length (pre ++ [x]))
      by (rewrite length_app; simpl; lia).
    rewrite IH by lia. rewrite <- app_assoc. reflexivity.
Qed.

Lemma checksum_of_app l1 l2 k :
  checksum_of (l1 ++ l2) k = checksum_of l2 (checksum_of l1 k).
Proof. unfold checksum_of. apply fold_left_app. Qed.

Lemma checksum_of_range l k : 0 <= k < 26 -> 0 <= checksum_of l k < 26.
Proof.
  revert k. induction l as [|c l IH]; intros k Hk; simpl; [exact Hk|].
  apply IH, addOutputCharacter_range.
Qed.

(** The payload loop over bytes that are not upper case and arrive in
    time: they are stored one after the other and added to the checksum. *)
Lemma payload_loop_bytes line : forall n i buffer k tail log c id,
  prompt line = true ->
  forallb (fun b => is_char b && negb (isupper b)) (line_bytes line) = true ->
  (length line <= n)%nat ->
  exists k',
    payload_loop n i buffer (mkConverter (mkSerial k (line ++ tail) log) c id) =
    payload_loop (n - length line) (i + length line)
      (store_from i (line_bytes line) buffer)
      (mkConverter (mkSerial k' tail log) (checksum_of (line_bytes line) c) id).
Proof.
  induction line as [|[d b] line IH]; intros n i buffer k tail log c id Hp Hb Hn.
  - exists k. simpl. rewrite Nat.sub_0_r, Nat.add_0_r. reflexivity.
  - simpl in Hp, Hb, Hn. apply andb_prop in Hp as [Hd Hp].
    apply andb_prop in Hb as [Hc Hb]. apply andb_prop in Hc as [Hc Hu].
    destruct n as [|n]; [lia|].
    cbn [payload_loop app]. rewrite readChar_prompt by (apply Z.leb_le, Hd).
    unfold is_char in Hc. apply andb_prop in Hc as [Hc1 Hc2].
    rewrite uint8_small by (apply Z.leb_le in Hc1; apply Z.ltb_lt in Hc2; lia).
    apply negb_true_iff in Hu. rewrite Hu.
    unfold checksum_addOutputCharacter, with_checksum; cbn [swserial_ checksum_ device_id_].
    destruct (IH n (S i) (store i b buffer) (k + Z.max d 0) tail log
                (MingHeBuckConverterChecksum.addOutputCharacter b c) id Hp Hb) as [k' E]; [lia|].
    exists k'. rewrite E. cbn [length line_bytes map store_from checksum_of fold_left].
    replace (i + S (length line))%nat with (S i + length line)%nat by lia.
    reflexivity.
Qed.

(** The turn of the payload loop that meets the checksum character. *)
Lemma payload_loop_terminator n i buffer k d chk tail log c id :
  d <= MINGHE_PER_CHARACTER_TIMEOUT_MS ->
  is_char chk = true -> isupper chk = true ->
  exists k',
    payload_loop (S n) i buffer (mkConverter (mkSerial k ((d, chk) :: tail) log) c id) =
    ((chk =? MingHeBuckConverterChecksum.getChecksumCharacter c, buffer),
     mkConverter (mkSerial k' tail log) c id).
Proof.
  intros Hd Hc Hu. exists (k + Z.max d 0).
  cbn [payload_loop]. rewrite readChar_prompt by exact Hd.
  unfold is_char in Hc. apply andb_prop in Hc as [Hc1 Hc2].
  rewrite uint8_small by (apply Z.leb_le in Hc1; apply Z.ltb_lt in Hc2; lia).
  rewrite Hu. unfold checksum_getChecksumCharacter; cbn [checksum_].
  destruct (chk =? _); reflexivity.
Qed.

Lemma is_char_uint8 c : is_char c = true -> uint8 c = c.
Proof.
  unfold is_char. intros H. apply andb_prop in H as [H1 H2].
  apply Z.leb_le in H1. apply Z.ltb_lt in H2. apply uint8_small. lia.
Qed.

(** A frame on the line, marker first: the outcome of
    [readResponseIntoBuffer] is decided by the address and the checksum
    character, whatever follows the frame.  A frame for another address
    leaves the buffer untouched; otherwise the payload is in the buffer,
    also when the checksum character is wrong. *)
Lemma readResponseIntoBuffer_frame
    d0 d1 d2 dc a1 a0 pl chk tail buffer buffer_length k log c id :
  d0 <= MINGHE_PER_CHARACTER_TIMEOUT_MS -> d1 <= MINGHE_PER_CHARACTER_TIMEOUT_MS ->
  d2 <= MINGHE_PER_CHARACTER_TIMEOUT_MS -> dc <= MINGHE_PER_CHARACTER_TIMEOUT_MS ->
  prompt pl = true ->
  is_char a1 = true -> is_char a0 = true ->
  forallb (fun b => is_char b && negb (isupper b)) (line_bytes pl) = true ->
  is_char chk = true -> isupper chk = true ->
  (length pl < Z.to_nat (uint8 buffer_length))%nat ->
  fst (readResponseIntoBuffer buffer buffer_length
         (mkConverter
            (mkSerial k ((d0, ch ":") :: (d1, a1) :: (d2, a0) :: pl ++ (dc, chk) :: tail) log)
            c id)) =
  if atoi [a1; a0; 0] =? id
  then (chk =? MingHeBuckConverterChecksum.getChecksumCharacter
                 (checksum_of (ch ":" :: a1 :: a0 :: line_bytes pl) 0),
        store_from 0 (line_bytes pl) buffer)
  else (false, buffer).
Proof.
  intros H0 H1 H2 Hdc Hp Ha1 Ha0 Hpl Hchk Hup Hlen.
  unfold readResponseIntoBuffer, checksum_reset, with_checksum.
  cbn [swserial_ checksum_ device_id_].
  rewrite sync_loop_step, readChar_prompt by exact H0.
  change (uint8 (ch ":")) with (ch ":").
  change (MINGHE_MAX_JUNK_CHARACTERS <=? uint8 (0 + 1)) with false.
  change (ch ":" =? ch ":") with true. cbv iota.
  unfold checksum_addOutputCharacter, with_checksum. cbn [swserial_ checksum_ device_id_].
  rewrite readChar_prompt by exact H1. cbn [swserial_ checksum_ device_id_].
  rewrite readChar_prompt by exact H2. cbn [swserial_ checksum_ device_id_].
  rewrite (is_char_uint8 a1), (is_char_uint8 a0) by assumption.
  destruct (atoi [a1; a0; 0] =? id); cbn [negb andb]; [|reflexivity].
  destruct (payload_loop_bytes pl (Z.to_nat (uint8 buffer_length)) 0 buffer
              (k + Z.max d0 0 + Z.max d1 0 + Z.max d2 0) ((dc, chk) :: tail) log
              (MingHeBuckConverterChecksum.addOutputCharacter a0
                 (MingHeBuckConverterChecksum.addOutputCharacter a1
                    (MingHeBuckConverterChecksum.addOutputCharacter (ch ":")
                       (MingHeBuckConverterChecksum.reset c)))) id Hp Hpl) as [k' E]; [lia|].
  rewrite E.
  destruct (Z.to_nat (uint8 buffer_length) - length pl)%nat as [|m] eqn:Em; [lia|].
  destruct (payload_loop_terminator m (0 + length pl) (store_from 0 (line_bytes pl) buffer)
              k' dc chk tail log
              (checksum_of (line_bytes pl)
                 (MingHeBuckConverterChecksum.addOutputCharacter a0
                    (MingHeBuckConverterChecksum.addOutputCharacter a1
                       (MingHeBuckConverterChecksum.addOutputCharacter (ch ":")
                          (MingHeBuckConverterChecksum.reset c))))) id Hdc Hchk Hup) as [k'' E'].
  rewrite E'.
  cbn [checksum_of fold_left]. unfold MingHeBuckConverterChecksum.reset.
  destruct (chk =? _); reflexivity.
Qed.

(** The copy loop of [readResponse] over a run of digits: the digits and
    the character that ends them are stored. *)
Lemma copy_loop_digits value : forall n i front t rest stored,
  forallb isdigit value = true -> isdigit t = false ->
  length front = (i + 2)%nat -> length stored = i ->
  (length value < n)%nat ->
  copy_loop n i (front ++ value ++ t :: rest) stored = stored ++ value ++ [t].
Proof.
  induction value as [|v value IH]; intros n i front t rest stored Hd Ht Hf Hs Hn;
    (destruct n as [|n]; [simpl in Hn; lia|]); cbn [copy_loop app].
  - unfold load. rewrite <- Hf, nth_middle. rewrite <- Hs, nth_middle.
    rewrite Ht. reflexivity.
  - simpl in Hd. apply andb_prop in Hd as [Hv Hd].
    unfold load. rewrite <- Hf, nth_middle. subst i. rewrite nth_middle.
    rewrite Hv. cbn [negb].
    replace (front ++ v :: value ++ t :: rest) with ((front ++ [v]) ++ value ++ t :: rest)
      by (rewrite <- app_assoc; reflexivity).
    rewrite (IH n (S (length stored)) (front ++ [v]) t rest (stored ++ [v])); trivial.
    + rewrite <- app_assoc. reflexivity.
    + rewrite length_app. simpl. lia.
    + rewrite length_app. simpl. lia.
    + simpl in Hn. lia.
Qed.

(** [readResponse] on a frame that carries a run of at most 12 digits:
    success needs the right address, checksum character, direction and
    command, and then the digits are what is stored, followed by a NUL. *)
Lemma readResponse_frame
    d0 d1 d2 dc a1 a0 pl dir cmd value chk tail set command k log c id :
  d0 <= MINGHE_PER_CHARACTER_TIMEOUT_MS -> d1 <= MINGHE_PER_CHARACTER_TIMEOUT_MS ->
  d2 <= MINGHE_PER_CHARACTER_TIMEOUT_MS -> dc <= MINGHE_PER_CHARACTER_TIMEOUT_MS ->
  prompt pl = true ->
  line_bytes pl = dir :: cmd :: value ->
  is_char a1 = true -> is_char a0 = true ->
  is_char dir = true -> isupper dir = false ->
  is_char cmd = true -> isupper cmd = false ->
  forallb isdigit value = true -> (length value <= 12)%nat ->
  is_char chk = true -> isupper chk = true ->
  fst (readResponse set command
         (mkConverter
            (mkSerial k ((d0, ch ":") :: (d1, a1) :: (d2, a0) :: pl ++ (dc, chk) :: tail) log)
            c id)) =
  if (atoi [a1; a0; 0] =? id)
     && (chk =? MingHeBuckConverterChecksum.getChecksumCharacter
                  (checksum_of (ch ":" :: a1 :: a0 :: dir :: cmd :: value) 0))
     && (dir =? direction_char set) && (cmd =? command)
  then (true, value ++ [0])
  else (false, []).
Proof.
  intros H0 H1 H2 Hdc Hp Hpl Ha1 Ha0 Hdir Hdiru Hcmd Hcmdu Hval Hlen Hchk Hup.
  assert (Hdigit : forall v, isdigit v = true -> is_char v && negb (isupper v) = true).
  { intros v Hv. unfold isdigit, is_char, isupper in *.
    change (ch "0") with 48 in Hv. change (ch "9") with 57 in Hv.
    change (ch "A") with 65. change (ch "Z") with 90.
    apply andb_prop in Hv as [Hv1 Hv2]. apply Z.leb_le in Hv1, Hv2.
    apply andb_true_intro. split.
    - apply andb_true_intro. split; [apply Z.leb_le|apply Z.ltb_lt]; lia.
    - apply negb_true_iff, andb_false_intro1. apply Z.leb_gt. lia. }
  assert (Hbytes : forallb (fun b => is_char b && negb (isupper b)) (line_bytes pl) = true).
  { rewrite Hpl. cbn [forallb]. rewrite Hdir, Hdiru, Hcmd, Hcmdu. cbn [negb andb].
    apply forallb_forall. intros v Hv. apply Hdigit.
    rewrite forallb_forall in Hval. apply Hval, Hv. }
  assert (Hl : length pl = S (S (length value))).
  { unfold line_bytes in Hpl. rewrite <- (length_map snd), Hpl. reflexivity. }
  unfold readResponse.
  pose proof (readResponseIntoBuffer_frame d0 d1 d2 dc a1 a0 pl chk tail
                response_buffer_init (16 - 1) k log c id
                H0 H1 H2 Hdc Hp Ha1 Ha0 Hbytes Hchk Hup) as E.
  destruct (readResponseIntoBuffer _ _ _) as [[ok buf] s1].
  cbn [fst] in E.
  specialize (E ltac:(change (Z.to_nat (uint8 (16 - 1))) with 15%nat; lia)).
  rewrite Hpl in E.
  destruct (atoi [a1; a0; 0] =? id); cbn [andb] in E |- *;
    [|inversion E; subst; reflexivity].
  destruct (chk =? _); cbn [andb] in E |- *; [|inversion E; subst; reflexivity].
  inversion E; subst ok buf. clear E.
  unfold response_buffer_init.
  pose proof (store_from_zeros [dir; cmd] value 14 ltac:(lia)) as Es.
  remember (14 - length value)%nat as r eqn:Er.
  simpl in Es. simpl store_from. rewrite Es. clear Es.
  cbn [load nth]. fold (direction_char set).
  destruct (dir =? direction_char set); cbn [negb andb]; [|reflexivity].
  destruct (cmd =? command); cbn [negb andb fst]; [|reflexivity].
  f_equal.
  destruct r as [|m]; [lia|].
  cbn [repeat].
  apply (copy_loop_digits value (16 - 2) 0 [dir; cmd] 0 (repeat 0 m) []); trivial.
  simpl. lia.
Qed.

(** ** The frame encoder in closed form *)

(** [forall d, 0 <= d < 100 -> P d] by running a boolean check on the
    hundred addresses. *)
Lemma below_100 (check : Z -> bool) :
  forallb check (map Z.of_nat (seq 0 100)) = true ->
  forall d, 0 <= d <= 99 -> check d = true.
Proof.
  intros H d Hd. rewrite forallb_forall in H. apply H.
  apply in_map_iff. exists (Z.to_nat d). split; [lia|].
  apply in_seq. lia.
Qed.

Lemma address_digits d :
  0 <= d <= 99 ->
  (length (itoa d) <= 2)%nat /\
  (if d <? 10 then ch "0" else load 0 (itoa d)) = ch "0" + d / 10 /\
  (if d <? 10 then load 0 (itoa d) else load 1 (itoa d)) = ch "0" + d mod 10.
Proof.
  intros Hd.
  pose proof (below_100
    (fun d => (length (itoa d) <=? 2)%nat &&
              ((if d <? 10 then ch "0" else load 0 (itoa d)) =? ch "0" + d / 10) &&
              ((if d <? 10 then load 0 (itoa d) else load 1 (itoa d)) =? ch "0" + d mod 10))
    ltac:(vm_compute; reflexivity) d Hd) as H.
  cbv beta in H. apply andb_prop in H as [H H3]. apply andb_prop in H as [H1 H2].
  apply Nat.leb_le in H1. apply Z.eqb_eq in H2, H3. auto.
Qed.

Lemma address_chars_parse d :
  0 <= d <= 99 ->
  atoi [ch "0" + d / 10; ch "0" + d mod 10; 0] = d /\
  is_char (ch "0" + d / 10) = true /\ is_char (ch "0" + d mod 10) = true.
Proof.
  intros Hd.
  pose proof (below_100
    (fun d => (atoi [ch "0" + d / 10; ch "0" + d mod 10; 0] =? d)
              && is_char (ch "0" + d / 10) && is_char (ch "0" + d mod 10))
    ltac:(vm_compute; reflexivity) d Hd) as H.
  cbv beta in H. apply andb_prop in H as [H H3]. apply andb_prop in H as [H1 H2].
  apply Z.eqb_eq in H1. auto.
Qed.

Lemma sendSerialChars_spec p : forall k line log c id,
  sendSerialChars p (mkConverter (mkSerial k line log) c id) =
  mkConverter (mkSerial k line (log ++ cstring p)) (checksum_of (cstring p) c) id.
Proof.
  induction p as [|x p IH]; intros k line log c id; simpl.
  - rewrite app_nil_r. reflexivity.
  - destruct (x =? 0).
    + rewrite app_nil_r. reflexivity.
    + unfold sendSerialChar, checksum_addOutputCharacter, with_checksum, with_serial, write.
      cbn [swserial_ checksum_ device_id_ clock rx_line tx_log].
      rewrite IH. rewrite <- app_assoc. reflexivity.
Qed.

Lemma sendSerialChar_spec x k line log c id :
  sendSerialChar x (mkConverter (mkSerial k line log) c id) =
  mkConverter (mkSerial k line (log ++ [x]))
    (MingHeBuckConverterChecksum.addOutputCharacter x c) id.
Proof. reflexivity. Qed.

Lemma send_address k line log c id :
  0 <= id <= 99 ->
  (if id <? 10
   then sendSerialChar (load 0 (itoa id))
          (sendSerialChar (ch "0") (mkConverter (mkSerial k line log) c id))
   else sendSerialChar (load 1 (itoa id))
          (sendSerialChar (load 0 (itoa id)) (mkConverter (mkSerial k line log) c id)))
  = mkConverter
      (mkSerial k line (log ++ [ch "0" + id / 10; ch "0" + id mod 10]))
      (checksum_of [ch "0" + id / 10; ch "0" + id mod 10] c) id.
Proof.
  intros Hid. destruct (address_digits id Hid) as (Hlen & E1 & E0).
  destruct (id <? 10);
    rewrite !sendSerialChar_spec, <- !app_assoc; cbn [app checksum_of fold_left];
    congruence.
Qed.

Lemma send_trailer k line log c id :
  let s := mkConverter (mkSerial k line log) c id in
  let s := with_serial (write (checksum_getChecksumCharacter s) (swserial_ s)) s in
  with_serial (write newline (swserial_ s)) s =
  mkConverter
    (mkSerial k line
       (log ++ [MingHeBuckConverterChecksum.getChecksumCharacter c; newline]))
    c id.
Proof.
  cbv zeta. unfold with_serial, write, checksum_getChecksumCharacter.
  cbn [swserial_ checksum_ device_id_ clock rx_line tx_log].
  rewrite <- app_assoc. reflexivity.
Qed.

(** C2 in its general form, on the state: for an address below 100 the
    request is its body, the checksum character of the body and a
    newline. *)
Lemma sendRequest_spec set command value k line log c id :
  0 <= id <= 99 ->
  sendRequest set command value (mkConverter (mkSerial k line log) c id) =
  let body := request_body id set command value in
  Some (mkConverter
          (mkSerial k line
             (log ++ body ++
                [MingHeBuckConverterChecksum.getChecksumCharacter (checksum_of body 0);
                 newline]))
          (checksum_of body 0) id).
Proof.
  intros Hid. destruct (address_digits id Hid) as (Hlen & _).
  unfold sendRequest. cbv zeta.
  unfold checksum_reset, with_checksum. cbn [swserial_ checksum_ device_id_].
  rewrite sendSerialChar_spec. cbn [device_id_].
  destruct (Z.ltb_spec 3 (Z.of_nat (length (itoa id)) + 1)); [lia|].
  rewrite send_address by exact Hid.
  fold (direction_char set).
  rewrite !sendSerialChar_spec.
  assert (E : match value with
              | Some p => sendSerialChars p
                            (mkConverter
                               (mkSerial k line
                                  ((((log ++ [ch ":"]) ++ [ch "0" + id / 10; ch "0" + id mod 10])
                                    ++ [direction_char set]) ++ [command]))
                               (MingHeBuckConverterChecksum.addOutputCharacter command
                                  (MingHeBuckConverterChecksum.addOutputCharacter
                                     (direction_char set)
                                     (checksum_of [ch "0" + id / 10; ch "0" + id mod 10]
                                        (MingHeBuckConverterChecksum.addOutputCharacter (ch ":")
                                           (MingHeBuckConverterChecksum.reset c))))) id)
              | None => mkConverter
                               (mkSerial k line
                                  ((((log ++ [ch ":"]) ++ [ch "0" + id / 10; ch "0" + id mod 10])
                                    ++ [direction_char set]) ++ [command]))
                               (MingHeBuckConverterChecksum.addOutputCharacter command
                                  (MingHeBuckConverterChecksum.addOutputCharacter
                                     (direction_char set)
                                     (checksum_of [ch "0" + id / 10; ch "0" + id mod 10]
                                        (MingHeBuckConverterChecksum.addOutputCharacter (ch ":")
                                           (MingHeBuckConverterChecksum.reset c))))) id
              end
              = mkConverter
                  (mkSerial k line (log ++ request_body id set command value))
                  (checksum_of (request_body id set command value) 0) id).
  { unfold request_body, MingHeBuckConverterChecksum.reset.
    destruct value as [p|]; [rewrite sendSerialChars_spec|];
      rewrite <- !app_assoc; cbn [app checksum_of fold_left]; rewrite ?app_nil_r;
      reflexivity. }
  rewrite E. clear E.
  pose proof (send_trailer k line (log ++ request_body id set command value)
                (checksum_of (request_body id set command value) 0) id) as T.
  cbv zeta in T. rewrite T. rewrite <- app_assoc. reflexivity.
Qed.

(** ** C2: the checksum character of a request *)

Lemma checksum_of_ascii l : forall k,
  0 <= k < 26 -> forallb is_ascii l = true ->
  checksum_of l k = (k + ascii_sum l) mod 26.
Proof.
  induction l as [|c l IH]; intros k Hk Hl; simpl.
  - rewrite Z.add_0_r. symmetry. apply Z.mod_small. lia.
  - simpl in Hl. apply andb_prop in Hl as [Hc Hl].
    unfold is_ascii in Hc. apply andb_prop in Hc as [Hc1 Hc2].
    apply Z.leb_le in Hc1. apply Z.ltb_lt in Hc2.
    rewrite IH; [|apply addOutputCharacter_range|exact Hl].
    rewrite addOutputCharacter_mod by lia.
    rewrite Zplus_mod_idemp_l. f_equal. lia.
Qed.

Lemma cstring_forallb (P : Z -> bool) p :
  forallb P p = true -> forallb P (cstring p) = true.
Proof.
  induction p as [|c p IH]; simpl; [trivial|].
  intros H. apply andb_prop in H as [Hc Hp].
  destruct (c =? 0); simpl; [reflexivity|]. rewrite Hc. apply IH, Hp.
Qed.

Lemma request_bytes_spec device_id set command value :
  0 <= device_id <= 99 ->
  request_bytes device_id set command value =
  let body := request_body device_id set command value in
  Some (body ++ [MingHeBuckConverterChecksum.getChecksumCharacter (checksum_of body 0);
                 newline]).
Proof.
  intros Hd. unfold request_bytes, constructor.
  rewrite uint8_small by lia. rewrite sendRequest_spec by exact Hd.
  reflexivity.
Qed.

(** C2, amended: for an address in [0, 99] and seven-bit characters, the
    request written by [sendRequest] is its characters from ':' to the end
    of the value, then the letter 'A' + (sum of these characters modulo
    26), then a newline; the letter itself is not part of the sum.  For
    address 1, a read of command 'z' without value, the bytes are
    ":01rzB\n": the sum is 391 and 391 mod 26 = 1. *)
Theorem request_checksum_sum_mod_26 device_id set command value :
  0 <= device_id <= 99 ->
  is_ascii command = true ->
  forallb is_ascii (value_chars value) = true ->
  (let body := request_body device_id set command value in
   request_bytes device_id set command value =
   Some (body ++ [ch "A" + ascii_sum body mod 26; newline]))
  /\ request_bytes 1 REQUEST_GET (ch "z") None = Some (bytes ":01rzB" ++ [newline])
  /\ ascii_sum (bytes ":01rz") = 391.
Proof.
  intros Hd Hc Hv. split; [|split; reflexivity].
  rewrite request_bytes_spec by exact Hd. cbv zeta.
  assert (Hbody : forallb is_ascii (request_body device_id set command value) = true).
  { unfold request_body. cbn [forallb]. rewrite Hc.
    assert (H1 : is_ascii (ch "0" + device_id / 10) = true).
    { unfold is_ascii. change (ch "0") with 48.
      pose proof (Z.div_lt_upper_bound device_id 10 10 ltac:(lia) ltac:(lia)).
      pose proof (Z.div_pos device_id 10 ltac:(lia) ltac:(lia)).
      apply andb_true_intro. split; [apply Z.leb_le|apply Z.ltb_lt]; lia. }
    assert (H0 : is_ascii (ch "0" + device_id mod 10) = true).
    { unfold is_ascii. change (ch "0") with 48.
      pose proof (Z.mod_pos_bound device_id 10 ltac:(lia)).
      apply andb_true_intro. split; [apply Z.leb_le|apply Z.ltb_lt]; lia. }
    rewrite H1, H0. destruct set; cbn [direction_char andb];
      change (is_ascii (ch ":")) with true; cbn [andb];
      (destruct value as [p|]; [apply cstring_forallb, Hv|reflexivity]). }
  rewrite checksum_of_ascii by (trivial; lia). rewrite Z.add_0_l.
  destruct (getChecksumCharacter_letter (ascii_sum (request_body device_id set command value) mod 26))
    as [E _]; [apply Z.mod_pos_bound; lia|].
  rewrite E. reflexivity.
Qed.

Lemma request_checksum_sum_mod_26_witness :
  0 <= 42 <= 99 /\
  is_ascii (ch "a") = true /\
  forallb is_ascii (value_chars (Some (bytes "1000"))) = true /\
  request_bytes 42 REQUEST_SET (ch "a") (Some (bytes "1000")) =
  Some (bytes ":42sa1000" ++ [ch "A" + ascii_sum (bytes ":42sa1000") mod 26; newline]).
Proof.
  split; [lia|]. split; [reflexivity|]. split; [reflexivity|].
  apply (request_checksum_sum_mod_26 42 REQUEST_SET (ch "a") (Some (bytes "1000")));
    [lia|reflexivity|reflexivity].
Defined.

(** C2 as stated fails on its example: the request for address 1, read,
    command 'z', no value does not end in 'X'. *)
Lemma request_01rz_is_not_X :
  request_bytes 1 REQUEST_GET (ch "z") None <> Some (bytes ":01rzX" ++ [newline]).
Proof. vm_compute. discriminate. Qed.

(** ** C1: sending a request and reading it back *)

Lemma line_bytes_cons line x rest :
  line_bytes line = x :: rest ->
  exists d line', line = (d, x) :: line' /\ line_bytes line' = rest.
Proof.
  destruct line as [|[d b] line']; simpl; intros H; [discriminate|].
  injection H as -> <-. eauto.
Qed.

Lemma line_bytes_app line l1 l2 :
  line_bytes line = l1 ++ l2 ->
  exists a b, line = a ++ b /\ line_bytes a = l1 /\ line_bytes b = l2.
Proof. apply map_eq_app. Qed.

Lemma cstring_digits p : forallb isdigit p = true -> cstring p = p.
Proof.
  induction p as [|c p IH]; simpl; [trivial|].
  intros H. apply andb_prop in H as [Hc Hp].
  destruct (Z.eqb_spec c 0) as [->|_]; [discriminate|].
  now rewrite IH.
Qed.

Lemma direction_char_lower set :
  is_char (direction_char set) = true /\ isupper (direction_char set) = false.
Proof. destruct set; split; reflexivity. Qed.

Lemma checksum_letter_char k :
  0 <= k < 26 ->
  is_char (MingHeBuckConverterChecksum.getChecksumCharacter k) = true /\
  isupper (MingHeBuckConverterChecksum.getChecksumCharacter k) = true.
Proof.
  intros Hk. destruct (getChecksumCharacter_letter k Hk) as [E U]. split; [|exact U].
  rewrite E. unfold is_char. change (ch "A") with 65.
  apply andb_true_intro. split; [apply Z.leb_le|apply Z.ltb_lt]; lia.
Qed.

Lemma some_eq {A} (a b : A) : Some a = Some b -> a = b.
Proof. intros H. injection H as ->. reflexivity. Qed.

(** A line whose bytes are three header characters, a payload, one more
    character and whatever follows. *)
Lemma line_of_frame line x0 x1 x2 x3 x4 v letter rest :
  line_bytes line = x0 :: x1 :: x2 :: x3 :: x4 :: v ++ letter :: rest ->
  prompt line = true ->
  exists d0 d1 d2 dc pl tail,
    line = (d0, x0) :: (d1, x1) :: (d2, x2) :: pl ++ (dc, letter) :: tail /\
    line_bytes pl = x3 :: x4 :: v /\
    d0 <= MINGHE_PER_CHARACTER_TIMEOUT_MS /\ d1 <= MINGHE_PER_CHARACTER_TIMEOUT_MS /\
    d2 <= MINGHE_PER_CHARACTER_TIMEOUT_MS /\ dc <= MINGHE_PER_CHARACTER_TIMEOUT_MS /\
    prompt pl = true.
Proof.
  intros Hline Hp.
  apply line_bytes_cons in Hline as (d0 & l0 & -> & Hline).
  apply line_bytes_cons in Hline as (d1 & l1 & -> & Hline).
  apply line_bytes_cons in Hline as (d2 & l2 & -> & Hline).
  apply line_bytes_cons in Hline as (dd & l3 & -> & Hline).
  apply line_bytes_cons in Hline as (dm & l4 & -> & Hline).
  apply line_bytes_app in Hline as (vl & l5 & -> & Hvl & Hline).
  apply line_bytes_cons in Hline as (dc & tail & -> & Hline).
  exists d0, d1, d2, dc, ((dd, x3) :: (dm, x4) :: vl), tail.
  unfold prompt in *. cbn [forallb fst] in Hp.
  repeat (apply andb_prop in Hp as [? Hp]).
  rewrite forallb_app in Hp. apply andb_prop in Hp as [Hvp Hp].
  cbn [forallb fst] in Hp. apply andb_prop in Hp as [Hdc _].
  repeat split; try (apply Z.leb_le; assumption).
  - cbn [line_bytes map snd]. f_equal. f_equal. exact Hvl.
  - cbn [forallb fst]. repeat (apply andb_true_intro; split); assumption.
Qed.

(** The shape of a line that carries exactly the bytes of a request. *)
Lemma request_line device_id set command value frame line :
  0 <= device_id <= 99 ->
  request_bytes device_id set command value = Some frame ->
  line_bytes line = frame -> prompt line = true ->
  exists d0 d1 d2 dc pl tail,
    line = (d0, ch ":") :: (d1, ch "0" + device_id / 10) :: (d2, ch "0" + device_id mod 10)
             :: pl ++ (dc, MingHeBuckConverterChecksum.getChecksumCharacter
                             (checksum_of (request_body device_id set command value) 0))
             :: tail /\
    line_bytes pl = direction_char set :: command
                      :: match value with Some p => cstring p | None => [] end /\
    d0 <= MINGHE_PER_CHARACTER_TIMEOUT_MS /\ d1 <= MINGHE_PER_CHARACTER_TIMEOUT_MS /\
    d2 <= MINGHE_PER_CHARACTER_TIMEOUT_MS /\ dc <= MINGHE_PER_CHARACTER_TIMEOUT_MS /\
    prompt pl = true.
Proof.
  intros Hd Hreq Hline Hp.
  rewrite request_bytes_spec in Hreq by exact Hd. cbv zeta in Hreq.
  apply some_eq in Hreq. rewrite <- Hreq in Hline. clear Hreq.
  apply (line_of_frame line _ _ _ _ _ _ _ [newline]); [exact Hline|exact Hp].
Qed.

(** C1: for an address in [0, 99], either direction, a command
    character that is not an upper-case letter and a value of at most 12
    decimal digits, when the bytes written by [sendRequest] come back on
    the line of a converter with the same address, each within the
    per-character timeout, [readResponseIntoBuffer] succeeds and leaves
    direction, command and digits in the buffer, and [readResponse] for
    that direction and command succeeds and stores exactly the digits as a
    NUL-terminated string.  Every request the converter can form is of
    this kind: its command characters are the lower-case letters of
    MingHeBuckConverter.h, and a value is [ltoa] of a 32-bit number, ten
    digits at most. *)
Theorem request_read_back device_id set command value frame line s :
  0 <= device_id <= 99 ->
  is_char command = true -> isupper command = false ->
  forallb isdigit (value_chars value) = true ->
  (length (value_chars value) <= 12)%nat ->
  request_bytes device_id set command value = Some frame ->
  line_bytes line = frame -> prompt line = true ->
  rx_line (swserial_ s) = line -> device_id_ s = device_id ->
  fst (readResponseIntoBuffer response_buffer_init (16 - 1) s) =
    (true, direction_char set :: command :: value_chars value
             ++ repeat 0 (14 - length (value_chars value)))
  /\ exists stored,
       fst (readResponse set command s) = (true, stored) /\
       cstring stored = value_chars value.
Proof.
  intros Hd Hc Hcu Hv Hlen Hreq Hline Hp Hrx Hid.
  destruct (request_line _ _ _ _ _ _ Hd Hreq Hline Hp)
    as (d0 & d1 & d2 & dc & pl & tail & El & Hpl & H0 & H1 & H2 & Hdc & Hpp).
  assert (Ev : match value with Some p => cstring p | None => [] end = value_chars value).
  { destruct value as [p|]; [apply cstring_digits, Hv|reflexivity]. }
  rewrite Ev in Hpl.
  assert (Eb : request_body device_id set command value =
               ch ":" :: (ch "0" + device_id / 10) :: (ch "0" + device_id mod 10)
                 :: direction_char set :: command :: value_chars value).
  { unfold request_body. rewrite Ev. reflexivity. }
  rewrite Eb in El.
  destruct (address_chars_parse device_id Hd) as (Eatoi & Ha1 & Ha0).
  destruct (direction_char_lower set) as [Hdir Hdiru].
  set (body := ch ":" :: _) in El.
  destruct (checksum_letter_char (checksum_of body 0)) as [Hlc Hlu];
    [apply checksum_of_range; lia|].
  destruct s as [[k rx log] c id]. cbn [swserial_ rx_line device_id_] in Hrx, Hid.
  subst rx id. rewrite El. split.
  - rewrite readResponseIntoBuffer_frame; trivial.
    + rewrite Eatoi, Z.eqb_refl. rewrite Hpl. fold body. rewrite Z.eqb_refl. cbn [andb].
      f_equal. unfold response_buffer_init.
      apply (store_from_zeros [] (direction_char set :: command :: value_chars value) 16).
      simpl. lia.
    + rewrite Hpl. cbn [forallb]. rewrite Hdir, Hdiru, Hc, Hcu. cbn [negb andb].
      apply forallb_forall. intros v Hin. rewrite forallb_forall in Hv.
      specialize (Hv v Hin). unfold isdigit, is_char, isupper in *.
      change (ch "0") with 48 in Hv. change (ch "9") with 57 in Hv.
      change (ch "A") with 65. change (ch "Z") with 90.
      apply andb_prop in Hv as [Hv1 Hv2]. apply Z.leb_le in Hv1, Hv2.
      apply andb_true_intro. split.
      * apply andb_true_intro. split; [apply Z.leb_le|apply Z.ltb_lt]; lia.
      * apply negb_true_iff, andb_false_intro1. apply Z.leb_gt. lia.
    + change (Z.to_nat (uint8 (16 - 1))) with 15%nat.
      unfold line_bytes in Hpl. rewrite <- (length_map snd), Hpl. simpl. lia.
  - exists (value_chars value ++ [0]). split.
    + rewrite (readResponse_frame d0 d1 d2 dc _ _ pl (direction_char set) command
                 (value_chars value)); trivial.
      rewrite Eatoi, !Z.eqb_refl. fold body. rewrite ?Z.eqb_refl. reflexivity.
    + clear - Hv. induction (value_chars value) as [|v l IH]; simpl; [reflexivity|].
      simpl in Hv. apply andb_prop in Hv as [Hv1 Hv2].
      destruct (Z.eqb_spec v 0) as [->|_]; [discriminate|]. now rewrite IH.
Qed.

Lemma request_read_back_witness :
  let frame := bytes ":42sa1000T" ++ [newline] in
  let s := listening 42 frame in
  0 <= 42 <= 99 /\
  forallb isdigit (bytes "1000") = true /\
  request_bytes 42 REQUEST_SET (ch "a") (Some (bytes "1000")) = Some frame /\
  prompt (buffered frame) = true /\
  fst (readResponseIntoBuffer response_buffer_init (16 - 1) s) =
    (true, bytes "sa1000" ++ repeat 0 10) /\
  exists stored,
    fst (readResponse REQUEST_SET (ch "a") s) = (true, stored) /\
    cstring stored = bytes "1000".
Proof.
  cbv zeta. split; [lia|]. split; [reflexivity|]. split; [reflexivity|].
  split; [reflexivity|].
  apply (request_read_back 42 REQUEST_SET (ch "a") (Some (bytes "1000"))
           (bytes ":42sa1000T" ++ [newline])
           (buffered (bytes ":42sa1000T" ++ [newline]))
           (listening 42 (bytes ":42sa1000T" ++ [newline])));
    solve [lia | reflexivity | simpl; lia].
Defined.

(** ** C4: the payload loop running to the end of the buffer *)

(** C4 fails on the code: after ":01" come 15 payload characters, none of
    them upper case, so the loop ends on [data_length == buffer_length];
    the character 'Q' that follows is not the checksum character of the
    frame (that would be 'A') and is never read, and the read reports
    success. *)
Theorem payload_overflow_reports_success :
  let s := listening 1 (bytes ":01rz1234567890123Q" ++ [newline]) in
  fst (readResponseIntoBuffer response_buffer_init (16 - 1) s) =
    (true, bytes "rz1234567890123" ++ [0]) /\
  rx_line (swserial_ (snd (readResponseIntoBuffer response_buffer_init (16 - 1) s))) =
    buffered (bytes "Q" ++ [newline]) /\
  MingHeBuckConverterChecksum.getChecksumCharacter
    (checksum_of (bytes ":01rz1234567890123") 0) = ch "A".
Proof. vm_compute. repeat split; reflexivity. Qed.

(** ** C5 and C3: the search for the start marker *)

Definition same_but_port (s s' : MingHeBuckConverter) : Prop :=
  checksum_ s' = checksum_ s /\ device_id_ s' = device_id_ s /\
  tx_log (swserial_ s') = tx_log (swserial_ s).

(** One read on a line without ':' does not return ':', takes at most the
    per-character timeout and at most one byte, and leaves a line without
    ':'. *)
Lemma readChar_no_colon s :
  no_colon (rx_line (swserial_ s)) = true ->
  let '(c, s') := readCharUntilTimeout MINGHE_PER_CHARACTER_TIMEOUT_MS s in
  c <> ch ":" /\
  no_colon (rx_line (swserial_ s')) = true /\
  clock (swserial_ s) <= clock (swserial_ s')
    <= clock (swserial_ s) + MINGHE_PER_CHARACTER_TIMEOUT_MS /\
  (length (rx_line (swserial_ s)) <= length (rx_line (swserial_ s')) + 1)%nat /\
  same_but_port s s'.
Proof.
  intros Hn. rewrite readCharUntilTimeout_spec.
  destruct s as [[k line log] c id]. unfold poll_result, same_but_port.
  cbn [swserial_ rx_line clock tx_log checksum_ device_id_ with_serial] in *.
  change (uint32 MINGHE_PER_CHARACTER_TIMEOUT_MS) with 500.
  change MINGHE_PER_CHARACTER_TIMEOUT_MS with 500.
  destruct line as [|[d b] rest]; cbn [fst snd swserial_ rx_line clock tx_log checksum_ device_id_].
  - repeat split; try reflexivity; try lia. discriminate.
  - simpl in Hn. apply andb_prop in Hn as [Hb Hrest].
    destruct (Z.leb_spec d 500);
      cbn [fst snd swserial_ rx_line clock tx_log checksum_ device_id_ length].
    + apply negb_true_iff, Z.eqb_neq in Hb.
      repeat split; try reflexivity; try lia; assumption.
    + repeat split; try reflexivity; try lia; [discriminate|].
      simpl. rewrite Hb. exact Hrest.
Qed.

(** On a line without ':' the search gives up exactly when the count of
    reads reaches the junk budget. *)
Lemma sync_loop_no_colon (n : nat) : forall chars_read s,
  0 <= chars_read -> chars_read + Z.of_nat n = MINGHE_MAX_JUNK_CHARACTERS - 1 ->
  no_colon (rx_line (swserial_ s)) = true ->
  exists s',
    sync_loop chars_read s = (None, s') /\
    no_colon (rx_line (swserial_ s')) = true /\
    clock (swserial_ s) <= clock (swserial_ s')
      <= clock (swserial_ s)
         + (MINGHE_MAX_JUNK_CHARACTERS - chars_read) * MINGHE_PER_CHARACTER_TIMEOUT_MS /\
    Z.of_nat (length (rx_line (swserial_ s)))
      <= Z.of_nat (length (rx_line (swserial_ s')))
         + (MINGHE_MAX_JUNK_CHARACTERS - chars_read) /\
    same_but_port s s'.
Proof.
  unfold MINGHE_MAX_JUNK_CHARACTERS, MINGHE_PER_CHARACTER_TIMEOUT_MS.
  induction n as [|n IH]; intros cr s Hcr Hn Hline;
    rewrite sync_loop_step;
    pose proof (readChar_no_colon s Hline) as R;
    destruct (readCharUntilTimeout MINGHE_PER_CHARACTER_TIMEOUT_MS s) as [c s1];
    destruct R as (Hc & Hline1 & Hclock & Hlen & Hsame);
    unfold MINGHE_MAX_JUNK_CHARACTERS, MINGHE_PER_CHARACTER_TIMEOUT_MS in *;
    rewrite (uint8_small (cr + 1)) by lia.
  - destruct (Z.leb_spec 32 (cr + 1)); [|lia].
    exists s1. repeat split; trivial; try lia; apply Hsame.
  - destruct (Z.leb_spec 32 (cr + 1)); [lia|].
    destruct (Z.eqb_spec c (ch ":")); [contradiction|].
    destruct (IH (cr + 1) s1) as (s' & E & Hl' & Hc' & Hlen' & Hs'); trivial; try lia.
    exists s'. repeat split; trivial; try lia.
    + destruct Hs' as (A & _), Hsame as (B & _). congruence.
    + destruct Hs' as (_ & A & _), Hsame as (_ & B & _). congruence.
    + destruct Hs' as (_ & _ & A), Hsame as (_ & _ & B). congruence.
Qed.

Lemma no_marker_response buffer buffer_length s :
  no_colon (rx_line (swserial_ s)) = true ->
  fst (readResponseIntoBuffer buffer buffer_length s) = (false, buffer).
Proof.
  intros Hline. unfold readResponseIntoBuffer.
  destruct (sync_loop_no_colon 31 0 (checksum_reset s)) as (s' & E & _);
    [lia|reflexivity|exact Hline|].
  rewrite E. reflexivity.
Qed.

(** C5: on every line that never delivers ':' [readResponseIntoBuffer]
    returns, with the result [false] and the buffer untouched, after at
    most 32 per-character timeouts (16 seconds on the clock) and at most
    32 bytes taken from the line. *)
Theorem no_marker_read_fails_in_bounded_time buffer buffer_length s :
  no_colon (rx_line (swserial_ s)) = true ->
  let '(r, s') := readResponseIntoBuffer buffer buffer_length s in
  r = (false, buffer) /\
  clock (swserial_ s) <= clock (swserial_ s')
    <= clock (swserial_ s)
       + MINGHE_MAX_JUNK_CHARACTERS * MINGHE_PER_CHARACTER_TIMEOUT_MS /\
  (length (rx_line (swserial_ s))
     <= length (rx_line (swserial_ s')) + Z.to_nat MINGHE_MAX_JUNK_CHARACTERS)%nat.
Proof.
  intros Hline. unfold readResponseIntoBuffer.
  destruct (sync_loop_no_colon 31 0 (checksum_reset s)) as (s' & E & _ & Hc & Hl & _);
    [lia|reflexivity|exact Hline|].
  rewrite E. destruct s as [[k line log] c id].
  cbn [checksum_reset with_checksum swserial_ rx_line clock] in *.
  change (Z.to_nat MINGHE_MAX_JUNK_CHARACTERS) with 32%nat.
  unfold MINGHE_MAX_JUNK_CHARACTERS in *. repeat split; lia.
Qed.

Lemma no_marker_read_fails_in_bounded_time_witness :
  let s := listening 1 (bytes "garbage without the start marker, 01rzB") in
  no_colon (rx_line (swserial_ s)) = true /\
  fst (readResponseIntoBuffer response_buffer_init 15 s) = (false, response_buffer_init) /\
  clock (swserial_ (snd (readResponseIntoBuffer response_buffer_init 15 s)))
    <= MINGHE_MAX_JUNK_CHARACTERS * MINGHE_PER_CHARACTER_TIMEOUT_MS.
Proof.
  cbv zeta. split; [reflexivity|].
  pose proof (no_marker_read_fails_in_bounded_time response_buffer_init 15
                (listening 1 (bytes "garbage without the start marker, 01rzB"))
                eq_refl) as H.
  destruct (readResponseIntoBuffer _ _ _) as [r s'].
  destruct H as (Hr & Hc & _). split; [exact Hr|].
  cbn [snd]. change (clock (swserial_ (listening 1 _))) with 0 in Hc. lia.
Defined.

Lemma readChar_silent s :
  silent_for MINGHE_PER_CHARACTER_TIMEOUT_MS (rx_line (swserial_ s)) = true ->
  readCharUntilTimeout MINGHE_PER_CHARACTER_TIMEOUT_MS s =
  (0, with_serial (elapse MINGHE_PER_CHARACTER_TIMEOUT_MS (swserial_ s)) s).
Proof.
  destruct s as [[k line log] c id]. cbn [swserial_ rx_line]. intros H.
  destruct line as [|[d b] rest]; cbn [silent_for] in H.
  - apply readChar_silence.
  - apply Z.ltb_lt in H. rewrite readChar_timeout by exact H.
    unfold with_serial, elapse. cbn [swserial_ checksum_ device_id_ clock rx_line tx_log advance].
    change (MINGHE_PER_CHARACTER_TIMEOUT_MS <=? 0) with false. cbv iota.
    destruct (Z.leb_spec d MINGHE_PER_CHARACTER_TIMEOUT_MS); [lia|]. reflexivity.
Qed.

(** C3, amended: in the search for ':' a per-character read that times
    out yields the character 0, which is counted like any other character
    that is not ':': the loop reads on, 500 ms later, unless this was the
    32nd read.  The only failure of the search is the junk budget, and a
    line that stays silent ends in the very result, [false], of a line
    that delivers other bytes. *)
Theorem sync_timeout_counts_as_junk chars_read s :
  silent_for MINGHE_PER_CHARACTER_TIMEOUT_MS (rx_line (swserial_ s)) = true ->
  (let later := with_serial (elapse MINGHE_PER_CHARACTER_TIMEOUT_MS (swserial_ s)) s in
   sync_loop chars_read s =
   if MINGHE_MAX_JUNK_CHARACTERS <=? uint8 (chars_read + 1) then (None, later)
   else sync_loop (uint8 (chars_read + 1)) later)
  /\ forall buffer buffer_length junk,
       no_colon junk = true ->
       fst (readResponseIntoBuffer buffer buffer_length (with_line junk s)) =
       fst (readResponseIntoBuffer buffer buffer_length (with_line [] s)).
Proof.
  intros Hs. split.
  - cbv zeta. rewrite sync_loop_step, readChar_silent by exact Hs.
    change (0 =? ch ":") with false. reflexivity.
  - intros buffer buffer_length junk Hj.
    assert (F : forall line, no_colon line = true ->
              fst (readResponseIntoBuffer buffer buffer_length (with_line line s))
              = (false, buffer)).
    { intros line Hl. unfold readResponseIntoBuffer.
      destruct (sync_loop_no_colon 31 0 (checksum_reset (with_line line s)))
        as (s' & E & _); [lia|reflexivity|exact Hl|].
      rewrite E. reflexivity. }
    rewrite (F junk Hj), (F [] eq_refl). reflexivity.
Qed.

Lemma sync_timeout_counts_as_junk_witness :
  let s := constructor (mkSerial 0 ((600, ch ":") :: buffered (bytes "01rzB" ++ [newline])) []) 1 in
  silent_for MINGHE_PER_CHARACTER_TIMEOUT_MS (rx_line (swserial_ s)) = true /\
  sync_loop 0 s =
    sync_loop 1 (constructor (mkSerial 500 ((100, ch ":") :: buffered (bytes "01rzB" ++ [newline])) []) 1) /\
  fst (readResponseIntoBuffer response_buffer_init 15 (with_line (buffered (bytes "01rzB")) s)) =
  fst (readResponseIntoBuffer response_buffer_init 15 (with_line [] s)).
Proof.
  cbv zeta. split; [reflexivity|].
  pose proof (sync_timeout_counts_as_junk 0
    (constructor (mkSerial 0 ((600, ch ":") :: buffered (bytes "01rzB" ++ [newline])) []) 1)
    eq_refl) as [H1 H2].
  split.
  - exact H1.
  - apply H2. reflexivity.
Defined.

(** C3 as stated fails: the first read of the search times out, nothing
    having arrived for 500 ms, and the read still succeeds on the frame
    that arrives 100 ms later. *)
Lemma sync_timeout_does_not_abort :
  let s := constructor (mkSerial 0 ((600, ch ":") :: buffered (bytes "01rzB" ++ [newline])) []) 1 in
  readCharUntilTimeout MINGHE_PER_CHARACTER_TIMEOUT_MS s =
    (0, constructor (mkSerial 500 ((100, ch ":") :: buffered (bytes "01rzB" ++ [newline])) []) 1) /\
  fst (readResponseIntoBuffer response_buffer_init (16 - 1) s) =
    (true, bytes "rz" ++ repeat 0 14).
Proof. vm_compute. split; reflexivity. Qed.

(** ** C9: a NUL byte and a timeout *)

Lemma readChar_alike s1 s2 :
  alike s1 s2 ->
  fst (readCharUntilTimeout MINGHE_PER_CHARACTER_TIMEOUT_MS s1) =
  fst (readCharUntilTimeout MINGHE_PER_CHARACTER_TIMEOUT_MS s2) /\
  alike (snd (readCharUntilTimeout MINGHE_PER_CHARACTER_TIMEOUT_MS s1))
        (snd (readCharUntilTimeout MINGHE_PER_CHARACTER_TIMEOUT_MS s2)).
Proof.
  intros H. rewrite !readCharUntilTimeout_spec.
  change (uint32 MINGHE_PER_CHARACTER_TIMEOUT_MS) with MINGHE_PER_CHARACTER_TIMEOUT_MS.
  destruct H as [k1 k2 line log c id|k1 k2 pre dn rest log c id Hdn Hrest];
    unfold poll_result, with_serial;
    cbn [swserial_ rx_line clock tx_log checksum_ device_id_ fst snd].
  - destruct line as [|[d b] line]; cbn [fst snd]; [split; [reflexivity|constructor]|].
    destruct (d <=? MINGHE_PER_CHARACTER_TIMEOUT_MS); cbn [fst snd];
      (split; [reflexivity|constructor]).
  - destruct pre as [|[d b] pre]; cbn [app].
    + destruct (Z.leb_spec dn MINGHE_PER_CHARACTER_TIMEOUT_MS); [|lia]. cbn [fst snd].
      destruct rest as [|[d b] rest]; cbn [postpone fst snd];
        [split; [reflexivity|constructor]|].
      cbn [silent_for] in Hrest. apply Z.ltb_lt in Hrest.
      destruct (Z.leb_spec (Z.max d 0 + MINGHE_PER_CHARACTER_TIMEOUT_MS)
                  MINGHE_PER_CHARACTER_TIMEOUT_MS); [lia|].
      cbn [fst snd]. split; [reflexivity|].
      replace (Z.max d 0 + MINGHE_PER_CHARACTER_TIMEOUT_MS - MINGHE_PER_CHARACTER_TIMEOUT_MS)
        with d by lia.
      constructor.
    + destruct (d <=? MINGHE_PER_CHARACTER_TIMEOUT_MS); cbn [fst snd].
      * split; [reflexivity|]. constructor; assumption.
      * split; [reflexivity|].
        apply (alike_nul _ _ ((d - MINGHE_PER_CHARACTER_TIMEOUT_MS, b) :: pre)); assumption.
Qed.

Lemma checksum_addOutputCharacter_alike c s1 s2 :
  alike s1 s2 ->
  alike (checksum_addOutputCharacter c s1) (checksum_addOutputCharacter c s2).
Proof.
  intros H. destruct H; unfold checksum_addOutputCharacter, with_checksum;
    cbn [swserial_ checksum_ device_id_]; constructor; assumption.
Qed.

Lemma alike_fields s1 s2 :
  alike s1 s2 -> checksum_ s1 = checksum_ s2 /\ device_id_ s1 = device_id_ s2.
Proof. intros H. destruct H; split; reflexivity. Qed.

Lemma sync_loop_alike (n : nat) : forall chars_read s1 s2,
  0 <= chars_read -> chars_read + Z.of_nat n = MINGHE_MAX_JUNK_CHARACTERS - 1 ->
  alike s1 s2 ->
  fst (sync_loop chars_read s1) = fst (sync_loop chars_read s2) /\
  alike (snd (sync_loop chars_read s1)) (snd (sync_loop chars_read s2)).
Proof.
  unfold MINGHE_MAX_JUNK_CHARACTERS.
  induction n as [|n IH]; intros cr s1 s2 Hcr Hn H;
    rewrite !sync_loop_step;
    destruct (readChar_alike s1 s2 H) as [Ec Ha];
    destruct (readCharUntilTimeout MINGHE_PER_CHARACTER_TIMEOUT_MS s1) as [c1 t1];
    destruct (readCharUntilTimeout MINGHE_PER_CHARACTER_TIMEOUT_MS s2) as [c2 t2];
    cbn [fst snd] in Ec, Ha; subst c2;
    unfold MINGHE_MAX_JUNK_CHARACTERS;
    rewrite (uint8_small (cr + 1)) by lia.
  - destruct (Z.leb_spec 32 (cr + 1)); [|lia]. split; [reflexivity|exact Ha].
  - destruct (Z.leb_spec 32 (cr + 1)); [lia|].
    destruct (c1 =? ch ":"); [split; [reflexivity|exact Ha]|].
    apply IH; trivial; lia.
Qed.

Lemma payload_loop_alike (n : nat) : forall i buffer s1 s2,
  alike s1 s2 ->
  fst (payload_loop n i buffer s1) = fst (payload_loop n i buffer s2).
Proof.
  induction n as [|n IH]; intros i buffer s1 s2 H; cbn [payload_loop]; [reflexivity|].
  destruct (readChar_alike s1 s2 H) as [Ec Ha].
  destruct (readCharUntilTimeout MINGHE_PER_CHARACTER_TIMEOUT_MS s1) as [c1 t1].
  destruct (readCharUntilTimeout MINGHE_PER_CHARACTER_TIMEOUT_MS s2) as [c2 t2].
  cbn [fst snd] in Ec, Ha. subst c2.
  destruct (isupper c1).
  - unfold checksum_getChecksumCharacter.
    destruct (alike_fields _ _ Ha) as [-> _].
    destruct (negb _); reflexivity.
  - apply IH, checksum_addOutputCharacter_alike, Ha.
Qed.

Lemma readResponseIntoBuffer_alike buffer buffer_length s1 s2 :
  alike s1 s2 ->
  fst (readResponseIntoBuffer buffer buffer_length s1) =
  fst (readResponseIntoBuffer buffer buffer_length s2).
Proof.
  intros H. unfold readResponseIntoBuffer.
  assert (H0 : alike (checksum_reset s1) (checksum_reset s2)).
  { destruct H; unfold checksum_reset, with_checksum;
      cbn [swserial_ checksum_ device_id_]; constructor; assumption. }
  destruct (sync_loop_alike 31 0 _ _ ltac:(lia) eq_refl H0) as [Ec Ha].
  destruct (sync_loop 0 (checksum_reset s1)) as [[c1|] t1];
    destruct (sync_loop 0 (checksum_reset s2)) as [[c2|] t2];
    cbn [fst snd] in Ec, Ha; try discriminate; [|reflexivity].
  injection Ec as <-.
  apply (checksum_addOutputCharacter_alike c1) in Ha.
  destruct (readChar_alike _ _ Ha) as [E0 Ha0].
  destruct (readCharUntilTimeout _ (checksum_addOutputCharacter c1 t1)) as [a1 u1].
  destruct (readCharUntilTimeout _ (checksum_addOutputCharacter c1 t2)) as [a2 u2].
  cbn [fst snd] in E0, Ha0. subst a2.
  apply (checksum_addOutputCharacter_alike a1) in Ha0.
  destruct (readChar_alike _ _ Ha0) as [E1 Ha1].
  destruct (readCharUntilTimeout _ (checksum_addOutputCharacter a1 u1)) as [b1 v1].
  destruct (readCharUntilTimeout _ (checksum_addOutputCharacter a1 u2)) as [b2 v2].
  cbn [fst snd] in E1, Ha1. subst b2.
  apply (checksum_addOutputCharacter_alike b1) in Ha1.
  destruct (alike_fields _ _ Ha1) as [_ Eid]. rewrite Eid.
  destruct (negb _); [reflexivity|].
  pose proof (payload_loop_alike (Z.to_nat (uint8 buffer_length)) 0 buffer _ _ Ha1) as Ep.
  destruct (payload_loop _ _ _ (checksum_addOutputCharacter b1 v1)) as [[ok1 r1] w1];
    destruct (payload_loop _ _ _ (checksum_addOutputCharacter b1 v2)) as [[ok2 r2] w2].
  cbn [fst] in Ep. apply pair_equal_spec in Ep as [<- <-].
  destruct ok1; reflexivity.
Qed.

(** C9: whatever the timeout bound, [readCharUntilTimeout] returns 0 when
    nothing arrives within the bound, and returns 0 when the byte that
    arrives within the bound is 0x00.  So the frame reader cannot tell the
    two apart: with a NUL byte at some place of the line, or with a silence
    of one per-character timeout at that place, [readResponseIntoBuffer]
    gives the same boolean and the same buffer. *)
Theorem nul_byte_reads_like_timeout :
  (forall timeout_ms s,
     silent_for (uint32 timeout_ms) (rx_line (swserial_ s)) = true ->
     fst (readCharUntilTimeout timeout_ms s) = 0) /\
  (forall timeout_ms s d rest,
     rx_line (swserial_ s) = (d, 0) :: rest -> d <= uint32 timeout_ms ->
     fst (readCharUntilTimeout timeout_ms s) = 0) /\
  (forall buffer buffer_length s pre dn rest,
     dn <= MINGHE_PER_CHARACTER_TIMEOUT_MS -> silent_for 0 rest = true ->
     fst (readResponseIntoBuffer buffer buffer_length
            (with_line (pre ++ (dn, 0) :: rest) s)) =
     fst (readResponseIntoBuffer buffer buffer_length
            (with_line (pre ++ postpone MINGHE_PER_CHARACTER_TIMEOUT_MS rest) s))).
Proof.
  split; [|split].
  - intros t s H. rewrite readCharUntilTimeout_spec. cbn [fst].
    unfold poll_result. destruct (rx_line (swserial_ s)) as [|[d b] rest]; [reflexivity|].
    cbn [silent_for] in H. apply Z.ltb_lt in H.
    destruct (Z.leb_spec d (uint32 t)); [lia|]. reflexivity.
  - intros t s d rest E H. rewrite readCharUntilTimeout_spec. cbn [fst].
    unfold poll_result. rewrite E.
    destruct (Z.leb_spec d (uint32 t)); [|lia]. reflexivity.
  - intros buffer buffer_length s pre dn rest Hdn Hrest.
    apply readResponseIntoBuffer_alike.
    destruct s as [[k line log] c id]. unfold with_line, with_serial.
    cbn [swserial_ clock tx_log checksum_ device_id_].
    constructor; assumption.
Qed.

Lemma nul_byte_reads_like_timeout_witness :
  let silent := listening 1 [] in
  let nul := constructor (mkSerial 0 [(200, 0)] []) 1 in
  let pre := buffered (bytes ":01rz60") in
  let rest := [(3, ch "1"); (0, ch "5"); (0, ch "K"); (0, newline)] in
  fst (readCharUntilTimeout 200 silent) = 0 /\
  fst (readCharUntilTimeout 200 nul) = 0 /\
  fst (readResponseIntoBuffer response_buffer_init 15
         (with_line (pre ++ (20, 0) :: rest) silent)) =
  fst (readResponseIntoBuffer response_buffer_init 15
         (with_line (pre ++ postpone MINGHE_PER_CHARACTER_TIMEOUT_MS rest) silent)).
Proof.
  cbv zeta. destruct nul_byte_reads_like_timeout as (H1 & H2 & H3).
  split; [apply H1; reflexivity|].
  split; [apply (H2 200 _ 200 []); [reflexivity|vm_compute; discriminate]|].
  apply H3; [vm_compute; discriminate|reflexivity].
Defined.

(** ** C7 and C10: setters with a tolerance on the read-back *)

Lemma executeGetCommand_range command s r s' :
  executeGetCommand command s = Some (r, s') -> 0 <= r < 2 ^ 32.
Proof.
  unfold executeGetCommand.
  destruct (sendRequest REQUEST_GET command None s) as [s1|]; [|discriminate].
  destruct (readResponse REQUEST_GET command s1) as [[[|] value] s2].
  - destruct (11 <? Z.of_nat (length value)); [discriminate|].
    intros H. injection H as <- _. apply uint32_range.
  - intros H. injection H as <- _. lia.
Qed.

Lemma setmAmpHours_spec m s s1 r s2 :
  executeSetCommand MINGHE_COMMAND_MAMP_HOURS m s = Some (true, s1) ->
  getmAmpHours s1 = Some (r, s2) ->
  setmAmpHours m s = Some (uint32 (r - uint32 m) <? MAMP_HOUR_TOLERANCE, s2).
Proof.
  intros H1 H2. unfold setmAmpHours. rewrite H1. cbn [bind]. rewrite H2. cbn [bind].
  destruct (uint32 (r - uint32 m) <? MAMP_HOUR_TOLERANCE); reflexivity.
Qed.

Lemma setPowerOnTime_spec m s s1 r s2 :
  executeSetCommand MINGHE_COMMAND_RUNTIME m s = Some (true, s1) ->
  getPowerOnTime s1 = Some (r, s2) ->
  setPowerOnTime m s = Some (uint32 (r - uint32 m) <? SECOND_TOLERANCE, s2).
Proof.
  intros H1 H2. unfold setPowerOnTime. rewrite H1. cbn [bind]. rewrite H2. cbn [bind].
  destruct (uint32 (r - uint32 m) <? SECOND_TOLERANCE); reflexivity.
Qed.

(** The 32-bit difference read-back minus written value, by cases. *)
Lemma drift_difference m r :
  0 <= m < 2 ^ 32 -> 0 <= r < 2 ^ 32 ->
  uint32 (r - uint32 m) = if m <=? r then r - m else r - m + 2 ^ 32.
Proof.
  intros Hm Hr. rewrite (uint32_small m) by exact Hm. unfold uint32.
  destruct (Z.leb_spec m r).
  - apply Z.mod_small. lia.
  - rewrite <- (Z.mod_add (r - m) 1 (2 ^ 32)) by lia.
    rewrite Z.mod_small by lia. lia.
Qed.

(** C7: once the device has acknowledged the written value [m],
    [setmAmpHours] succeeds exactly when the read-back is [m] or up to 99
    units above it; with 1000 written, a read-back of 1050 is a success
    and a read-back of 1200 a failure. *)
Theorem setmAmpHours_tolerance m s s1 r s2 :
  0 <= m <= 2 ^ 32 - MAMP_HOUR_TOLERANCE ->
  executeSetCommand MINGHE_COMMAND_MAMP_HOURS m s = Some (true, s1) ->
  getmAmpHours s1 = Some (r, s2) ->
  setmAmpHours m s = Some ((m <=? r) && (r <? m + MAMP_HOUR_TOLERANCE), s2) /\
  (m = 1000 -> r = 1050 -> setmAmpHours m s = Some (true, s2)) /\
  (m = 1000 -> r = 1200 -> setmAmpHours m s = Some (false, s2)).
Proof.
  unfold MAMP_HOUR_TOLERANCE. intros Hm H1 H2.
  pose proof (executeGetCommand_range _ _ _ _ H2) as Hr.
  assert (E : setmAmpHours m s = Some ((m <=? r) && (r <? m + 100), s2)).
  { rewrite (setmAmpHours_spec m s s1 r s2 H1 H2). unfold MAMP_HOUR_TOLERANCE.
    rewrite drift_difference by lia. f_equal. f_equal.
    destruct (Z.leb_spec m r); cbn [andb].
    - destruct (Z.ltb_spec (r - m) 100); destruct (Z.ltb_spec r (m + 100)); trivial; lia.
    - destruct (Z.ltb_spec (r - m + 2 ^ 32) 100); trivial; lia. }
  split; [exact E|]. split; intros -> ->; rewrite E; reflexivity.
Qed.

Lemma setmAmpHours_tolerance_witness :
  let ack := bytes ":01okJ" ++ [newline] in
  let near := listening 1 (ack ++ bytes ":01ra1050S" ++ [newline]) in
  let far := listening 1 (ack ++ bytes ":01ra1200P" ++ [newline]) in
  option_map fst (executeSetCommand MINGHE_COMMAND_MAMP_HOURS 1000 near) = Some true /\
  option_map fst (setmAmpHours 1000 near) = Some true /\
  option_map fst (setmAmpHours 1000 far) = Some false.
Proof.
  cbv zeta. split; [vm_compute; reflexivity|].
  set (ack := bytes ":01okJ" ++ [newline]).
  set (near := listening 1 (ack ++ bytes ":01ra1050S" ++ [newline])).
  set (far := listening 1 (ack ++ bytes ":01ra1200P" ++ [newline])).
  split.
  - set (s1 := state_after (executeSetCommand MINGHE_COMMAND_MAMP_HOURS 1000 near) near).
    set (s2 := state_after (getmAmpHours s1) s1).
    destruct (setmAmpHours_tolerance 1000 near s1 1050 s2) as (_ & H & _);
      [unfold MAMP_HOUR_TOLERANCE; lia|vm_compute; reflexivity|vm_compute; reflexivity|].
    rewrite (H eq_refl eq_refl). reflexivity.
  - set (s1 := state_after (executeSetCommand MINGHE_COMMAND_MAMP_HOURS 1000 far) far).
    set (s2 := state_after (getmAmpHours s1) s1).
    destruct (setmAmpHours_tolerance 1000 far s1 1200 s2) as (_ & _ & H);
      [unfold MAMP_HOUR_TOLERANCE; lia|vm_compute; reflexivity|vm_compute; reflexivity|].
    rewrite (H eq_refl eq_refl). reflexivity.
Defined.

(** C10, amended: when the read-back [r] is below the written value [m]
    and [m - r] is at most 2^32 minus the tolerance, the 32-bit difference
    wraps around to a value at or above the tolerance and the setter
    reports failure; that covers every read-back below a written value of
    at most 2^32 - 100 for [setmAmpHours], 2^32 - 2 for
    [setPowerOnTime]. *)
Theorem read_back_below_written_fails m r s s1 s2 :
  0 <= r < m -> m < 2 ^ 32 ->
  (m - r <= 2 ^ 32 - MAMP_HOUR_TOLERANCE ->
   executeSetCommand MINGHE_COMMAND_MAMP_HOURS m s = Some (true, s1) ->
   getmAmpHours s1 = Some (r, s2) ->
   MAMP_HOUR_TOLERANCE <= uint32 (r - uint32 m) /\
   setmAmpHours m s = Some (false, s2)) /\
  (m - r <= 2 ^ 32 - SECOND_TOLERANCE ->
   executeSetCommand MINGHE_COMMAND_RUNTIME m s = Some (true, s1) ->
   getPowerOnTime s1 = Some (r, s2) ->
   SECOND_TOLERANCE <= uint32 (r - uint32 m) /\
   setPowerOnTime m s = Some (false, s2)).
Proof.
  unfold MAMP_HOUR_TOLERANCE, SECOND_TOLERANCE. intros Hr Hm.
  assert (E : uint32 (r - uint32 m) = r - m + 2 ^ 32).
  { rewrite drift_difference by lia. destruct (Z.leb_spec m r); [lia|reflexivity]. }
  split; intros Hd H1 H2.
  - split; [lia|]. rewrite (setmAmpHours_spec m s s1 r s2 H1 H2), E.
    unfold MAMP_HOUR_TOLERANCE. destruct (Z.ltb_spec (r - m + 2 ^ 32) 100); [lia|reflexivity].
  - split; [lia|]. rewrite (setPowerOnTime_spec m s s1 r s2 H1 H2), E.
    unfold SECOND_TOLERANCE. destruct (Z.ltb_spec (r - m + 2 ^ 32) 2); [lia|reflexivity].
Qed.

Lemma read_back_below_written_fails_witness :
  let s := listening 1 (bytes ":01okJ" ++ [newline] ++ bytes ":01ra1050A" ++ [newline]) in
  0 <= 0 < 1000 /\
  option_map fst (getmAmpHours (state_after (executeSetCommand MINGHE_COMMAND_MAMP_HOURS 1000 s) s))
    = Some 0 /\
  option_map fst (setmAmpHours 1000 s) = Some false /\
  option_map fst (setPowerOnTime 1000 s) = Some false.
Proof.
  cbv zeta. split; [lia|]. split; [vm_compute; reflexivity|].
  set (s := listening 1 (bytes ":01okJ" ++ [newline] ++ bytes ":01ra1050A" ++ [newline])).
  split.
  - set (s1 := state_after (executeSetCommand MINGHE_COMMAND_MAMP_HOURS 1000 s) s).
    set (s2 := state_after (getmAmpHours s1) s1).
    destruct (read_back_below_written_fails 1000 0 s s1 s2) as [H _]; [lia|lia|].
    destruct H as [_ H];
      [unfold MAMP_HOUR_TOLERANCE; lia|vm_compute; reflexivity|vm_compute; reflexivity|].
    rewrite H. reflexivity.
  - set (s1 := state_after (executeSetCommand MINGHE_COMMAND_RUNTIME 1000 s) s).
    set (s2 := state_after (getPowerOnTime s1) s1).
    destruct (read_back_below_written_fails 1000 0 s s1 s2) as [_ H]; [lia|lia|].
    destruct H as [_ H];
      [unfold SECOND_TOLERANCE; lia|vm_compute; reflexivity|vm_compute; reflexivity|].
    rewrite H. reflexivity.
Defined.

(** C10 as stated fails for the largest written value: the device
    acknowledges, the read-back fails on a wrong checksum character and
    yields 0, the difference 0 - 4294967295 wraps around to 1, below either
    tolerance, and both setters report success. *)
Lemma read_back_below_written_succeeds :
  let s := listening 1 (bytes ":01okJ" ++ [newline] ++ bytes ":01ra1050A" ++ [newline]) in
  option_map fst (getmAmpHours (state_after (executeSetCommand MINGHE_COMMAND_MAMP_HOURS 4294967295 s) s))
    = Some 0 /\
  uint32 (0 - uint32 4294967295) = 1 /\
  option_map fst (setmAmpHours 4294967295 s) = Some true /\
  option_map fst (setPowerOnTime 4294967295 s) = Some true.
Proof. vm_compute. repeat split; reflexivity. Qed.

(** ** The result of a get command *)

Lemma parse_digits_decimal value : forall acc t rest,
  forallb isdigit value = true -> isdigit t = false ->
  parse_digits acc (value ++ t :: rest) =
  fold_left (fun a c => a * 10 + (c - ch "0")) value acc.
Proof.
  induction value as [|v value IH]; intros acc t rest Hv Ht; simpl.
  - rewrite Ht. reflexivity.
  - simpl in Hv. apply andb_prop in Hv as [Hv1 Hv2]. rewrite Hv1.
    apply IH; assumption.
Qed.

(** [atol] on the digits stored by [readResponse], which end in a NUL. *)
Lemma atol_digits value rest :
  forallb isdigit value = true ->
  uint32 (atol (value ++ 0 :: rest)) = uint32 (decimal value).
Proof.
  intros Hv.
  assert (E : atol (value ++ 0 :: rest) = int32 (decimal value)).
  { unfold atol, decimal. destruct value as [|v value].
    - reflexivity.
    - simpl in Hv. apply andb_prop in Hv as [Hv1 Hv2].
      assert (Hr : 48 <= v <= 57).
      { unfold isdigit in Hv1. change (ch "0") with 48 in Hv1. change (ch "9") with 57 in Hv1.
        apply andb_prop in Hv1 as [A B]. apply Z.leb_le in A, B. lia. }
      cbn [app skip_space].
      assert (Hs : isspace v = false).
      { unfold isspace. destruct (Z.eqb_spec v 32); [lia|].
        destruct (Z.leb_spec 9 v); destruct (Z.leb_spec v 13); trivial; lia. }
      rewrite Hs. change (ch "-") with 45. change (ch "+") with 43.
      destruct (Z.eqb_spec v 45); [lia|]. destruct (Z.eqb_spec v 43); [lia|].
      f_equal.
      apply (parse_digits_decimal (v :: value) 0 0 rest); [|reflexivity].
      simpl. rewrite Hv1. exact Hv2. }
  rewrite E. unfold uint32, int32.
  rewrite Zminus_mod_idemp_l.
  replace (decimal value + 2 ^ 31 - 2 ^ 31) with (decimal value) by lia. reflexivity.
Qed.

Lemma executeGetCommand_result command s s1 :
  sendRequest REQUEST_GET command None s = Some s1 ->
  option_map fst (executeGetCommand command s) =
  match fst (readResponse REQUEST_GET command s1) with
  | (false, _) => Some 0
  | (true, value) =>
      if 11 <? Z.of_nat (length value) then None
      else Some (uint32 (atol (value ++ repeat 0 (11 - length value))))
  end.
Proof.
  intros H. unfold executeGetCommand. rewrite H.
  destruct (readResponse REQUEST_GET command s1) as [[[|] value] s2]; cbn [fst].
  - destruct (11 <? Z.of_nat (length value)); reflexivity.
  - reflexivity.
Qed.

Lemma readResponse_no_colon set command s :
  no_colon (rx_line (swserial_ s)) = true ->
  fst (readResponse set command s) = (false, []).
Proof.
  intros H. unfold readResponse.
  pose proof (no_marker_response response_buffer_init (16 - 1) s H) as E.
  destruct (readResponseIntoBuffer response_buffer_init (16 - 1) s) as [[ok buf] s'].
  cbn [fst] in E. injection E as -> ->. reflexivity.
Qed.

(** X21: [executeGetCommand] returns 0 when no ':' comes within the
    junk budget (a silent line, or other bytes only).  On an answer whose
    bytes arrive in time and end with an upper-case character it returns 0
    when the answer has another address, another upper-case character
    than its checksum character, another direction or another command, and
    the number its digits denote, as a [uint32_t], when the answer passes
    these four checks. *)
Theorem complete_answer_gives_value_or_zero command s :
  0 <= device_id_ s <= 99 ->
  (no_colon (rx_line (swserial_ s)) = true ->
   option_map fst (executeGetCommand command s) = Some 0) /\
  (forall a1 a0 dir cmd value chk rest,
     line_bytes (rx_line (swserial_ s)) = ch ":" :: a1 :: a0 :: dir :: cmd :: value ++ chk :: rest ->
     prompt (rx_line (swserial_ s)) = true ->
     is_char a1 = true -> is_char a0 = true ->
     is_char dir = true -> isupper dir = false ->
     is_char cmd = true -> isupper cmd = false ->
     forallb isdigit value = true -> (length value <= 10)%nat ->
     is_char chk = true -> isupper chk = true ->
     option_map fst (executeGetCommand command s) =
     Some (if (atoi [a1; a0; 0] =? device_id_ s)
              && (chk =? MingHeBuckConverterChecksum.getChecksumCharacter
                           (checksum_of (ch ":" :: a1 :: a0 :: dir :: cmd :: value) 0))
              && (dir =? ch "r") && (cmd =? command)
           then uint32 (decimal value) else 0)).
Proof.
  intros Hid. destruct s as [[k line log] c id].
  cbn [swserial_ rx_line device_id_] in *.
  pose proof (sendRequest_spec REQUEST_GET command None k line log c id Hid) as Hsend.
  cbv zeta in Hsend. split.
  - intros Hn. rewrite (executeGetCommand_result _ _ _ Hsend).
    rewrite readResponse_no_colon by exact Hn. reflexivity.
  - intros a1 a0 dir cmd value chk rest Hline Hp Ha1 Ha0 Hdir Hdiru Hcmd Hcmdu Hv Hlen Hchk Hchku.
    rewrite (executeGetCommand_result _ _ _ Hsend).
    destruct (line_of_frame _ _ _ _ _ _ _ _ _ Hline Hp)
      as (d0 & d1 & d2 & dc & pl & tail & -> & Hpl & H0 & H1 & H2 & Hdc & Hpp).
    rewrite (readResponse_frame d0 d1 d2 dc a1 a0 pl dir cmd value chk tail); trivial; [|lia].
    change (direction_char REQUEST_GET) with (ch "r").
    destruct (_ && _ && _ && _); [|reflexivity].
    rewrite length_app. cbn [length].
    destruct (Z.ltb_spec 11 (Z.of_nat (length value + 1))); [lia|].
    destruct (11 - (length value + 1))%nat; rewrite <- app_assoc; cbn [app repeat];
      rewrite atol_digits by exact Hv; reflexivity.
Qed.

Lemma complete_answer_gives_value_or_zero_witness :
  let frame := bytes ":01rz6015X" ++ [newline] in
  option_map fst (executeGetCommand (ch "z") (listening 1 frame)) = Some 6015 /\
  option_map fst (executeGetCommand (ch "z") (listening 7 frame)) = Some 0 /\
  option_map fst (executeGetCommand (ch "v") (listening 1 frame)) = Some 0 /\
  option_map fst (executeGetCommand (ch "z") (listening 1 (bytes "01rz6015X"))) = Some 0.
Proof.
  cbv zeta.
  assert (F : forall id command, 0 <= id <= 99 ->
            option_map fst (executeGetCommand command
                              (listening id (bytes ":01rz6015X" ++ [newline]))) =
            Some (if (1 =? id) && (ch "z" =? command) then 6015 else 0)).
  { intros id command Hid.
    destruct (complete_answer_gives_value_or_zero command
                (listening id (bytes ":01rz6015X" ++ [newline]))) as (_ & H).
    - unfold listening, constructor. cbn [device_id_]. rewrite uint8_small; lia.
    - rewrite (H (ch "0") (ch "1") (ch "r") (ch "z") (bytes "6015") (ch "X") [newline]);
        try reflexivity; [|simpl; lia].
      unfold listening, constructor. cbn [device_id_]. rewrite uint8_small by lia.
      change (atoi [ch "0"; ch "1"; 0]) with 1.
      destruct (1 =? id); [|reflexivity].
      destruct (ch "z" =? command); reflexivity. }
  split; [apply (F 1 (ch "z")); lia|].
  split; [apply (F 7 (ch "z")); lia|].
  split; [apply (F 1 (ch "v")); lia|].
  destruct (complete_answer_gives_value_or_zero (ch "z") (listening 1 (bytes "01rz6015X")))
    as (H & _); [vm_compute; split; discriminate|].
  apply H. reflexivity.
Defined.

(** * Further properties of the code *)

(** ** The checksum accumulator beyond seven-bit characters *)

(** X1: [addOutputCharacter] in closed form, for every character and
    every counter: the sum is first cut to a byte, then reduced modulo 26.
    The result is the sum modulo 26 only as long as the byte does not wrap
    around. *)
Theorem addOutputCharacter_closed_form c counter_ :
  MingHeBuckConverterChecksum.addOutputCharacter c counter_ = ((counter_ + c) mod 256) mod 26.
Proof.
  unfold MingHeBuckConverterChecksum.addOutputCharacter. cbv zeta.
  rewrite subtract_loop_mod; [reflexivity|apply uint8_range|lia].
Qed.

(** X2: with the counter in [0, 26) and a character in [0, 256), the new
    counter is the sum modulo 26 exactly when the sum stays below 256;
    from 256 on the two differ (256 mod 26 = 22 is lost). *)
Theorem addOutputCharacter_wraps c counter_ :
  0 <= counter_ < 26 -> 0 <= c < 256 ->
  (MingHeBuckConverterChecksum.addOutputCharacter c counter_ = (counter_ + c) mod 26
   <-> counter_ + c < 256).
Proof.
  intros Hk Hc.
  assert (Ec : MingHeBuckConverterChecksum.addOutputCharacter c counter_
               = ((counter_ + c) mod 256) mod 26).
  { unfold MingHeBuckConverterChecksum.addOutputCharacter. cbv zeta.
    rewrite subtract_loop_mod; [reflexivity|apply uint8_range|lia]. }
  rewrite Ec. clear Ec. split.
  - intros E. destruct (Z.lt_ge_cases (counter_ + c) 256) as [|Hge]; [assumption|exfalso].
    assert (Hm : (counter_ + c) mod 256 = counter_ + c - 256).
    { replace (counter_ + c) with (counter_ + c - 256 + 1 * 256) at 1 by lia.
      rewrite Z.mod_add by lia. apply Z.mod_small. lia. }
    rewrite Hm in E.
    assert (D : (counter_ + c - (counter_ + c - 256)) mod 26 = 0).
    { rewrite Zminus_mod, <- E, Z.sub_diag. reflexivity. }
    replace (counter_ + c - (counter_ + c - 256)) with 256 in D by lia.
    discriminate D.
  - intros H. rewrite (Z.mod_small (counter_ + c) 256) by lia. reflexivity.
Qed.

Lemma addOutputCharacter_wraps_witness :
  0 <= 25 < 26 /\ 0 <= 255 < 256 /\
  MingHeBuckConverterChecksum.addOutputCharacter 255 25 = 24 /\
  (25 + 255) mod 26 = 20 /\
  (MingHeBuckConverterChecksum.addOutputCharacter 200 25 = (25 + 200) mod 26).
Proof.
  split; [lia|]. split; [lia|]. split; [reflexivity|]. split; [reflexivity|].
  apply (addOutputCharacter_wraps 200 25); lia.
Defined.

(** X3: for a string of seven-bit characters, [addOutputString] leaves
    the counter plus the sum of the characters before the first NUL,
    modulo 26: the rule stated at the head of MingHeChecksum.h, whose
    example ":01rz6015" gives 'X'. *)
Theorem addOutputString_sum_mod_26 s counter_ :
  0 <= counter_ < 26 -> forallb is_ascii s = true ->
  MingHeBuckConverterChecksum.addOutputString s counter_
  = (counter_ + ascii_sum (cstring s)) mod 26.
Proof.
  intros Hk Hs.
  assert (E : forall k, MingHeBuckConverterChecksum.addOutputString s k
                        = checksum_of (cstring s) k).
  { clear. induction s as [|c r IH]; intros k; simpl; [reflexivity|].
    destruct (c =? 0); [reflexivity|]. rewrite IH. reflexivity. }
  rewrite E. apply checksum_of_ascii; [exact Hk|apply cstring_forallb, Hs].
Qed.

Lemma addOutputString_sum_mod_26_witness :
  0 <= 0 < 26 /\ forallb is_ascii (bytes ":01rz6015") = true /\
  ascii_sum (bytes ":01rz6015") = 595 /\
  MingHeBuckConverterChecksum.getChecksumCharacter
    (MingHeBuckConverterChecksum.addOutputString (bytes ":01rz6015") 0) = ch "X".
Proof.
  split; [lia|]. split; [reflexivity|]. split; [reflexivity|].
  rewrite (addOutputString_sum_mod_26 (bytes ":01rz6015") 0); [reflexivity|lia|reflexivity].
Defined.

(** ** Acknowledgements and foreign addresses *)

Lemma line_of_payload line x0 x1 x2 p letter rest :
  line_bytes line = x0 :: x1 :: x2 :: p ++ letter :: rest ->
  prompt line = true ->
  exists d0 d1 d2 dc pl tail,
    line = (d0, x0) :: (d1, x1) :: (d2, x2) :: pl ++ (dc, letter) :: tail /\
    line_bytes pl = p /\
    d0 <= MINGHE_PER_CHARACTER_TIMEOUT_MS /\ d1 <= MINGHE_PER_CHARACTER_TIMEOUT_MS /\
    d2 <= MINGHE_PER_CHARACTER_TIMEOUT_MS /\ dc <= MINGHE_PER_CHARACTER_TIMEOUT_MS /\
    prompt pl = true.
Proof.
  intros Hline Hp.
  apply line_bytes_cons in Hline as (d0 & l0 & -> & Hline).
  apply line_bytes_cons in Hline as (d1 & l1 & -> & Hline).
  apply line_bytes_cons in Hline as (d2 & l2 & -> & Hline).
  apply line_bytes_app in Hline as (pl & l5 & -> & Hpl & Hline).
  apply line_bytes_cons in Hline as (dc & tail & -> & Hline).
  exists d0, d1, d2, dc, pl, tail.
  unfold prompt in *. cbn [forallb fst] in Hp.
  repeat (apply andb_prop in Hp as [? Hp]).
  rewrite forallb_app in Hp. apply andb_prop in Hp as [Hvp Hp].
  cbn [forallb fst] in Hp. apply andb_prop in Hp as [Hdc _].
  repeat split; try (apply Z.leb_le; assumption); assumption.
Qed.

Lemma cstring_zeros p n : cstring (p ++ repeat 0 (S n)) = cstring p.
Proof.
  induction p as [|c p IH]; cbn [app cstring]; [reflexivity|].
  destruct (c =? 0); [reflexivity|]. now rewrite IH.
Qed.

(** [readResponseIntoBuffer] with the 16-byte buffer of its two callers,
    on a frame whose bytes arrive in time. *)
Lemma read_frame_16 s a1 a0 p chk rest :
  line_bytes (rx_line (swserial_ s)) = ch ":" :: a1 :: a0 :: p ++ chk :: rest ->
  prompt (rx_line (swserial_ s)) = true ->
  is_char a1 = true -> is_char a0 = true ->
  forallb (fun b => is_char b && negb (isupper b)) p = true ->
  (length p <= 14)%nat ->
  is_char chk = true -> isupper chk = true ->
  fst (readResponseIntoBuffer response_buffer_init (16 - 1) s) =
  if atoi [a1; a0; 0] =? device_id_ s
  then (chk =? MingHeBuckConverterChecksum.getChecksumCharacter
                 (checksum_of (ch ":" :: a1 :: a0 :: p) 0),
        p ++ repeat 0 (16 - length p))
  else (false, response_buffer_init).
Proof.
  intros Hline Hp Ha1 Ha0 Hbytes Hlen Hchk Hup.
  destruct s as [[k line log] c id]. cbn [swserial_ rx_line device_id_] in *.
  destruct (line_of_payload _ _ _ _ _ _ _ Hline Hp)
    as (d0 & d1 & d2 & dc & pl & tail & -> & Hpl & H0 & H1 & H2 & Hdc & Hpp).
  assert (Hl : length pl = length p).
  { unfold line_bytes in Hpl. rewrite <- Hpl, length_map. reflexivity. }
  rewrite readResponseIntoBuffer_frame; trivial.
  - rewrite Hpl. destruct (_ =? id); [|reflexivity].
    f_equal. unfold response_buffer_init.
    apply (store_from_zeros [] p 16). lia.
  - rewrite Hpl. exact Hbytes.
  - change (Z.to_nat (uint8 (16 - 1))) with 15%nat. lia.
Qed.

Lemma checkForOk_frame s a1 a0 p chk rest :
  line_bytes (rx_line (swserial_ s)) = ch ":" :: a1 :: a0 :: p ++ chk :: rest ->
  prompt (rx_line (swserial_ s)) = true ->
  is_char a1 = true -> is_char a0 = true ->
  forallb (fun b => is_char b && negb (isupper b)) p = true ->
  (length p <= 14)%nat ->
  is_char chk = true -> isupper chk = true ->
  fst (checkForOk s) =
  (atoi [a1; a0; 0] =? device_id_ s)
  && (chk =? MingHeBuckConverterChecksum.getChecksumCharacter
               (checksum_of (ch ":" :: a1 :: a0 :: p) 0))
  && list_eqb (cstring p) response_ok.
Proof.
  intros Hline Hp Ha1 Ha0 Hbytes Hlen Hchk Hup.
  pose proof (read_frame_16 s a1 a0 p chk rest Hline Hp Ha1 Ha0 Hbytes Hlen Hchk Hup) as E.
  unfold checkForOk.
  destruct (readResponseIntoBuffer response_buffer_init (16 - 1) s) as [[ok buf] s'].
  cbn [fst] in E.
  destruct (atoi [a1; a0; 0] =? device_id_ s);
    [|assert (Eo : ok = false) by congruence; subst; reflexivity].
  apply pair_equal_spec in E as [-> ->].
  destruct (chk =? _); cbn [andb fst]; [|reflexivity].
  destruct (16 - length p)%nat as [|n] eqn:En; [lia|].
  rewrite cstring_zeros.
  destruct (list_eqb (cstring p) response_ok); reflexivity.
Qed.

Lemma sendRequest_keeps_line set command value s s1 :
  0 <= device_id_ s <= 99 ->
  sendRequest set command value s = Some s1 ->
  rx_line (swserial_ s1) = rx_line (swserial_ s) /\ device_id_ s1 = device_id_ s /\
  clock (swserial_ s1) = clock (swserial_ s).
Proof.
  destruct s as [[k line log] c id]. cbn [swserial_ rx_line device_id_ clock].
  intros Hid H. rewrite sendRequest_spec in H by exact Hid. cbv zeta in H.
  apply some_eq in H. subst s1. auto.
Qed.

Lemma sendRequest_defined set command value s :
  0 <= device_id_ s <= 99 ->
  exists s1, sendRequest set command value s = Some s1.
Proof.
  destruct s as [[k line log] c id]. cbn [device_id_].
  intros Hid. rewrite sendRequest_spec by exact Hid. cbv zeta. eauto.
Qed.

(** X4: [executeSetCommand] is acknowledged exactly when the frame that
    answers carries the converter's address, the right checksum character
    and a payload that reads "ok" as a C string (NUL bytes may follow the
    two letters): an "err" payload, a payload that goes on after "ok", a
    frame for another address or a wrong checksum character all give
    [false]. *)
Theorem executeSetCommand_acknowledged command value s a1 a0 p chk rest :
  0 <= device_id_ s <= 99 ->
  line_bytes (rx_line (swserial_ s)) = ch ":" :: a1 :: a0 :: p ++ chk :: rest ->
  prompt (rx_line (swserial_ s)) = true ->
  is_char a1 = true -> is_char a0 = true ->
  forallb (fun b => is_char b && negb (isupper b)) p = true ->
  (length p <= 14)%nat ->
  is_char chk = true -> isupper chk = true ->
  option_map fst (executeSetCommand command value s) =
  Some ((atoi [a1; a0; 0] =? device_id_ s)
        && (chk =? MingHeBuckConverterChecksum.getChecksumCharacter
                     (checksum_of (ch ":" :: a1 :: a0 :: p) 0))
        && list_eqb (cstring p) response_ok).
Proof.
  intros Hid Hline Hp Ha1 Ha0 Hbytes Hlen Hchk Hup.
  unfold executeSetCommand.
  destruct (sendRequest_defined REQUEST_SET command
              (Some (ltoa (int32 (uint32 value)))) s Hid) as [s1 E1].
  rewrite E1.
  destruct (sendRequest_keeps_line _ _ _ _ _ Hid E1) as (Er & Ed & _).
  rewrite <- Er in Hline, Hp.
  pose proof (checkForOk_frame s1 a1 a0 p chk rest Hline Hp Ha1 Ha0 Hbytes Hlen Hchk Hup) as E.
  destruct (checkForOk s1) as [ok s2]. cbn [fst] in E. subst ok. rewrite Ed.
  destruct (_ && _ && _); reflexivity.
Qed.

Lemma executeSetCommand_acknowledged_witness :
  let ok := listening 1 (bytes ":01okJ" ++ [newline]) in
  let err := listening 1 (bytes ":01errQ" ++ [newline]) in
  0 <= device_id_ ok <= 99 /\
  prompt (rx_line (swserial_ ok)) = true /\
  option_map fst (executeSetCommand MINGHE_COMMAND_MAX_VOLTAGE 1200 ok) = Some true /\
  option_map fst (executeSetCommand MINGHE_COMMAND_MAX_VOLTAGE 1200 err) = Some false.
Proof.
  cbv zeta. split; [vm_compute; split; discriminate|]. split; [reflexivity|]. split.
  - rewrite (executeSetCommand_acknowledged _ _ _ (ch "0") (ch "1") (bytes "ok") (ch "J")
               [newline]); try reflexivity; [vm_compute; split; discriminate|simpl; lia].
  - rewrite (executeSetCommand_acknowledged _ _ _ (ch "0") (ch "1") (bytes "err") (ch "Q")
               [newline]); try reflexivity; [vm_compute; split; discriminate|simpl; lia].
Defined.

(** A frame whose address characters do not denote the converter's
    address is refused right after the address. *)
Lemma read_header_mismatch d0 d1 d2 a1 a0 tail buffer buffer_length k log c id :
  d0 <= MINGHE_PER_CHARACTER_TIMEOUT_MS -> d1 <= MINGHE_PER_CHARACTER_TIMEOUT_MS ->
  d2 <= MINGHE_PER_CHARACTER_TIMEOUT_MS ->
  is_char a1 = true -> is_char a0 = true ->
  atoi [a1; a0; 0] <> id ->
  exists k',
    readResponseIntoBuffer buffer buffer_length
      (mkConverter (mkSerial k ((d0, ch ":") :: (d1, a1) :: (d2, a0) :: tail) log) c id) =
    ((false, buffer),
     mkConverter (mkSerial k' tail log) (checksum_of [ch ":"; a1; a0] 0) id).
Proof.
  intros H0 H1 H2 Ha1 Ha0 Hne.
  exists (k + Z.max d0 0 + Z.max d1 0 + Z.max d2 0).
  unfold readResponseIntoBuffer, checksum_reset, with_checksum.
  cbn [swserial_ checksum_ device_id_].
  rewrite sync_loop_step, readChar_prompt by exact H0.
  change (uint8 (ch ":")) with (ch ":").
  change (MINGHE_MAX_JUNK_CHARACTERS <=? uint8 (0 + 1)) with false.
  change (ch ":" =? ch ":") with true. cbv iota.
  unfold checksum_addOutputCharacter, with_checksum. cbn [swserial_ checksum_ device_id_].
  rewrite readChar_prompt by exact H1. cbn [swserial_ checksum_ device_id_].
  rewrite readChar_prompt by exact H2. cbn [swserial_ checksum_ device_id_].
  rewrite (is_char_uint8 a1), (is_char_uint8 a0) by assumption.
  destruct (Z.eqb_spec (atoi [a1; a0; 0]) id); [contradiction|].
  reflexivity.
Qed.

(** X5: a request encoded for one address in [0, 99] and received by a
    converter with another address in [0, 99] is refused, whatever its
    direction, command and value, and only its first three bytes are taken
    from the line. *)
Theorem foreign_address_is_refused
    device_id other set command value frame line buffer buffer_length s :
  0 <= device_id <= 99 -> 0 <= other <= 99 -> other <> device_id ->
  request_bytes other set command value = Some frame ->
  line_bytes line = frame -> prompt line = true ->
  rx_line (swserial_ s) = line -> device_id_ s = device_id ->
  fst (readResponseIntoBuffer buffer buffer_length s) = (false, buffer) /\
  line_bytes (rx_line (swserial_ (snd (readResponseIntoBuffer buffer buffer_length s))))
  = skipn 3 frame.
Proof.
  intros Hd Ho Hne Hreq Hline Hp Hrx Hid.
  destruct (request_line _ _ _ _ _ _ Ho Hreq Hline Hp)
    as (d0 & d1 & d2 & dc & pl & tail & El & Hpl & H0 & H1 & H2 & Hdc & Hpp).
  destruct (address_chars_parse other Ho) as (Eatoi & Ha1 & Ha0).
  destruct s as [[k rx log] c id]. cbn [swserial_ rx_line device_id_] in Hrx, Hid.
  subst rx id.
  assert (Hskip : skipn 3 frame = line_bytes (pl ++ (dc, MingHeBuckConverterChecksum.getChecksumCharacter (checksum_of (request_body other set command value) 0)) :: tail)).
  { rewrite <- Hline, El. reflexivity. }
  rewrite El.
  destruct (read_header_mismatch d0 d1 d2 _ _
              (pl ++ (dc, MingHeBuckConverterChecksum.getChecksumCharacter
                            (checksum_of (request_body other set command value) 0)) :: tail)
              buffer buffer_length k log c device_id H0 H1 H2 Ha1 Ha0) as [k' E];
    [rewrite Eatoi; exact Hne|].
  rewrite E. cbn [fst snd swserial_ rx_line]. split; [reflexivity|].
  symmetry. exact Hskip.
Qed.

Lemma foreign_address_is_refused_witness :
  let frame := bytes ":07rz6015D" ++ [newline] in
  0 <= 5 <= 99 /\ 0 <= 7 <= 99 /\ 7 <> 5 /\
  request_bytes 7 REQUEST_GET (ch "z") (Some (bytes "6015")) = Some frame /\
  fst (readResponseIntoBuffer response_buffer_init 15 (listening 5 frame))
  = (false, response_buffer_init).
Proof.
  cbv zeta. split; [lia|]. split; [lia|]. split; [lia|]. split; [reflexivity|].
  apply (foreign_address_is_refused 5 7 REQUEST_GET (ch "z") (Some (bytes "6015"))
           (bytes ":07rz6015D" ++ [newline])
           (buffered (bytes ":07rz6015D" ++ [newline])));
    solve [lia | reflexivity].
Defined.

(** ** What the checksum detects *)

Lemma payload_char_forallb p :
  forallb payload_char p = true ->
  forallb (fun b => is_char b && negb (isupper b)) p = true /\
  forallb is_ascii p = true.
Proof.
  induction p as [|b p IH]; simpl; [auto|].
  intros H. apply andb_prop in H as [Hb Hp]. destruct (IH Hp) as [I1 I2].
  unfold payload_char in Hb. apply andb_prop in Hb as [Ha Hu].
  rewrite Ha, Hu, I1, I2.
  unfold is_ascii in Ha. unfold is_char.
  apply andb_prop in Ha as [A1 A2]. rewrite A1. apply Z.ltb_lt in A2.
  destruct (Z.ltb_spec b 256); [auto|lia].
Qed.

Lemma ascii_sum_app l1 l2 : ascii_sum (l1 ++ l2) = ascii_sum l1 + ascii_sum l2.
Proof.
  unfold ascii_sum. induction l1 as [|x l1 IH]; simpl; [reflexivity|].
  rewrite IH. lia.
Qed.

Lemma is_ascii_char c : is_ascii c = true -> is_char c = true.
Proof.
  unfold is_ascii, is_char. intros H. apply andb_prop in H as [A1 A2].
  rewrite A1. apply Z.ltb_lt in A2. destruct (Z.ltb_spec c 256); [reflexivity|lia].
Qed.

(** A frame made of the header and checksum character of a good frame
    around another payload: the outcome of the read in terms of the two
    sums of characters. *)
Lemma read_altered_payload s a1 a0 sent received :
  atoi [a1; a0; 0] = device_id_ s ->
  is_ascii a1 = true -> is_ascii a0 = true ->
  forallb is_ascii sent = true ->
  forallb payload_char received = true -> (length received <= 14)%nat ->
  forall rest,
  line_bytes (rx_line (swserial_ s)) =
    ch ":" :: a1 :: a0 :: received ++
      MingHeBuckConverterChecksum.getChecksumCharacter
        (checksum_of (ch ":" :: a1 :: a0 :: sent) 0) :: rest ->
  prompt (rx_line (swserial_ s)) = true ->
  fst (readResponseIntoBuffer response_buffer_init (16 - 1) s) =
  ((ascii_sum sent - ascii_sum received) mod 26 =? 0,
   received ++ repeat 0 (16 - length received)).
Proof.
  intros Hid Ha1 Ha0 Hsent Hrec Hlen rest Hline Hp.
  destruct (payload_char_forallb received Hrec) as [Hrc Hra].
  assert (Hs : forall p, forallb is_ascii p = true ->
             checksum_of (ch ":" :: a1 :: a0 :: p) 0
             = (ascii_sum [ch ":"; a1; a0] + ascii_sum p) mod 26).
  { intros p Hpa. rewrite checksum_of_ascii; [|lia|].
    - rewrite Z.add_0_l.
      change (ch ":" :: a1 :: a0 :: p) with ([ch ":"; a1; a0] ++ p).
      rewrite ascii_sum_app. reflexivity.
    - cbn [forallb]. rewrite Ha1, Ha0, Hpa. reflexivity. }
  destruct (checksum_letter_char (checksum_of (ch ":" :: a1 :: a0 :: sent) 0)) as [Hlc Hlu];
    [apply checksum_of_range; lia|].
  rewrite (read_frame_16 s a1 a0 received _ rest Hline Hp); trivial;
    try (apply is_ascii_char; assumption).
  rewrite Hid, Z.eqb_refl. cbv iota. f_equal.
  rewrite (Hs sent Hsent), (Hs received Hra).
  set (h := ascii_sum [ch ":"; a1; a0]).
  destruct (getChecksumCharacter_letter ((h + ascii_sum sent) mod 26)) as [E1 _];
    [apply Z.mod_pos_bound; lia|].
  destruct (getChecksumCharacter_letter ((h + ascii_sum received) mod 26)) as [E2 _];
    [apply Z.mod_pos_bound; lia|].
  rewrite E1, E2.
  destruct (Z.eqb_spec ((ascii_sum sent - ascii_sum received) mod 26) 0) as [E|E].
  - replace (ascii_sum sent - ascii_sum received)
      with ((h + ascii_sum sent) - (h + ascii_sum received)) in E by lia.
    apply Z.cong_iff_0 in E. rewrite E, Z.eqb_refl. reflexivity.
  - destruct (Z.eqb_spec (ch "A" + (h + ascii_sum sent) mod 26)
                (ch "A" + (h + ascii_sum received) mod 26)) as [E'|E']; [|reflexivity].
    exfalso. apply E.
    replace (ascii_sum sent - ascii_sum received)
      with ((h + ascii_sum sent) - (h + ascii_sum received)) by lia.
    apply Z.cong_iff_0. lia.
Qed.

(** X6: when the payload of a good frame is replaced by another payload
    on the way (seven-bit characters, no upper-case letter, at most 14 of
    them), the reader accepts the frame exactly when the sums of the
    characters of the two payloads are congruent modulo 26. *)
Theorem altered_payload_accepted_iff_same_residue s a1 a0 sent received rest :
  atoi [a1; a0; 0] = device_id_ s ->
  is_ascii a1 = true -> is_ascii a0 = true ->
  forallb is_ascii sent = true ->
  forallb payload_char received = true -> (length received <= 14)%nat ->
  line_bytes (rx_line (swserial_ s)) =
    ch ":" :: a1 :: a0 :: received ++
      MingHeBuckConverterChecksum.getChecksumCharacter
        (checksum_of (ch ":" :: a1 :: a0 :: sent) 0) :: rest ->
  prompt (rx_line (swserial_ s)) = true ->
  (fst (fst (readResponseIntoBuffer response_buffer_init (16 - 1) s)) = true
   <-> (ascii_sum sent - ascii_sum received) mod 26 = 0).
Proof.
  intros Hid Ha1 Ha0 Hsent Hrec Hlen Hline Hp.
  rewrite (read_altered_payload s a1 a0 sent received Hid Ha1 Ha0 Hsent Hrec Hlen rest Hline Hp).
  cbn [fst]. apply Z.eqb_eq.
Qed.

Lemma altered_payload_accepted_iff_same_residue_witness :
  let s := listening 1 (bytes ":01r`6015X" ++ [newline]) in
  MingHeBuckConverterChecksum.getChecksumCharacter (checksum_of (bytes ":01rz6015") 0) = ch "X" /\
  forallb payload_char (bytes "r`6015") = true /\
  (ascii_sum (bytes "rz6015") - ascii_sum (bytes "r`6015")) mod 26 = 0 /\
  fst (fst (readResponseIntoBuffer response_buffer_init (16 - 1) s)) = true.
Proof.
  cbv zeta. split; [reflexivity|]. split; [reflexivity|]. split; [reflexivity|].
  apply (altered_payload_accepted_iff_same_residue
           (listening 1 (bytes ":01r`6015X" ++ [newline]))
           (ch "0") (ch "1") (bytes "rz6015") (bytes "r`6015") [newline]);
    solve [reflexivity | simpl; lia].
Defined.



(** ** Bytes in front of a frame *)

Lemma readResponseIntoBuffer_after_marker buffer buffer_length s :
  readResponseIntoBuffer buffer buffer_length s =
  match sync_loop 0 (checksum_reset s) with
  | (None, s) => ((false, buffer), s)
  | (Some c, s) => read_after_marker buffer buffer_length c s
  end.
Proof. reflexivity. Qed.

Lemma read_after_marker_alike buffer buffer_length c s1 s2 :
  alike s1 s2 ->
  fst (read_after_marker buffer buffer_length c s1) =
  fst (read_after_marker buffer buffer_length c s2).
Proof.
  intros Ha. unfold read_after_marker.
  apply (checksum_addOutputCharacter_alike c) in Ha.
  destruct (readChar_alike _ _ Ha) as [E0 Ha0].
  destruct (readCharUntilTimeout _ (checksum_addOutputCharacter c s1)) as [a1 u1].
  destruct (readCharUntilTimeout _ (checksum_addOutputCharacter c s2)) as [a2 u2].
  cbn [fst snd] in E0, Ha0. subst a2.
  apply (checksum_addOutputCharacter_alike a1) in Ha0.
  destruct (readChar_alike _ _ Ha0) as [E1 Ha1].
  destruct (readCharUntilTimeout _ (checksum_addOutputCharacter a1 u1)) as [b1 v1].
  destruct (readCharUntilTimeout _ (checksum_addOutputCharacter a1 u2)) as [b2 v2].
  cbn [fst snd] in E1, Ha1. subst b2.
  apply (checksum_addOutputCharacter_alike b1) in Ha1.
  destruct (alike_fields _ _ Ha1) as [_ Eid]. rewrite Eid.
  destruct (negb _); [reflexivity|].
  pose proof (payload_loop_alike (Z.to_nat (uint8 buffer_length)) 0 buffer _ _ Ha1) as Ep.
  destruct (payload_loop _ _ _ (checksum_addOutputCharacter b1 v1)) as [[ok1 r1] w1];
    destruct (payload_loop _ _ _ (checksum_addOutputCharacter b1 v2)) as [[ok2 r2] w2].
  cbn [fst] in Ep. apply pair_equal_spec in Ep as [<- <-].
  destruct ok1; reflexivity.
Qed.

(** The search for ':' over bytes that arrive in time and are not ':'. *)
Lemma sync_loop_junk junk : forall chars_read k rest log c id,
  prompt junk = true -> no_colon junk = true ->
  0 <= chars_read ->
  chars_read + Z.of_nat (length junk) <= MINGHE_MAX_JUNK_CHARACTERS - 1 ->
  exists k',
    sync_loop chars_read (mkConverter (mkSerial k (junk ++ rest) log) c id) =
    sync_loop (chars_read + Z.of_nat (length junk))
      (mkConverter (mkSerial k' rest log) c id).
Proof.
  unfold MINGHE_MAX_JUNK_CHARACTERS.
  induction junk as [|[d b] junk IH]; intros cr k rest log c id Hp Hn Hcr Hlen.
  - exists k. cbn [app length]. rewrite Z.add_0_r. reflexivity.
  - cbn [length] in Hlen. simpl in Hp, Hn.
    apply andb_prop in Hp as [Hd Hp]. apply andb_prop in Hn as [Hb Hn].
    apply Z.leb_le in Hd. apply negb_true_iff in Hb.
    destruct (IH (cr + 1) (k + Z.max d 0) rest log c id Hp Hn) as [k' E]; [lia|lia|].
    exists k'. cbn [app]. rewrite sync_loop_step, readChar_prompt by exact Hd.
    unfold MINGHE_MAX_JUNK_CHARACTERS. rewrite (uint8_small (cr + 1)) by lia.
    destruct (Z.leb_spec 32 (cr + 1)); [lia|]. rewrite Hb. rewrite E.
    f_equal. cbn [length]. lia.
Qed.

(** X8: up to 30 bytes other than ':' in front of the start marker, each
    arriving within the per-character timeout, are skipped: the read gives
    the same boolean and the same buffer as without them. *)
Theorem junk_before_marker_is_skipped buffer buffer_length junk d tail s :
  prompt junk = true -> no_colon junk = true -> (length junk <= 30)%nat ->
  d <= MINGHE_PER_CHARACTER_TIMEOUT_MS ->
  fst (readResponseIntoBuffer buffer buffer_length
         (with_line (junk ++ (d, ch ":") :: tail) s)) =
  fst (readResponseIntoBuffer buffer buffer_length (with_line ((d, ch ":") :: tail) s)).
Proof.
  intros Hp Hn Hlen Hd. rewrite !readResponseIntoBuffer_after_marker.
  destruct s as [[k line log] c id]. unfold with_line, with_serial, checksum_reset, with_checksum.
  cbn [swserial_ clock tx_log checksum_ device_id_].
  destruct (sync_loop_junk junk 0 k ((d, ch ":") :: tail) log
              (MingHeBuckConverterChecksum.reset c) id Hp Hn) as [k' E];
    [lia|unfold MINGHE_MAX_JUNK_CHARACTERS; lia|].
  rewrite E. cbn [Z.add].
  rewrite !sync_loop_step, !readChar_prompt by exact Hd.
  change (uint8 (ch ":")) with (ch ":").
  unfold MINGHE_MAX_JUNK_CHARACTERS.
  rewrite (uint8_small (Z.of_nat (length junk) + 1)) by lia.
  destruct (Z.leb_spec 32 (Z.of_nat (length junk) + 1)); [lia|].
  change (32 <=? uint8 (0 + 1)) with false.
  change (ch ":" =? ch ":") with true. cbv iota.
  apply read_after_marker_alike. constructor.
Qed.

Lemma junk_before_marker_is_skipped_witness :
  let junk := buffered (newline :: bytes "noise of the last frame") in
  let frame := buffered (bytes "01rz6015X" ++ [newline]) in
  prompt junk = true /\ no_colon junk = true /\ (length junk <= 30)%nat /\
  fst (readResponseIntoBuffer response_buffer_init 15
         (with_line (junk ++ (0, ch ":") :: frame) (listening 1 []))) =
  (true, bytes "rz6015" ++ repeat 0 10).
Proof.
  cbv zeta. split; [reflexivity|]. split; [reflexivity|].
  split; [apply Nat.leb_le; reflexivity|].
  rewrite junk_before_marker_is_skipped;
    [vm_compute; reflexivity|reflexivity|reflexivity|apply Nat.leb_le; reflexivity
    |vm_compute; discriminate].
Defined.

(** X9: the budget is spent by the 32nd read whatever it returns: after
    31 bytes other than ':' the read fails, with the buffer untouched, even
    when a good frame follows at once. *)
Theorem junk_budget_is_31_bytes buffer buffer_length junk rest s :
  prompt junk = true -> no_colon junk = true -> length junk = 31%nat ->
  fst (readResponseIntoBuffer buffer buffer_length (with_line (junk ++ rest) s))
  = (false, buffer).
Proof.
  intros Hp Hn Hlen. rewrite readResponseIntoBuffer_after_marker.
  destruct s as [[k line log] c id]. unfold with_line, with_serial, checksum_reset, with_checksum.
  cbn [swserial_ clock tx_log checksum_ device_id_].
  destruct (sync_loop_junk junk 0 k rest log
              (MingHeBuckConverterChecksum.reset c) id Hp Hn) as [k' E];
    [lia|unfold MINGHE_MAX_JUNK_CHARACTERS; lia|].
  rewrite E, Hlen. rewrite sync_loop_step.
  destruct (readCharUntilTimeout _ _) as [c1 s1].
  change (MINGHE_MAX_JUNK_CHARACTERS <=? uint8 (0 + Z.of_nat 31 + 1)) with true.
  reflexivity.
Qed.

Lemma junk_budget_is_31_bytes_witness :
  let junk := buffered (bytes "thirty-one bytes of line noise ") in
  let frame := buffered (bytes ":01rz6015X" ++ [newline]) in
  prompt junk = true /\ no_colon junk = true /\ length junk = 31%nat /\
  fst (readResponseIntoBuffer response_buffer_init 15 (with_line frame (listening 1 [])))
  = (true, bytes "rz6015" ++ repeat 0 10) /\
  fst (readResponseIntoBuffer response_buffer_init 15
         (with_line (junk ++ frame) (listening 1 []))) = (false, response_buffer_init).
Proof.
  cbv zeta. split; [reflexivity|]. split; [reflexivity|]. split; [reflexivity|].
  split; [vm_compute; reflexivity|].
  apply junk_budget_is_31_bytes; reflexivity.
Defined.

(** ** What a command writes and what it leaves alone *)

Lemma kept_refl s : kept s s.
Proof. split; reflexivity. Qed.

Lemma kept_trans s1 s2 s3 : kept s1 s2 -> kept s2 s3 -> kept s1 s3.
Proof. intros [A B] [C D]. split; congruence. Qed.

Lemma readChar_kept timeout_ms s : kept s (snd (readCharUntilTimeout timeout_ms s)).
Proof.
  rewrite readCharUntilTimeout_spec. cbn [snd]. unfold poll_result, kept, with_serial.
  destruct s as [[k line log] c id]. cbn [swserial_ rx_line clock tx_log device_id_ checksum_].
  destruct line as [|[d b] line]; [split; reflexivity|].
  destruct (d <=? uint32 timeout_ms); split; reflexivity.
Qed.

Lemma checksum_addOutputCharacter_kept c s : kept s (checksum_addOutputCharacter c s).
Proof. split; reflexivity. Qed.

Lemma sync_loop_kept (n : nat) : forall chars_read s,
  0 <= chars_read -> chars_read + Z.of_nat n = MINGHE_MAX_JUNK_CHARACTERS - 1 ->
  kept s (snd (sync_loop chars_read s)).
Proof.
  unfold MINGHE_MAX_JUNK_CHARACTERS.
  induction n as [|n IH]; intros cr s Hcr Hn; rewrite sync_loop_step;
    pose proof (readChar_kept MINGHE_PER_CHARACTER_TIMEOUT_MS s) as K;
    destruct (readCharUntilTimeout MINGHE_PER_CHARACTER_TIMEOUT_MS s) as [c s1];
    cbn [snd] in K; unfold MINGHE_MAX_JUNK_CHARACTERS;
    rewrite (uint8_small (cr + 1)) by lia.
  - destruct (Z.leb_spec 32 (cr + 1)); [exact K|lia].
  - destruct (Z.leb_spec 32 (cr + 1)); [lia|].
    destruct (c =? ch ":"); [exact K|].
    apply (kept_trans _ _ _ K). apply IH; lia.
Qed.

Lemma payload_loop_kept (n : nat) : forall i buffer s,
  kept s (snd (payload_loop n i buffer s)).
Proof.
  induction n as [|n IH]; intros i buffer s; cbn [payload_loop]; [apply kept_refl|].
  pose proof (readChar_kept MINGHE_PER_CHARACTER_TIMEOUT_MS s) as K.
  destruct (readCharUntilTimeout MINGHE_PER_CHARACTER_TIMEOUT_MS s) as [c s1].
  cbn [snd] in K. destruct (isupper c).
  - destruct (negb _); exact K.
  - apply (kept_trans _ _ _ K).
    apply (kept_trans _ _ _ (checksum_addOutputCharacter_kept c s1)). apply IH.
Qed.

Lemma swallow_loop_tx_log (n : nat) : forall p,
  (length (rx_line p) <= n)%nat -> tx_log (swallow_loop p) = tx_log p.
Proof.
  induction n as [|n IH]; intros p Hn; rewrite swallow_loop_step;
    destruct p as [k line log]; unfold available, peek, read, delay, elapse;
    cbn [rx_line clock tx_log] in *.
  - destruct line; [reflexivity|simpl in Hn; lia].
  - destruct line as [|[d b] line]; [reflexivity|].
    destruct (d <=? 0); [|reflexivity].
    destruct ((b =? carriage_return) || (b =? newline)); [|reflexivity].
    cbn [snd]. rewrite IH; [reflexivity|]. simpl in Hn. cbn [rx_line]. lia.
Qed.

Lemma swallowNewlines_kept timeout_ms s : kept s (swallowNewlines timeout_ms s).
Proof.
  unfold swallowNewlines, kept, with_serial. cbn [swserial_ device_id_].
  split; [reflexivity|]. apply (swallow_loop_tx_log (length (rx_line (swserial_ s)))). lia.
Qed.

Lemma readResponseIntoBuffer_kept buffer buffer_length s :
  kept s (snd (readResponseIntoBuffer buffer buffer_length s)).
Proof.
  rewrite readResponseIntoBuffer_after_marker.
  pose proof (sync_loop_kept 31 0 (checksum_reset s) ltac:(lia) eq_refl) as K0.
  assert (Kr : kept s (checksum_reset s)) by (split; reflexivity).
  destruct (sync_loop 0 (checksum_reset s)) as [[c|] s1]; cbn [snd] in K0 |- *;
    [|exact (kept_trans _ _ _ Kr K0)].
  apply (kept_trans _ _ _ Kr). apply (kept_trans _ _ _ K0).
  unfold read_after_marker.
  apply (kept_trans _ _ _ (checksum_addOutputCharacter_kept c s1)).
  pose proof (readChar_kept MINGHE_PER_CHARACTER_TIMEOUT_MS (checksum_addOutputCharacter c s1)) as K1.
  destruct (readCharUntilTimeout _ (checksum_addOutputCharacter c s1)) as [a1 s2].
  cbn [snd] in K1. apply (kept_trans _ _ _ K1).
  apply (kept_trans _ _ _ (checksum_addOutputCharacter_kept a1 s2)).
  pose proof (readChar_kept MINGHE_PER_CHARACTER_TIMEOUT_MS (checksum_addOutputCharacter a1 s2)) as K2.
  destruct (readCharUntilTimeout _ (checksum_addOutputCharacter a1 s2)) as [a0 s3].
  cbn [snd] in K2. apply (kept_trans _ _ _ K2).
  apply (kept_trans _ _ _ (checksum_addOutputCharacter_kept a0 s3)).
  destruct (negb _); [apply kept_refl|].
  pose proof (payload_loop_kept (Z.to_nat (uint8 buffer_length)) 0 buffer
                (checksum_addOutputCharacter a0 s3)) as K3.
  destruct (payload_loop _ _ _ _) as [[[|] b] s4]; cbn [snd] in K3 |- *; [|exact K3].
  apply (kept_trans _ _ _ K3). apply swallowNewlines_kept.
Qed.

Lemma readResponse_kept set command s : kept s (snd (readResponse set command s)).
Proof.
  unfold readResponse.
  pose proof (readResponseIntoBuffer_kept response_buffer_init (16 - 1) s) as K.
  destruct (readResponseIntoBuffer response_buffer_init (16 - 1) s) as [[[|] buf] s1];
    cbn [snd] in K; [|exact K].
  destruct (negb _); [exact K|]. destruct (negb _); exact K.
Qed.

Lemma checkForOk_kept s : kept s (snd (checkForOk s)).
Proof.
  unfold checkForOk.
  pose proof (readResponseIntoBuffer_kept response_buffer_init (16 - 1) s) as K.
  destruct (readResponseIntoBuffer response_buffer_init (16 - 1) s) as [[[|] buf] s1];
    cbn [snd] in K; [|exact K].
  destruct (list_eqb _ _); exact K.
Qed.

Lemma sendRequest_tx_log set command value s s1 frame :
  0 <= device_id_ s <= 99 ->
  request_bytes (device_id_ s) set command value = Some frame ->
  sendRequest set command value s = Some s1 ->
  device_id_ s1 = device_id_ s /\
  tx_log (swserial_ s1) = tx_log (swserial_ s) ++ frame.
Proof.
  destruct s as [[k line log] c id]. cbn [swserial_ tx_log device_id_].
  intros Hid Hf H. rewrite sendRequest_spec in H by exact Hid.
  rewrite request_bytes_spec in Hf by exact Hid. cbv zeta in H, Hf.
  apply some_eq in H. apply some_eq in Hf. subst s1 frame. split; reflexivity.
Qed.

(** X10: a get command writes exactly one request on the port, the read
    request for its command and the converter's address, and leaves the
    address as it was. *)
Theorem executeGetCommand_writes_one_request command s r s' frame :
  0 <= device_id_ s <= 99 ->
  request_bytes (device_id_ s) REQUEST_GET command None = Some frame ->
  executeGetCommand command s = Some (r, s') ->
  tx_log (swserial_ s') = tx_log (swserial_ s) ++ frame /\
  device_id_ s' = device_id_ s.
Proof.
  intros Hid Hf H. unfold executeGetCommand in H.
  destruct (sendRequest REQUEST_GET command None s) as [s1|] eqn:E1; [|discriminate].
  destruct (sendRequest_tx_log _ _ _ _ _ _ Hid Hf E1) as [Ed Et].
  pose proof (readResponse_kept REQUEST_GET command s1) as [Kd Kt].
  destruct (readResponse REQUEST_GET command s1) as [[[|] value] s2]; cbn [snd] in Kd, Kt.
  - destruct (11 <? Z.of_nat (length value)); [discriminate|].
    injection H as _ <-. split; congruence.
  - injection H as _ <-. split; congruence.
Qed.

Lemma executeGetCommand_writes_one_request_witness :
  let s := listening 1 (bytes ":01rz6015X" ++ [newline]) in
  0 <= device_id_ s <= 99 /\
  request_bytes 1 REQUEST_GET (ch "z") None = Some (bytes ":01rzB" ++ [newline]) /\
  tx_log (swserial_ (state_after (executeGetCommand (ch "z") s) s))
  = bytes ":01rzB" ++ [newline].
Proof.
  cbv zeta. split; [vm_compute; split; discriminate|]. split; [reflexivity|].
  apply (executeGetCommand_writes_one_request (ch "z")
           (listening 1 (bytes ":01rz6015X" ++ [newline])) 6015
           (state_after (executeGetCommand (ch "z")
                           (listening 1 (bytes ":01rz6015X" ++ [newline])))
                        (listening 1 (bytes ":01rz6015X" ++ [newline])))
           (bytes ":01rzB" ++ [newline]));
    [vm_compute; split; discriminate|reflexivity|vm_compute; reflexivity].
Defined.

(** X11: a set command, and so [setAddress], [setBaudRate],
    [storeToMemory] and [loadFromMemory], writes exactly one request, the
    set request whose value field is [ltoa] of the value, and leaves
    [device_id_] as it was: after [setAddress] the converter goes on
    sending its old address until [resetDeviceId] is called. *)
Theorem executeSetCommand_writes_one_request command value s ok s' frame :
  0 <= device_id_ s <= 99 ->
  request_bytes (device_id_ s) REQUEST_SET command (Some (ltoa (int32 (uint32 value))))
    = Some frame ->
  executeSetCommand command value s = Some (ok, s') ->
  tx_log (swserial_ s') = tx_log (swserial_ s) ++ frame /\
  device_id_ s' = device_id_ s /\
  forall set' command' value',
    request_bytes (device_id_ s) set' command' value' =
    option_map (fun t => skipn (length (tx_log (swserial_ s'))) (tx_log (swserial_ t)))
      (sendRequest set' command' value' s').
Proof.
  intros Hid Hf H. unfold executeSetCommand in H.
  destruct (sendRequest REQUEST_SET command _ s) as [s1|] eqn:E1; [|discriminate].
  destruct (sendRequest_tx_log _ _ _ _ _ _ Hid Hf E1) as [Ed Et].
  pose proof (checkForOk_kept s1) as [Kd Kt].
  destruct (checkForOk s1) as [b s2]. cbn [snd] in Kd, Kt.
  assert (Es : s' = s2) by (destruct b; injection H as _ <-; reflexivity).
  subst s2. split; [congruence|]. split; [congruence|].
  intros set' command' value'.
  assert (Hid' : 0 <= device_id_ s' <= 99) by (rewrite Kd, Ed; exact Hid).
  destruct s' as [[k' line' log'] c' id']. cbn [device_id_ swserial_ tx_log] in *.
  rewrite sendRequest_spec by exact Hid'. cbv zeta. cbn [option_map swserial_ tx_log].
  rewrite skipn_app, skipn_all, Nat.sub_diag. cbn [skipn app].
  rewrite request_bytes_spec by exact Hid. cbv zeta.
  replace id' with (device_id_ s) by congruence. reflexivity.
Qed.

Lemma executeSetCommand_writes_one_request_witness :
  let s := listening 1 (bytes ":01okJ" ++ [newline]) in
  let s' := state_after (setAddress 7 s) s in
  option_map fst (setAddress 7 s) = Some true /\
  tx_log (swserial_ s') = bytes ":01sd7J" ++ [newline] /\
  device_id_ s' = 1 /\
  device_id_ (resetDeviceId 7 s') = 7.
Proof.
  cbv zeta. split; [vm_compute; reflexivity|].
  destruct (executeSetCommand_writes_one_request MINGHE_COMMAND_ADDRESS (uint8 7)
              (listening 1 (bytes ":01okJ" ++ [newline])) true
              (state_after (setAddress 7 (listening 1 (bytes ":01okJ" ++ [newline])))
                 (listening 1 (bytes ":01okJ" ++ [newline])))
              (bytes ":01sd7J" ++ [newline])) as (H1 & H2 & _);
    [vm_compute; split; discriminate|vm_compute; reflexivity|vm_compute; reflexivity|].
  split; [exact H1|]. split; [exact H2|reflexivity].
Defined.

(** ** What reading takes from the line *)

Lemma line_bytes_advance line : forall n, line_bytes (advance n line) = line_bytes line.
Proof.
  induction line as [|[d b] line IH]; intros n; cbn [advance]; [reflexivity|].
  destruct (n <=? 0); [reflexivity|]. destruct (d <=? n); [|reflexivity].
  cbn [line_bytes map snd]. f_equal. apply IH.
Qed.

Lemma taken_refl s : taken s s.
Proof. exists 0%nat. reflexivity. Qed.

Lemma taken_trans s1 s2 s3 : taken s1 s2 -> taken s2 s3 -> taken s1 s3.
Proof.
  intros [n Hn] [m Hm]. exists (m + n)%nat. rewrite Hm, Hn. apply skipn_skipn.
Qed.

Lemma readChar_taken timeout_ms s : taken s (snd (readCharUntilTimeout timeout_ms s)).
Proof.
  rewrite readCharUntilTimeout_spec. cbn [snd]. unfold poll_result, taken, with_serial.
  destruct s as [[k line log] c id]. cbn [swserial_ rx_line clock tx_log].
  destruct line as [|[d b] line]; [exists 0%nat; reflexivity|].
  destruct (d <=? uint32 timeout_ms); [exists 1%nat|exists 0%nat]; reflexivity.
Qed.

Lemma checksum_addOutputCharacter_taken c s : taken s (checksum_addOutputCharacter c s).
Proof. exists 0%nat. reflexivity. Qed.

Lemma sync_loop_taken (n : nat) : forall chars_read s,
  0 <= chars_read -> chars_read + Z.of_nat n = MINGHE_MAX_JUNK_CHARACTERS - 1 ->
  taken s (snd (sync_loop chars_read s)).
Proof.
  unfold MINGHE_MAX_JUNK_CHARACTERS.
  induction n as [|n IH]; intros cr s Hcr Hn; rewrite sync_loop_step;
    pose proof (readChar_taken MINGHE_PER_CHARACTER_TIMEOUT_MS s) as K;
    destruct (readCharUntilTimeout MINGHE_PER_CHARACTER_TIMEOUT_MS s) as [c s1];
    cbn [snd] in K; unfold MINGHE_MAX_JUNK_CHARACTERS;
    rewrite (uint8_small (cr + 1)) by lia.
  - destruct (Z.leb_spec 32 (cr + 1)); [exact K|lia].
  - destruct (Z.leb_spec 32 (cr + 1)); [lia|].
    destruct (c =? ch ":"); [exact K|].
    apply (taken_trans _ _ _ K). apply IH; lia.
Qed.

Lemma payload_loop_taken (n : nat) : forall i buffer s,
  taken s (snd (payload_loop n i buffer s)).
Proof.
  induction n as [|n IH]; intros i buffer s; cbn [payload_loop]; [apply taken_refl|].
  pose proof (readChar_taken MINGHE_PER_CHARACTER_TIMEOUT_MS s) as K.
  destruct (readCharUntilTimeout MINGHE_PER_CHARACTER_TIMEOUT_MS s) as [c s1].
  cbn [snd] in K. destruct (isupper c).
  - destruct (negb _); exact K.
  - apply (taken_trans _ _ _ K).
    apply (taken_trans _ _ _ (checksum_addOutputCharacter_taken c s1)). apply IH.
Qed.

Lemma swallow_loop_bytes (n : nat) : forall p,
  (length (rx_line p) <= n)%nat ->
  exists m, line_bytes (rx_line (swallow_loop p)) = skipn m (line_bytes (rx_line p)).
Proof.
  induction n as [|n IH]; intros p Hn; rewrite swallow_loop_step;
    destruct p as [k line log]; unfold available, peek, read, delay, elapse;
    cbn [rx_line clock tx_log] in *.
  - destruct line; [|simpl in Hn; lia]. exists 0%nat. reflexivity.
  - destruct line as [|[d b] line]; [exists 0%nat; reflexivity|].
    destruct (d <=? 0).
    + destruct ((b =? carriage_return) || (b =? newline)); [|exists 0%nat; reflexivity].
      cbn [snd]. destruct (IH (mkSerial k line log)) as [m Hm];
        [simpl in Hn; cbn [rx_line]; lia|].
      exists (S m). rewrite Hm. reflexivity.
    + exists 0%nat. cbn [rx_line]. apply line_bytes_advance.
Qed.

Lemma swallowNewlines_taken timeout_ms s : taken s (swallowNewlines timeout_ms s).
Proof.
  unfold swallowNewlines, taken, with_serial. cbn [swserial_].
  apply (swallow_loop_bytes (length (rx_line (swserial_ s)))). lia.
Qed.

Lemma read_after_marker_taken buffer buffer_length c s :
  taken s (snd (read_after_marker buffer buffer_length c s)).
Proof.
  unfold read_after_marker.
  apply (taken_trans _ _ _ (checksum_addOutputCharacter_taken c s)).
  pose proof (readChar_taken MINGHE_PER_CHARACTER_TIMEOUT_MS (checksum_addOutputCharacter c s)) as K1.
  destruct (readCharUntilTimeout _ (checksum_addOutputCharacter c s)) as [a1 s2].
  cbn [snd] in K1. apply (taken_trans _ _ _ K1).
  apply (taken_trans _ _ _ (checksum_addOutputCharacter_taken a1 s2)).
  pose proof (readChar_taken MINGHE_PER_CHARACTER_TIMEOUT_MS (checksum_addOutputCharacter a1 s2)) as K2.
  destruct (readCharUntilTimeout _ (checksum_addOutputCharacter a1 s2)) as [a0 s3].
  cbn [snd] in K2. apply (taken_trans _ _ _ K2).
  apply (taken_trans _ _ _ (checksum_addOutputCharacter_taken a0 s3)).
  destruct (negb _); [apply taken_refl|].
  pose proof (payload_loop_taken (Z.to_nat (uint8 buffer_length)) 0 buffer
                (checksum_addOutputCharacter a0 s3)) as K3.
  destruct (payload_loop _ _ _ _) as [[[|] b] s4]; cbn [snd] in K3 |- *; [|exact K3].
  apply (taken_trans _ _ _ K3). apply swallowNewlines_taken.
Qed.

(** After a start marker that arrives in time, what is left on the line
    is a part of what followed the marker. *)
Lemma readResponseIntoBuffer_marker_taken buffer buffer_length k d0 tl log c id :
  d0 <= MINGHE_PER_CHARACTER_TIMEOUT_MS ->
  taken (mkConverter (mkSerial k tl log) c id)
        (snd (readResponseIntoBuffer buffer buffer_length
                (mkConverter (mkSerial k ((d0, ch ":") :: tl) log) c id))).
Proof.
  intros H0. rewrite readResponseIntoBuffer_after_marker.
  unfold checksum_reset, with_checksum. cbn [swserial_ checksum_ device_id_].
  rewrite sync_loop_step, readChar_prompt by exact H0.
  change (uint8 (ch ":")) with (ch ":").
  change (MINGHE_MAX_JUNK_CHARACTERS <=? uint8 (0 + 1)) with false.
  change (ch ":" =? ch ":") with true. cbv iota.
  eapply taken_trans; [|apply read_after_marker_taken].
  exists 0%nat. reflexivity.
Qed.

Lemma no_colon_bytes line :
  no_colon line = forallb (fun b => negb (uint8 b =? ch ":")) (line_bytes line).
Proof.
  unfold no_colon, line_bytes. induction line as [|e line IH]; simpl; [reflexivity|].
  now rewrite IH.
Qed.

Lemma forallb_skipn {A} (f : A -> bool) n : forall l,
  forallb f l = true -> forallb f (skipn n l) = true.
Proof.
  induction n as [|n IH]; intros [|x l] H; trivial.
  simpl in H. apply andb_prop in H as [_ H]. simpl. apply IH, H.
Qed.

Lemma taken_no_colon s s' :
  taken s s' -> no_colon (rx_line (swserial_ s)) = true ->
  no_colon (rx_line (swserial_ s')) = true.
Proof.
  intros [n Hn] H. rewrite no_colon_bytes in *. rewrite Hn. apply forallb_skipn, H.
Qed.

Lemma option_map_bind {A B} (g : A -> B) (m : option (A * MingHeBuckConverter)) :
  option_map fst (bind m (fun r s => Some (g r, s))) = option_map g (option_map fst m).
Proof. destruct m as [[a s]|]; reflexivity. Qed.

Lemma executeGetCommand_no_colon command s :
  0 <= device_id_ s <= 99 ->
  no_colon (rx_line (swserial_ s)) = true ->
  option_map fst (executeGetCommand command s) = Some 0.
Proof.
  intros Hid H.
  destruct (sendRequest_defined REQUEST_GET command None s Hid) as [s1 E1].
  rewrite (executeGetCommand_result _ _ _ E1).
  destruct (sendRequest_keeps_line _ _ _ _ _ Hid E1) as (Er & _).
  rewrite readResponse_no_colon by (rewrite Er; exact H). reflexivity.
Qed.

(** X12: on a line that never delivers the start marker (no answer at
    all, or noise) every getter returns the conversion of 0, and
    [testConnection] reports a connection exactly when the model number
    asked for is 0 modulo 65536. *)
Theorem testConnection_without_answer model_number s :
  0 <= device_id_ s <= 99 ->
  no_colon (rx_line (swserial_ s)) = true ->
  option_map fst (testConnection model_number s) = Some (model_number mod 65536 =? 0) /\
  forall A (convert : Z -> A) command,
    option_map fst (get_as convert command s) = Some (convert 0).
Proof.
  intros Hid H.
  assert (G : forall A (convert : Z -> A) command,
             option_map fst (get_as convert command s) = Some (convert 0)).
  { intros A convert command. unfold get_as.
    rewrite option_map_bind, executeGetCommand_no_colon by assumption. reflexivity. }
  split; [|exact G].
  unfold testConnection. pose proof (G _ uint16 MINGHE_COMMAND_MACHINE_MODEL) as E.
  fold getMachineModel in E.
  destruct (getMachineModel s) as [[model s1]|]; [|discriminate].
  cbn [option_map fst] in E. apply some_eq in E. subst model. cbn [bind].
  change (uint16 0) with 0. unfold uint16. change (2 ^ 16) with 65536.
  rewrite (Z.eqb_sym 0). destruct (_ =? 0); reflexivity.
Qed.

Lemma testConnection_without_answer_witness :
  let s := listening 1 (bytes "power on" ++ [newline]) in
  0 <= device_id_ s <= 99 /\ no_colon (rx_line (swserial_ s)) = true /\
  option_map fst (testConnection 65536 s) = Some true /\
  option_map fst (getOutputEnabled s) = Some false.
Proof.
  cbv zeta. split; [vm_compute; split; discriminate|]. split; [reflexivity|].
  destruct (testConnection_without_answer 65536
              (listening 1 (bytes "power on" ++ [newline]))) as [T G];
    [vm_compute; split; discriminate|reflexivity|].
  split; [exact T|]. exact (G bool to_bool MINGHE_COMMAND_OUTPUT_STATE).
Defined.

Lemma readResponseIntoBuffer_taken buffer buffer_length s :
  taken s (snd (readResponseIntoBuffer buffer buffer_length s)).
Proof.
  rewrite readResponseIntoBuffer_after_marker.
  pose proof (sync_loop_taken 31 0 (checksum_reset s) ltac:(lia) eq_refl) as K0.
  assert (Kr : taken s (checksum_reset s)) by (exists 0%nat; reflexivity).
  destruct (sync_loop 0 (checksum_reset s)) as [[c|] s1]; cbn [snd] in K0 |- *;
    [|exact (taken_trans _ _ _ Kr K0)].
  apply (taken_trans _ _ _ Kr). apply (taken_trans _ _ _ K0).
  apply read_after_marker_taken.
Qed.

(** The state after an acknowledged set command whose answer starts with a
    start marker that arrives in time. *)
Lemma executeSetCommand_marker_taken command value k d0 tl log c id ok s' :
  0 <= id <= 99 -> d0 <= MINGHE_PER_CHARACTER_TIMEOUT_MS ->
  executeSetCommand command value
    (mkConverter (mkSerial k ((d0, ch ":") :: tl) log) c id) = Some (ok, s') ->
  device_id_ s' = id /\
  exists n, line_bytes (rx_line (swserial_ s')) = skipn n (line_bytes tl).
Proof.
  intros Hid H0 H. unfold executeSetCommand in H.
  rewrite sendRequest_spec in H by exact Hid. cbv zeta in H.
  unfold checkForOk in H.
  match type of H with
  | context [readResponseIntoBuffer ?b ?l (mkConverter (mkSerial ?k' _ ?log') ?c' _)] =>
      pose proof (readResponseIntoBuffer_marker_taken b l k' d0 tl log' c' id H0) as T;
      pose proof (readResponseIntoBuffer_kept b l
                    (mkConverter (mkSerial k' ((d0, ch ":") :: tl) log') c' id)) as [Kd _];
      destruct (readResponseIntoBuffer b l
                  (mkConverter (mkSerial k' ((d0, ch ":") :: tl) log') c' id))
        as [[okr buf] s2]
  end.
  cbn [snd] in T, Kd. cbn [device_id_] in Kd.
  assert (Es : s' = s2).
  { destruct okr; [destruct (list_eqb _ _)|]; injection H as _ <-; reflexivity. }
  subst s2. split; [exact Kd|]. exact T.
Qed.

(** X13: the setters that compare the value read back for equality
    report success for the value 0 (or [false]) as soon as the command is
    acknowledged, also when the read-back gets no answer: a failed read
    gives 0, which is the value written. *)
Theorem zero_is_verified_without_read_back s a1 a0 chk rest :
  0 <= device_id_ s <= 99 ->
  line_bytes (rx_line (swserial_ s)) = ch ":" :: a1 :: a0 :: bytes "ok" ++ chk :: rest ->
  prompt (rx_line (swserial_ s)) = true ->
  is_char a1 = true -> is_char a0 = true ->
  atoi [a1; a0; 0] = device_id_ s ->
  chk = MingHeBuckConverterChecksum.getChecksumCharacter
          (checksum_of (ch ":" :: a1 :: a0 :: bytes "ok") 0) ->
  forallb (fun b => negb (uint8 b =? ch ":")) (a1 :: a0 :: rest) = true ->
  option_map fst (setMaxVoltage 0 s) = Some true /\
  option_map fst (setMaxCurrent 0 s) = Some true /\
  option_map fst (setOutputEnabled false s) = Some true /\
  option_map fst (setShutdownTemperature 0 s) = Some true /\
  option_map fst (setFanStartTemperature 0 s) = Some true /\
  option_map fst (setBootOutputEnabled false s) = Some true /\
  option_map fst (setBeeperEnabled false s) = Some true /\
  option_map fst (setFastVoltageChangeEnabled false s) = Some true.
Proof.
  intros Hid Hline Hp Ha1 Ha0 Hatoi Hchk Hno.
  assert (Hk : 0 <= checksum_of (ch ":" :: a1 :: a0 :: bytes "ok") 0 < 26)
    by (apply checksum_of_range; lia).
  destruct (checksum_letter_char _ Hk) as [Hc Hu]. rewrite <- Hchk in Hc, Hu.
  assert (S : forall A command value getcmd (convert : Z -> A) (same : A -> bool),
             same (convert 0) = true ->
             option_map fst (set_and_verify command value (get_as convert getcmd) same s)
             = Some true).
  { intros A command value getcmd convert same Hsame. unfold set_and_verify.
    destruct (sendRequest_defined REQUEST_SET command
                (Some (ltoa (int32 (uint32 value)))) s Hid) as [s1 E1].
    destruct (sendRequest_keeps_line _ _ _ _ _ Hid E1) as (Er & Ed & _).
    assert (Eok : fst (checkForOk s1) = true).
    { rewrite (checkForOk_frame s1 a1 a0 (bytes "ok") chk rest);
        try (rewrite Er); trivial; [|simpl; lia].
      rewrite Ed, Hatoi, Z.eqb_refl, <- Hchk, Z.eqb_refl. reflexivity. }
    destruct (executeSetCommand command value s) as [[ok s2]|] eqn:E2.
    2:{ unfold executeSetCommand in E2. rewrite E1 in E2.
        destruct (checkForOk s1) as [[|] ?]; discriminate. }
    assert (Eo : ok = true).
    { unfold executeSetCommand in E2. rewrite E1 in E2.
      destruct (checkForOk s1) as [b s3]. cbn [fst] in Eok. subst b.
      injection E2 as <- _. reflexivity. }
    subst ok. cbn [bind].
    destruct s as [[k line log] c id]. cbn [swserial_ rx_line device_id_] in *.
    destruct line as [|[d0 b0] tl]; [discriminate|].
    cbn [line_bytes map snd] in Hline.
    assert (Eb : b0 = ch ":") by congruence.
    assert (Et : line_bytes tl = a1 :: a0 :: bytes "ok" ++ chk :: rest)
      by (unfold line_bytes; congruence).
    subst b0.
    assert (H0 : d0 <= MINGHE_PER_CHARACTER_TIMEOUT_MS).
    { unfold prompt in Hp. cbn [forallb fst] in Hp. apply andb_prop in Hp as [Hp _].
      apply Z.leb_le, Hp. }
    destruct (executeSetCommand_marker_taken _ _ _ _ _ _ _ _ _ _ Hid H0 E2) as [Ed2 [n Hn]].
    unfold get_as. rewrite !option_map_bind.
    rewrite executeGetCommand_no_colon; [cbn [option_map]; rewrite Hsame; reflexivity| |].
    - rewrite Ed2. exact Hid.
    - rewrite no_colon_bytes, Hn. apply forallb_skipn. rewrite Et.
      cbn [forallb] in Hno |- *. apply andb_prop in Hno as [N1 Hno].
      apply andb_prop in Hno as [N0 Hno]. rewrite N1, N0. cbn [andb].
      cbn [bytes app forallb]. 
      rewrite Hno. 
      assert (Nc : negb (uint8 chk =? ch ":") = true).
      { rewrite (is_char_uint8 chk Hc). unfold isupper in Hu.
        apply andb_prop in Hu as [U _]. apply Z.leb_le in U.
        change (ch "A") with 65 in U. change (ch ":") with 58.
        destruct (Z.eqb_spec chk 58); [lia|reflexivity]. }
      rewrite Nc. reflexivity. }
  unfold setMaxVoltage, setMaxCurrent, setOutputEnabled, setShutdownTemperature,
    setFanStartTemperature, setBootOutputEnabled, setBeeperEnabled,
    setFastVoltageChangeEnabled, getMaxVoltage, getMaxCurrent, getOutputEnabled,
    getShutdownTemperature, getFanStartTemperature, getBootOutputEnabled,
    getBeeperEnabled, getFastVoltageChangeEnabled.
  repeat split; apply S; reflexivity.
Qed.

Lemma zero_is_verified_without_read_back_witness :
  let s := listening 1 (bytes ":01okJ" ++ [newline]) in
  0 <= device_id_ s <= 99 /\ prompt (rx_line (swserial_ s)) = true /\
  option_map fst (setOutputEnabled false s) = Some true.
Proof.
  cbv zeta.
  assert (Hid : 0 <= device_id_ (listening 1 (bytes ":01okJ" ++ [newline])) <= 99)
    by (vm_compute; split; discriminate).
  split; [exact Hid|]. split; [reflexivity|].
  exact (proj1 (proj2 (proj2
    (zero_is_verified_without_read_back
       (listening 1 (bytes ":01okJ" ++ [newline]))
       (ch "0") (ch "1") (ch "J") [newline]
       Hid eq_refl eq_refl eq_refl eq_refl eq_refl eq_refl eq_refl)))).
Defined.

(** ** Numbers on the wire *)

Lemma digits_of_uint_isdigit d : forallb isdigit (digits_of_uint d) = true.
Proof. induction d; simpl; trivial. Qed.

Lemma digits_of_uint_length d : length (digits_of_uint d) = Decimal.nb_digits d.
Proof. induction d; simpl; congruence. Qed.

Lemma decimal_of_uint_acc d : forall acc,
  fold_left (fun a c => a * 10 + (c - ch "0")) (digits_of_uint d) (Z.pos acc)
  = Z.pos (Pos.of_uint_acc d acc).
Proof.
  induction d; intros acc; cbn [digits_of_uint fold_left Pos.of_uint_acc];
    [reflexivity|..]; rewrite <- IHd; f_equal;
    match goal with
    | |- _ + (?a - ?b) = _ => let v := eval vm_compute in (a - b) in change (a - b) with v
    end; rewrite ?Pos2Z.inj_add, Pos2Z.inj_mul; lia.
Qed.

Lemma decimal_of_uint d : decimal (digits_of_uint d) = Z.of_N (N.of_uint d).
Proof.
  unfold decimal, N.of_uint.
  induction d; cbn [digits_of_uint fold_left Pos.of_uint]; [reflexivity|exact IHd|..];
    apply (decimal_of_uint_acc d).
Qed.

Lemma of_uint_acc_lower d : forall acc,
  Z.pos acc * 10 ^ Z.of_nat (Decimal.nb_digits d) <= Z.pos (Pos.of_uint_acc d acc).
Proof.
  induction d; intros acc; cbn [Decimal.nb_digits Pos.of_uint_acc]; [simpl; lia|..];
    rewrite Nat2Z.inj_succ, Z.pow_succ_r by lia;
    (eapply Z.le_trans; [|apply IHd]);
    pose proof (Z.pow_pos_nonneg 10 (Z.of_nat (Decimal.nb_digits d)) ltac:(lia) ltac:(lia));
    rewrite ?Pos2Z.inj_add, Pos2Z.inj_mul; nia.
Qed.

(** The digits of a number below ten thousand million are at most ten. *)
Lemma to_uint_length n :
  Z.of_N n < 10 ^ 10 -> (1 <= Decimal.nb_digits (N.to_uint n) <= 10)%nat.
Proof.
  intros Hn.
  pose proof (DecimalN.Unsigned.of_to n) as Hof.
  pose proof (DecimalN.Unsigned.to_of (N.to_uint n)) as Hnorm. rewrite Hof in Hnorm.
  remember (N.to_uint n) as d eqn:Ed. clear Ed.
  assert (Hl : forall acc l, N.of_uint d = N.pos (Pos.of_uint_acc l acc) ->
               (Decimal.nb_digits l <= 9)%nat).
  { intros acc l E. rewrite Hof in E. subst n.
    pose proof (of_uint_acc_lower l acc) as L. cbn [Z.of_N] in Hn.
    destruct (Nat.le_gt_cases (Decimal.nb_digits l) 9) as [|G]; [assumption|exfalso].
    assert (10 ^ 10 <= 10 ^ Z.of_nat (Decimal.nb_digits l))
      by (apply Z.pow_le_mono_r; lia).
    nia. }
  destruct d as [|l|l|l|l|l|l|l|l|l|l]; cbn [Decimal.nb_digits];
    try (pose proof (Hl _ l eq_refl); lia).
  - discriminate Hnorm.
  - unfold Decimal.unorm in Hnorm. cbn [Decimal.nzhead] in Hnorm.
    pose proof (DecimalFacts.nb_digits_nzhead l) as Hz.
    destruct (Decimal.nzhead l) eqn:Ez; try discriminate Hnorm.
    + injection Hnorm as E. subst l. simpl. lia.
    + injection Hnorm as E. rewrite E in Hz. cbn [Decimal.nb_digits] in Hz. lia.
Qed.

(** [ltoa] of a number that is not negative: at most ten digits, which
    denote the number. *)
Lemma ltoa_digits n :
  0 <= n < 10 ^ 10 ->
  forallb isdigit (ltoa n) = true /\ decimal (ltoa n) = n /\
  (1 <= length (ltoa n) <= 10)%nat.
Proof.
  intros Hn. unfold ltoa. destruct (Z.ltb_spec n 0); [lia|].
  split; [apply digits_of_uint_isdigit|]. split.
  - rewrite decimal_of_uint, DecimalN.Unsigned.of_to. lia.
  - rewrite digits_of_uint_length. apply to_uint_length. lia.
Qed.

Lemma ltoa_negative n :
  - 10 ^ 10 < n < 0 -> ltoa n = ch "-" :: ltoa (- n).
Proof.
  intros Hn. unfold ltoa. destruct (Z.ltb_spec n 0); [|lia].
  destruct (Z.ltb_spec (- n) 0); [lia|]. reflexivity.
Qed.

Lemma isdigit_payload v : isdigit v = true -> is_char v && negb (isupper v) = true.
Proof.
  intros Hv. unfold isdigit, is_char, isupper in *.
  change (ch "0") with 48 in Hv. change (ch "9") with 57 in Hv.
  change (ch "A") with 65. change (ch "Z") with 90.
  apply andb_prop in Hv as [Hv1 Hv2]. apply Z.leb_le in Hv1, Hv2.
  apply andb_true_intro. split.
  - apply andb_true_intro. split; [apply Z.leb_le|apply Z.ltb_lt]; lia.
  - apply negb_true_iff, andb_false_intro1. apply Z.leb_gt. lia.
Qed.

(** [atol] reads the digits at the front of a string and stops at the
    first other character. *)
Lemma atol_prefix digits t m :
  forallb isdigit digits = true -> isdigit t = false ->
  uint32 (atol (digits ++ t :: repeat 0 m)) = uint32 (decimal digits).
Proof.
  intros Hv Ht. destruct digits as [|v digits].
  - cbn [app]. change (decimal []) with 0. unfold atol. cbn [skip_space].
    destruct (isspace t).
    + destruct m as [|m]; [reflexivity|]. cbn [repeat skip_space].
      change (isspace 0) with false. cbv iota. reflexivity.
    + destruct (t =? ch "-"); [destruct m; reflexivity|].
      destruct (t =? ch "+"); [destruct m; reflexivity|].
      cbn [parse_digits]. rewrite Ht. reflexivity.
  - assert (E : atol ((v :: digits) ++ t :: repeat 0 m) = int32 (decimal (v :: digits))).
    { unfold atol, decimal.
      pose proof Hv as Hv'. simpl in Hv'. apply andb_prop in Hv' as [Hv1 Hv2].
      assert (Hr : 48 <= v <= 57).
      { unfold isdigit in Hv1. change (ch "0") with 48 in Hv1. change (ch "9") with 57 in Hv1.
        apply andb_prop in Hv1 as [A B]. apply Z.leb_le in A, B. lia. }
      cbn [app skip_space].
      assert (Hs : isspace v = false).
      { unfold isspace. destruct (Z.eqb_spec v 32); [lia|].
        destruct (Z.leb_spec 9 v); destruct (Z.leb_spec v 13); trivial; lia. }
      rewrite Hs. change (ch "-") with 45. change (ch "+") with 43.
      destruct (Z.eqb_spec v 45); [lia|]. destruct (Z.eqb_spec v 43); [lia|].
      f_equal.
      apply (parse_digits_decimal (v :: digits) 0 t (repeat 0 m)); assumption. }
    rewrite E. unfold uint32, int32.
    rewrite Zminus_mod_idemp_l.
    replace (decimal (v :: digits) + 2 ^ 31 - 2 ^ 31) with (decimal (v :: digits)) by lia.
    reflexivity.
Qed.

(** [readResponse] on a frame whose value field is a run of digits
    followed by other characters: the digits and the character after them
    are stored (a NUL when nothing follows the digits). *)
Lemma readResponse_prefix s set command a1 a0 digits tail chk rest :
  line_bytes (rx_line (swserial_ s))
  = ch ":" :: a1 :: a0 :: (direction_char set :: command :: digits ++ tail) ++ chk :: rest ->
  prompt (rx_line (swserial_ s)) = true ->
  is_char a1 = true -> is_char a0 = true ->
  is_char command = true -> isupper command = false ->
  forallb isdigit digits = true ->
  forallb (fun b => is_char b && negb (isupper b)) tail = true ->
  isdigit (hd 0 tail) = false ->
  (length (digits ++ tail) <= 12)%nat ->
  atoi [a1; a0; 0] = device_id_ s ->
  chk = MingHeBuckConverterChecksum.getChecksumCharacter
          (checksum_of (ch ":" :: a1 :: a0 :: direction_char set :: command :: digits ++ tail) 0) ->
  fst (readResponse set command s) = (true, digits ++ [hd 0 tail]).
Proof.
  intros Hline Hp Ha1 Ha0 Hcmd Hcmdu Hd Ht Hh Hlen Hatoi Hchk.
  set (p := direction_char set :: command :: digits ++ tail) in *.
  assert (Hk : 0 <= checksum_of (ch ":" :: a1 :: a0 :: p) 0 < 26)
    by (apply checksum_of_range; lia).
  destruct (checksum_letter_char _ Hk) as [Hc Hu]. rewrite <- Hchk in Hc, Hu.
  assert (Hbytes : forallb (fun b => is_char b && negb (isupper b)) p = true).
  { unfold p. destruct (direction_char_lower set) as [D1 D2].
    cbn [forallb]. rewrite D1, D2, Hcmd, Hcmdu. cbn [negb andb].
    rewrite forallb_app, Ht, andb_true_r.
    apply forallb_forall. intros v Hv. apply isdigit_payload.
    rewrite forallb_forall in Hd. apply Hd, Hv. }
  assert (Hl : length p = S (S (length (digits ++ tail)))) by reflexivity.
  pose proof (read_frame_16 s a1 a0 p chk rest Hline Hp Ha1 Ha0 Hbytes
                ltac:(lia) Hc Hu) as E.
  rewrite Hatoi, Z.eqb_refl, <- Hchk, Z.eqb_refl in E. cbn [andb] in E.
  unfold readResponse.
  destruct (readResponseIntoBuffer response_buffer_init (16 - 1) s) as [[ok buf] s1].
  cbn [fst] in E. apply pair_equal_spec in E as [-> ->].
  rewrite Hl. unfold p.
  remember (16 - S (S (length (digits ++ tail))))%nat as r eqn:Er.
  destruct r as [|r]; [lia|].
  cbn [app load nth]. fold (direction_char set).
  rewrite !Z.eqb_refl. cbn [negb fst]. f_equal.
  rewrite <- app_assoc.
  assert (Et : exists rest', tail ++ repeat 0 (S r) = hd 0 tail :: rest').
  { destruct tail as [|t tl]; [exists (repeat 0 r)|exists (tl ++ repeat 0 (S r))]; reflexivity. }
  destruct Et as [rest' Et]. rewrite Et.
  apply (copy_loop_digits digits (16 - 2) 0 [direction_char set; command]
           (hd 0 tail) rest' []); trivial.
  rewrite length_app in Hlen. simpl. lia.
Qed.

(** [executeGetCommand] on an answer whose value field is a run of at
    most ten digits followed by other characters. *)
Lemma executeGetCommand_prefix s command a1 a0 digits tail chk rest :
  0 <= device_id_ s <= 99 ->
  line_bytes (rx_line (swserial_ s))
  = ch ":" :: a1 :: a0 :: (ch "r" :: command :: digits ++ tail) ++ chk :: rest ->
  prompt (rx_line (swserial_ s)) = true ->
  is_char a1 = true -> is_char a0 = true ->
  is_char command = true -> isupper command = false ->
  forallb isdigit digits = true ->
  forallb (fun b => is_char b && negb (isupper b)) tail = true ->
  isdigit (hd 0 tail) = false ->
  (length digits <= 10)%nat -> (length (digits ++ tail) <= 12)%nat ->
  atoi [a1; a0; 0] = device_id_ s ->
  chk = MingHeBuckConverterChecksum.getChecksumCharacter
          (checksum_of (ch ":" :: a1 :: a0 :: ch "r" :: command :: digits ++ tail) 0) ->
  option_map fst (executeGetCommand command s) = Some (uint32 (decimal digits)).
Proof.
  intros Hid Hline Hp Ha1 Ha0 Hcmd Hcmdu Hd Ht Hh Hl10 Hlen Hatoi Hchk.
  destruct (sendRequest_defined REQUEST_GET command None s Hid) as [s1 E1].
  rewrite (executeGetCommand_result _ _ _ E1).
  destruct (sendRequest_keeps_line _ _ _ _ _ Hid E1) as (Er & Ed & _).
  rewrite <- Er in Hline, Hp. rewrite <- Ed in Hatoi.
  rewrite (readResponse_prefix s1 REQUEST_GET command a1 a0 digits tail chk rest); trivial.
  rewrite length_app. cbn [length].
  destruct (Z.ltb_spec 11 (Z.of_nat (length digits + 1))); [lia|].
  rewrite <- app_assoc. cbn [app]. rewrite atol_prefix by assumption. reflexivity.
Qed.

(** X14: the value field of an answer is read up to its first character
    that is not a digit, and what follows is ignored: an answer that
    carries 12.5 reads as 12, one that carries -5 or no digit at all as
    0, provided the address and the checksum character are right. *)
Theorem value_is_read_up_to_first_non_digit s command a1 a0 digits t tail chk rest :
  0 <= device_id_ s <= 99 ->
  line_bytes (rx_line (swserial_ s))
  = ch ":" :: a1 :: a0 :: (ch "r" :: command :: digits ++ t :: tail) ++ chk :: rest ->
  prompt (rx_line (swserial_ s)) = true ->
  is_char a1 = true -> is_char a0 = true ->
  is_char command = true -> isupper command = false ->
  forallb isdigit digits = true ->
  isdigit t = false ->
  forallb (fun b => is_char b && negb (isupper b)) (t :: tail) = true ->
  (length digits <= 10)%nat -> (length (digits ++ t :: tail) <= 12)%nat ->
  atoi [a1; a0; 0] = device_id_ s ->
  chk = MingHeBuckConverterChecksum.getChecksumCharacter
          (checksum_of (ch ":" :: a1 :: a0 :: ch "r" :: command :: digits ++ t :: tail) 0) ->
  option_map fst (executeGetCommand command s) = Some (uint32 (decimal digits)).
Proof.
  intros Hid Hline Hp Ha1 Ha0 Hcmd Hcmdu Hd Hdt Ht Hl10 Hlen Hatoi Hchk.
  apply (executeGetCommand_prefix s command a1 a0 digits (t :: tail) chk rest); trivial.
Qed.

Lemma value_is_read_up_to_first_non_digit_witness :
  let s := listening 1 (bytes ":01rv12.5N" ++ [newline]) in
  0 <= device_id_ s <= 99 /\ prompt (rx_line (swserial_ s)) = true /\
  option_map fst (executeGetCommand (ch "v") s) = Some 12.
Proof.
  cbv zeta.
  assert (Hid : 0 <= device_id_ (listening 1 (bytes ":01rv12.5N" ++ [newline])) <= 99)
    by (vm_compute; split; discriminate).
  split; [exact Hid|]. split; [reflexivity|].
  apply (value_is_read_up_to_first_non_digit
           (listening 1 (bytes ":01rv12.5N" ++ [newline])) (ch "v")
           (ch "0") (ch "1") (bytes "12") (ch ".") (bytes "5") (ch "N") [newline]
           Hid); try reflexivity; simpl; lia.
Defined.

Lemma int32_uint32 v :
  0 <= v < 2 ^ 32 ->
  int32 (uint32 v) = if v <? 2 ^ 31 then v else v - 2 ^ 32.
Proof.
  intros Hv. unfold int32, uint32. rewrite (Z.mod_small v) by lia.
  destruct (Z.ltb_spec v (2 ^ 31)).
  - rewrite Z.mod_small by lia. lia.
  - rewrite <- (Z.mod_add (v + 2 ^ 31) (-1)) by lia. rewrite Z.mod_small by lia. lia.
Qed.

(** X15: the value a set command writes, sent back by the device in an
    answer to the get command, is read as the same number when it is
    below 2^31.  From 2^31 on [ltoa] renders the value as a negative
    number, the field starts with '-' and the answer reads as 0. *)
Theorem written_value_reads_back command v frame s :
  0 <= device_id_ s <= 99 ->
  is_char command = true -> isupper command = false ->
  0 <= v < 2 ^ 32 ->
  request_bytes (device_id_ s) REQUEST_GET command (Some (ltoa (int32 (uint32 v))))
  = Some frame ->
  line_bytes (rx_line (swserial_ s)) = frame ->
  prompt (rx_line (swserial_ s)) = true ->
  option_map fst (executeGetCommand command s) = Some (if v <? 2 ^ 31 then v else 0).
Proof.
  intros Hid Hcmd Hcmdu Hv Hreq Hline Hp.
  rewrite request_bytes_spec in Hreq by exact Hid. cbv zeta in Hreq.
  apply some_eq in Hreq. rewrite <- Hreq in Hline. clear Hreq frame.
  destruct (address_chars_parse (device_id_ s) Hid) as (Eatoi & Ha1 & Ha0).
  rewrite int32_uint32 in Hline by exact Hv.
  unfold request_body in Hline. change (direction_char REQUEST_GET) with (ch "r") in Hline.
  set (a1 := ch "0" + device_id_ s / 10) in *.
  set (a0 := ch "0" + device_id_ s mod 10) in *.
  destruct (Z.ltb_spec v (2 ^ 31)) as [Hlt|Hge].
  - destruct (ltoa_digits v ltac:(lia)) as (Hd & Hdec & Hlen).
    rewrite (cstring_digits _ Hd) in Hline.
    replace (Some v) with (Some (uint32 (decimal (ltoa v))))
      by (rewrite Hdec, uint32_small by lia; reflexivity).
    apply (executeGetCommand_prefix s command a1 a0 (ltoa v) []
             (MingHeBuckConverterChecksum.getChecksumCharacter
                (checksum_of (ch ":" :: a1 :: a0 :: ch "r" :: command :: ltoa v) 0))
             [newline]); rewrite ?app_nil_r; trivial; try lia.
  - rewrite ltoa_negative in Hline by lia.
    destruct (ltoa_digits (- (v - 2 ^ 32)) ltac:(lia)) as (Hd & Hdec & Hlen).
    cbn [cstring] in Hline. change (ch "-" =? 0) with false in Hline. cbv iota in Hline.
    rewrite (cstring_digits _ Hd) in Hline.
    change (Some 0) with (Some (uint32 (decimal []))).
    apply (executeGetCommand_prefix s command a1 a0 [] (ch "-" :: ltoa (- (v - 2 ^ 32)))
             (MingHeBuckConverterChecksum.getChecksumCharacter
                (checksum_of (ch ":" :: a1 :: a0 :: ch "r" :: command
                                :: ch "-" :: ltoa (- (v - 2 ^ 32))) 0))
             [newline]); trivial.
    + cbn [forallb]. change (is_char (ch "-") && negb (isupper (ch "-"))) with true.
      cbn [andb]. apply forallb_forall. intros x Hx. apply isdigit_payload.
      rewrite forallb_forall in Hd. apply Hd, Hx.
    + cbn [length]. lia.
    + cbn [app length]. lia.
Qed.

Lemma written_value_reads_back_witness :
  let s := listening 1 (bytes ":01ra3000000D" ++ [newline]) in
  0 <= device_id_ s <= 99 /\ prompt (rx_line (swserial_ s)) = true /\
  request_bytes 1 REQUEST_SET MINGHE_COMMAND_MAMP_HOURS (Some (ltoa (int32 (uint32 3000000))))
  = Some (bytes ":01sa3000000E" ++ [newline]) /\
  option_map fst (executeGetCommand MINGHE_COMMAND_MAMP_HOURS s) = Some 3000000.
Proof.
  cbv zeta.
  assert (Hid : 0 <= device_id_ (listening 1 (bytes ":01ra3000000D" ++ [newline])) <= 99)
    by (vm_compute; split; discriminate).
  split; [exact Hid|]. split; [reflexivity|]. split; [reflexivity|].
  apply (written_value_reads_back MINGHE_COMMAND_MAMP_HOURS 3000000
           (bytes ":01ra3000000D" ++ [newline])
           (listening 1 (bytes ":01ra3000000D" ++ [newline])) Hid);
    try reflexivity. lia.
Defined.

(** ** One answer per command *)

Lemma swallow_loop_newlines nl : forall k rest log,
  buffered_newlines nl = true ->
  swallow_loop (mkSerial k (nl ++ rest) log) = swallow_loop (mkSerial k rest log).
Proof.
  induction nl as [|[d b] nl IH]; intros k rest log H; [reflexivity|].
  cbn [buffered_newlines forallb fst snd] in H. apply andb_prop in H as [H Hnl].
  apply andb_prop in H as [Hd Hb]. unfold is_newline in Hb.
  rewrite swallow_loop_step. unfold available, peek, read.
  cbn [app rx_line clock tx_log]. rewrite Hd, Hb. cbn [snd]. apply IH, Hnl.
Qed.

Lemma swallow_loop_stops k rest log :
  ends_newlines rest = true ->
  line_bytes (rx_line (swallow_loop (mkSerial k rest log))) = line_bytes rest.
Proof.
  intros H. rewrite swallow_loop_step. unfold available, peek, read, delay, elapse.
  cbn [rx_line clock tx_log].
  destruct rest as [|[d b] rest]; [reflexivity|].
  cbn [ends_newlines] in H. unfold is_newline in H.
  destruct (d <=? 0).
  - cbn [andb] in H. apply negb_true_iff in H. rewrite H. reflexivity.
  - cbn [rx_line]. apply line_bytes_advance.
Qed.

(** A frame with the right address and checksum character: the state in
    which [readResponseIntoBuffer] leaves the converter. *)
Lemma readResponseIntoBuffer_frame_state
    d0 d1 d2 dc a1 a0 pl chk tail buffer buffer_length k log c id :
  d0 <= MINGHE_PER_CHARACTER_TIMEOUT_MS -> d1 <= MINGHE_PER_CHARACTER_TIMEOUT_MS ->
  d2 <= MINGHE_PER_CHARACTER_TIMEOUT_MS -> dc <= MINGHE_PER_CHARACTER_TIMEOUT_MS ->
  prompt pl = true ->
  is_char a1 = true -> is_char a0 = true ->
  forallb (fun b => is_char b && negb (isupper b)) (line_bytes pl) = true ->
  is_char chk = true -> isupper chk = true ->
  (length pl < Z.to_nat (uint8 buffer_length))%nat ->
  atoi [a1; a0; 0] = id ->
  chk = MingHeBuckConverterChecksum.getChecksumCharacter
          (checksum_of (ch ":" :: a1 :: a0 :: line_bytes pl) 0) ->
  exists k',
    readResponseIntoBuffer buffer buffer_length
      (mkConverter
         (mkSerial k ((d0, ch ":") :: (d1, a1) :: (d2, a0) :: pl ++ (dc, chk) :: tail) log)
         c id) =
    ((true, store_from 0 (line_bytes pl) buffer),
     mkConverter (swallow_loop (mkSerial k' tail log))
       (checksum_of (ch ":" :: a1 :: a0 :: line_bytes pl) 0) id).
Proof.
  intros H0 H1 H2 Hdc Hp Ha1 Ha0 Hpl Hchk Hup Hlen Hatoi Hsum.
  unfold readResponseIntoBuffer, checksum_reset, with_checksum.
  cbn [swserial_ checksum_ device_id_].
  rewrite sync_loop_step, readChar_prompt by exact H0.
  change (uint8 (ch ":")) with (ch ":").
  change (MINGHE_MAX_JUNK_CHARACTERS <=? uint8 (0 + 1)) with false.
  change (ch ":" =? ch ":") with true. cbv iota.
  unfold checksum_addOutputCharacter, with_checksum. cbn [swserial_ checksum_ device_id_].
  rewrite readChar_prompt by exact H1. cbn [swserial_ checksum_ device_id_].
  rewrite readChar_prompt by exact H2. cbn [swserial_ checksum_ device_id_].
  rewrite (is_char_uint8 a1), (is_char_uint8 a0) by assumption.
  rewrite Hatoi, Z.eqb_refl. cbn [negb].
  destruct (payload_loop_bytes pl (Z.to_nat (uint8 buffer_length)) 0 buffer
              (k + Z.max d0 0 + Z.max d1 0 + Z.max d2 0) ((dc, chk) :: tail) log
              (MingHeBuckConverterChecksum.addOutputCharacter a0
                 (MingHeBuckConverterChecksum.addOutputCharacter a1
                    (MingHeBuckConverterChecksum.addOutputCharacter (ch ":")
                       (MingHeBuckConverterChecksum.reset c)))) id Hp Hpl) as [k' E]; [lia|].
  rewrite E.
  destruct (Z.to_nat (uint8 buffer_length) - length pl)%nat as [|m] eqn:Em; [lia|].
  destruct (payload_loop_terminator m (0 + length pl) (store_from 0 (line_bytes pl) buffer)
              k' dc chk tail log
              (checksum_of (line_bytes pl)
                 (MingHeBuckConverterChecksum.addOutputCharacter a0
                    (MingHeBuckConverterChecksum.addOutputCharacter a1
                       (MingHeBuckConverterChecksum.addOutputCharacter (ch ":")
                          (MingHeBuckConverterChecksum.reset c))))) id Hdc Hchk Hup) as [k'' E'].
  rewrite E'. exists k''.
  assert (Ec : checksum_of (line_bytes pl)
                 (MingHeBuckConverterChecksum.addOutputCharacter a0
                    (MingHeBuckConverterChecksum.addOutputCharacter a1
                       (MingHeBuckConverterChecksum.addOutputCharacter (ch ":")
                          (MingHeBuckConverterChecksum.reset c))))
               = checksum_of (ch ":" :: a1 :: a0 :: line_bytes pl) 0) by reflexivity.
  rewrite Ec, <- Hsum, Z.eqb_refl.
  unfold swallowNewlines, with_serial. cbn [swserial_ checksum_ device_id_].
  reflexivity.
Qed.

(** X16: a successful read takes from the line the frame and the
    carriage returns and line feeds that are in the receive buffer behind
    it, and nothing more: the bytes after them are all still there for the
    next read, and a line feed that has not arrived yet stays on the line
    as well. *)
Theorem answer_is_taken_with_its_newlines
    buffer buffer_length s a1 a0 p chk front nl rest :
  rx_line (swserial_ s) = front ++ nl ++ rest ->
  line_bytes front = ch ":" :: a1 :: a0 :: p ++ [chk] ->
  prompt front = true ->
  is_char a1 = true -> is_char a0 = true ->
  forallb (fun b => is_char b && negb (isupper b)) p = true ->
  (length p < Z.to_nat (uint8 buffer_length))%nat ->
  atoi [a1; a0; 0] = device_id_ s ->
  chk = MingHeBuckConverterChecksum.getChecksumCharacter
          (checksum_of (ch ":" :: a1 :: a0 :: p) 0) ->
  buffered_newlines nl = true -> ends_newlines rest = true ->
  fst (readResponseIntoBuffer buffer buffer_length s) = (true, store_from 0 p buffer) /\
  line_bytes (rx_line (swserial_ (snd (readResponseIntoBuffer buffer buffer_length s))))
  = line_bytes rest.
Proof.
  intros Hrx Hfront Hp Ha1 Ha0 Hbytes Hlen Hatoi Hsum Hnl Hrest.
  assert (Hk : 0 <= checksum_of (ch ":" :: a1 :: a0 :: p) 0 < 26)
    by (apply checksum_of_range; lia).
  destruct (checksum_letter_char _ Hk) as [Hc Hu]. rewrite <- Hsum in Hc, Hu.
  destruct (line_of_payload front (ch ":") a1 a0 p chk [] Hfront Hp)
    as (d0 & d1 & d2 & dc & pl & tail & Ef & Hpl & H0 & H1 & H2 & Hdc & Hpp).
  assert (Et : tail = []).
  { apply (f_equal line_bytes) in Ef. rewrite Hfront in Ef.
    cbn [line_bytes map snd] in Ef. rewrite map_app in Ef. cbn [map snd] in Ef.
    fold (line_bytes pl) in Ef. rewrite Hpl in Ef.
    assert (El : length (ch ":" :: a1 :: a0 :: p ++ [chk])
                 = length (ch ":" :: a1 :: a0 :: p ++ chk :: map snd tail))
      by (rewrite <- Ef; reflexivity).
    cbn [length] in El. rewrite !length_app in El. cbn [length] in El.
    rewrite length_map in El. destruct tail; [reflexivity|simpl in El; lia]. }
  subst tail.
  destruct s as [[k line log] c id]. cbn [swserial_ rx_line device_id_] in Hrx, Hatoi.
  subst line front.
  assert (Hl : length pl = length p).
  { unfold line_bytes in Hpl. rewrite <- Hpl, length_map. reflexivity. }
  cbn [app]. rewrite <- app_assoc. cbn [app].
  destruct (readResponseIntoBuffer_frame_state d0 d1 d2 dc a1 a0 pl chk (nl ++ rest)
              buffer buffer_length k log c id) as [k' E]; trivial;
    try (rewrite Hpl; assumption); [lia|].
  rewrite E. cbn [fst snd swserial_]. rewrite Hpl. split; [reflexivity|].
  rewrite swallow_loop_newlines by exact Hnl. apply swallow_loop_stops, Hrest.
Qed.

Lemma answer_is_taken_with_its_newlines_witness :
  let first := bytes ":01rv1200K" in
  let second := bytes ":01rj0150B" ++ [carriage_return; newline] in
  let s := listening 1 (first ++ [carriage_return; newline] ++ second) in
  atoi [ch "0"; ch "1"; 0] = device_id_ s /\
  line_bytes (rx_line (swserial_ (snd (readResponseIntoBuffer response_buffer_init 15 s))))
  = second /\
  option_map fst (bind (getVoltage s) (fun v s => bind (getCurrent s) (fun j s => Some ((v, j), s))))
  = Some (1200, 150).
Proof.
  cbv zeta. split; [reflexivity|]. split; [|vm_compute; reflexivity].
  rewrite (proj2 (answer_is_taken_with_its_newlines response_buffer_init 15
              (listening 1 (bytes ":01rv1200K" ++ [carriage_return; newline]
                              ++ bytes ":01rj0150B" ++ [carriage_return; newline]))
              (ch "0") (ch "1") (bytes "rv1200") (ch "K")
              (buffered (bytes ":01rv1200K")) (buffered [carriage_return; newline])
              (buffered (bytes ":01rj0150B" ++ [carriage_return; newline]))
              eq_refl eq_refl eq_refl eq_refl eq_refl eq_refl
              (proj1 (Nat.ltb_lt 6 15) eq_refl) eq_refl eq_refl eq_refl eq_refl)).
  reflexivity.
Defined.

(** ** The baud rate table *)

(** X17: for each of the eight baud indexes the rate handed to the
    serial port is the table entry cut to its low 16 bits, because the
    table of 32-bit entries is read with [pgm_read_word_near]; it is the
    entry itself for every index but 4, where 115200 becomes 49664. *)
Theorem baud_rate_is_cut_to_16_bits baud_index :
  0 <= baud_index < 8 ->
  begin_baud_rate baud_index
  = Some (nth (Z.to_nat baud_index) minghe_baud_index_table 0 mod 2 ^ 16) /\
  (begin_baud_rate baud_index = Some (nth (Z.to_nat baud_index) minghe_baud_index_table 0)
   <-> baud_index <> 4).
Proof.
  intros H.
  assert (C : baud_index = 0 \/ baud_index = 1 \/ baud_index = 2 \/ baud_index = 3 \/
              baud_index = 4 \/ baud_index = 5 \/ baud_index = 6 \/ baud_index = 7) by lia.
  destruct C as [->|[->|[->|[->|[->|[->|[->| ->]]]]]]];
    (split; [reflexivity|]); split; intros E; try reflexivity; try lia;
    try discriminate E.
Qed.

Lemma baud_rate_is_cut_to_16_bits_witness :
  0 <= 4 < 8 /\ begin_baud_rate 4 = Some 49664 /\ begin_baud_rate 3 = Some 57600.
Proof.
  split; [lia|]. split; [|reflexivity].
  exact (proj1 (baud_rate_is_cut_to_16_bits 4 ltac:(lia))).
Defined.

(** ** Addresses of three digits *)

Lemma below_256 (check : Z -> bool) :
  forallb check (map Z.of_nat (seq 0 256)) = true ->
  forall d, 0 <= d <= 255 -> check d = true.
Proof.
  intros H d Hd. rewrite forallb_forall in H. apply H.
  apply in_map_iff. exists (Z.to_nat d). split; [lia|].
  apply in_seq. lia.
Qed.

Lemma itoa_overflows d :
  0 <= d <= 255 -> (3 <? Z.of_nat (length (itoa d)) + 1) = (100 <=? d).
Proof.
  intros Hd.
  pose proof (below_256
    (fun d => Bool.eqb (3 <? Z.of_nat (length (itoa d)) + 1) (100 <=? d))
    ltac:(vm_compute; reflexivity) d Hd) as H.
  cbv beta in H. apply Bool.eqb_prop in H. exact H.
Qed.

(** X18: [sendRequest] stores the address with [itoa] into an array of
    three characters, so it has a defined result exactly for the addresses
    below 100; with an address from 100 to 255 the terminating NUL is
    written past the array, and no get or set command is defined. *)
Theorem three_digit_address_overflows set command value v s :
  0 <= device_id_ s <= 255 ->
  (sendRequest set command value s = None <-> 100 <= device_id_ s) /\
  (100 <= device_id_ s ->
   executeGetCommand command s = None /\ executeSetCommand command v s = None).
Proof.
  intros Hid.
  assert (S : forall set command value,
             sendRequest set command value s = None <-> 100 <= device_id_ s).
  { intros set' command' value'. unfold sendRequest. cbv zeta.
    change (device_id_ (sendSerialChar (ch ":") (checksum_reset s))) with (device_id_ s).
    rewrite itoa_overflows by exact Hid.
    destruct (Z.leb_spec 100 (device_id_ s)); split; intros H'; trivial;
      [discriminate H'|lia]. }
  split; [apply S|]. intros H.
  unfold executeGetCommand, executeSetCommand.
  rewrite (proj2 (S REQUEST_GET command None) H).
  rewrite (proj2 (S REQUEST_SET command (Some (ltoa (int32 (uint32 v))))) H).
  split; reflexivity.
Qed.

Lemma three_digit_address_overflows_witness :
  let s := constructor (mkSerial 0 [] []) 100 in
  0 <= device_id_ s <= 255 /\
  sendRequest REQUEST_GET MINGHE_COMMAND_VOLTAGE None s = None /\
  getVoltage s = None.
Proof.
  cbv zeta.
  assert (Hid : 0 <= device_id_ (constructor (mkSerial 0 [] []) 100) <= 255)
    by (vm_compute; split; discriminate).
  split; [exact Hid|].
  destruct (three_digit_address_overflows REQUEST_GET MINGHE_COMMAND_VOLTAGE None 0
              (constructor (mkSerial 0 [] []) 100) Hid) as [S C].
  split; [apply S; vm_compute; discriminate|].
  unfold getVoltage, get_as.
  rewrite (proj1 (C ltac:(vm_compute; discriminate))). reflexivity.
Defined.

(** ** The polling loop *)

(** X19: [readCharUntilTimeout] in closed form, whatever the value of
    the millisecond clock, so also when [millis()] wraps around during
    the wait: the first byte of the line is returned when it arrives within
    [timeout_ms], at the moment it arrives; otherwise the result is 0
    after exactly [timeout_ms] milliseconds and no byte is taken.  The
    bytes written and the address are left alone. *)
Theorem readCharUntilTimeout_waits_for_one_byte timeout_ms s :
  let '(c, s') := readCharUntilTimeout timeout_ms s in
  let timeout := timeout_ms mod 2 ^ 32 in
  kept s s' /\ checksum_ s' = checksum_ s /\
  match rx_line (swserial_ s) with
  | (d, b) :: rest =>
      if d <=? timeout
      then c = b mod 2 ^ 8 /\ rx_line (swserial_ s') = rest /\
           clock (swserial_ s') = clock (swserial_ s) + Z.max d 0
      else c = 0 /\ rx_line (swserial_ s') = (d - timeout, b) :: rest /\
           clock (swserial_ s') = clock (swserial_ s) + timeout
  | [] =>
      c = 0 /\ rx_line (swserial_ s') = [] /\
      clock (swserial_ s') = clock (swserial_ s) + timeout
  end.
Proof.
  rewrite readCharUntilTimeout_spec. cbv zeta. fold (uint32 timeout_ms).
  unfold poll_result, kept, with_serial.
  destruct s as [[k line log] c id]. cbn [swserial_ rx_line clock tx_log device_id_ checksum_].
  destruct line as [|[d b] line]; [cbn [fst snd]; auto 10|].
  destruct (d <=? uint32 timeout_ms); cbn [fst snd rx_line clock tx_log]; auto 10.
Qed.

(** ** Setters that read the value back *)

Lemma prompt_advance line : forall n, prompt line = true -> prompt (advance n line) = true.
Proof.
  unfold prompt, MINGHE_PER_CHARACTER_TIMEOUT_MS.
  induction line as [|[d b] line IH]; intros n H; cbn [advance]; [reflexivity|].
  destruct (n <=? 0) eqn:En; [exact H|].
  cbn [forallb fst] in H. apply andb_prop in H as [Hd Hl].
  destruct (d <=? n); cbn [forallb fst].
  - rewrite (IH _ Hl). reflexivity.
  - rewrite Hl, andb_true_r. apply Z.leb_le. apply Z.leb_le in Hd. apply Z.leb_gt in En. lia.
Qed.

(** The line after [swallowNewlines]: the buffered carriage returns and
    line feeds are gone, the bytes behind them are all there. *)
Lemma swallow_loop_state nl rest k log :
  buffered_newlines nl = true -> ends_newlines rest = true ->
  exists k' rest',
    swallow_loop (mkSerial k (nl ++ rest) log) = mkSerial k' rest' log /\
    line_bytes rest' = line_bytes rest /\
    (prompt rest = true -> prompt rest' = true).
Proof.
  intros Hnl Hrest. rewrite swallow_loop_newlines by exact Hnl.
  rewrite swallow_loop_step. unfold available, peek, read, delay, elapse.
  cbn [rx_line clock tx_log].
  destruct rest as [|[d b] rest].
  - exists (k + MINGHE_POST_READ_DELAY_MS), []. auto.
  - cbn [ends_newlines] in Hrest. unfold is_newline in Hrest.
    destruct (d <=? 0).
    + cbn [andb] in Hrest. apply negb_true_iff in Hrest. rewrite Hrest.
      exists k, ((d, b) :: rest). auto.
    + exists (k + MINGHE_POST_READ_DELAY_MS), (advance MINGHE_POST_READ_DELAY_MS ((d, b) :: rest)).
      split; [reflexivity|]. split; [apply line_bytes_advance|apply prompt_advance].
Qed.

(** A line that carries one frame and nothing else. *)
Lemma line_of_one_frame front x0 x1 x2 p letter :
  line_bytes front = x0 :: x1 :: x2 :: p ++ [letter] ->
  prompt front = true ->
  exists d0 d1 d2 dc pl,
    front = (d0, x0) :: (d1, x1) :: (d2, x2) :: pl ++ [(dc, letter)] /\
    line_bytes pl = p /\
    d0 <= MINGHE_PER_CHARACTER_TIMEOUT_MS /\ d1 <= MINGHE_PER_CHARACTER_TIMEOUT_MS /\
    d2 <= MINGHE_PER_CHARACTER_TIMEOUT_MS /\ dc <= MINGHE_PER_CHARACTER_TIMEOUT_MS /\
    prompt pl = true.
Proof.
  intros Hfront Hp.
  destruct (line_of_payload front x0 x1 x2 p letter [] Hfront Hp)
    as (d0 & d1 & d2 & dc & pl & tail & Ef & Hpl & H0 & H1 & H2 & Hdc & Hpp).
  assert (Et : tail = []).
  { apply (f_equal line_bytes) in Ef. rewrite Hfront in Ef.
    cbn [line_bytes map snd] in Ef. rewrite map_app in Ef. cbn [map snd] in Ef.
    fold (line_bytes pl) in Ef. rewrite Hpl in Ef.
    assert (El : length (x0 :: x1 :: x2 :: p ++ [letter])
                 = length (x0 :: x1 :: x2 :: p ++ letter :: map snd tail))
      by (rewrite <- Ef; reflexivity).
    cbn [length] in El. rewrite !length_app in El. cbn [length] in El.
    rewrite length_map in El. destruct tail; [reflexivity|simpl in El; lia]. }
  subst tail. exists d0, d1, d2, dc, pl. auto 10.
Qed.

(** The state after a set command that is acknowledged. *)
Lemma executeSetCommand_ok_state command value s a1 a0 chk front nl rest :
  0 <= device_id_ s <= 99 ->
  rx_line (swserial_ s) = front ++ nl ++ rest ->
  line_bytes front = ch ":" :: a1 :: a0 :: bytes "ok" ++ [chk] ->
  prompt front = true ->
  is_char a1 = true -> is_char a0 = true ->
  atoi [a1; a0; 0] = device_id_ s ->
  chk = MingHeBuckConverterChecksum.getChecksumCharacter
          (checksum_of (ch ":" :: a1 :: a0 :: bytes "ok") 0) ->
  buffered_newlines nl = true -> ends_newlines rest = true ->
  exists s2,
    executeSetCommand command value s = Some (true, s2) /\
    device_id_ s2 = device_id_ s /\
    line_bytes (rx_line (swserial_ s2)) = line_bytes rest /\
    (prompt rest = true -> prompt (rx_line (swserial_ s2)) = true).
Proof.
  intros Hid Hrx Hfront Hp Ha1 Ha0 Hatoi Hsum Hnl Hrest.
  assert (Hk : 0 <= checksum_of (ch ":" :: a1 :: a0 :: bytes "ok") 0 < 26)
    by (apply checksum_of_range; lia).
  destruct (checksum_letter_char _ Hk) as [Hc Hu]. rewrite <- Hsum in Hc, Hu.
  destruct (line_of_one_frame front _ _ _ _ _ Hfront Hp)
    as (d0 & d1 & d2 & dc & pl & Ef & Hpl & H0 & H1 & H2 & Hdc & Hpp).
  assert (Hl : length pl = 2%nat).
  { unfold line_bytes in Hpl. rewrite <- (length_map snd), Hpl. reflexivity. }
  destruct s as [[k line log] c id]. cbn [swserial_ rx_line device_id_] in *.
  subst line front.
  unfold executeSetCommand. rewrite sendRequest_spec by exact Hid. cbv zeta.
  unfold checkForOk. cbn [app]. rewrite <- app_assoc. cbn [app].
  match goal with
  | |- context [readResponseIntoBuffer ?b ?l (mkConverter (mkSerial ?k0 _ ?log0) ?c0 _)] =>
      destruct (readResponseIntoBuffer_frame_state d0 d1 d2 dc a1 a0 pl chk (nl ++ rest)
                  b l k0 log0 c0 id) as [k' E]; trivial
  end.
  - rewrite Hpl. reflexivity.
  - rewrite Hl. apply Nat.ltb_lt. reflexivity.
  - rewrite Hpl. exact Hsum.
  - rewrite E. rewrite Hpl.
    change (list_eqb (cstring (store_from 0 (bytes "ok") response_buffer_init)) response_ok)
      with true. cbv iota.
    destruct (swallow_loop_state nl rest k'
                (log ++ request_body id REQUEST_SET command (Some (ltoa (int32 (uint32 value))))
                     ++ [MingHeBuckConverterChecksum.getChecksumCharacter
                           (checksum_of (request_body id REQUEST_SET command
                                           (Some (ltoa (int32 (uint32 value))))) 0);
                         newline]) Hnl Hrest) as (k'' & rest' & Es & Eb & Epr).
    rewrite Es. eexists. split; [reflexivity|]. cbn [device_id_ swserial_ rx_line]. auto.
Qed.

(** X20: when the acknowledgement of a set command is followed by the
    answer to the read-back, a setter that checks for equality reports
    success exactly when the number in the answer, converted to the
    getter's type, equals the value written: [setMaxVoltage] and
    [setMaxCurrent] compare 16-bit numbers, the temperature setters compare
    the 16-bit number read with the 8-bit number written, and the four
    switches compare truth values, every number but 0 standing for
    [true]. *)
Theorem setters_compare_the_read_back s command a1 a0 chk front nl rest digits chk2 rest2 :
  0 <= device_id_ s <= 99 ->
  rx_line (swserial_ s) = front ++ nl ++ rest ->
  line_bytes front = ch ":" :: a1 :: a0 :: bytes "ok" ++ [chk] ->
  line_bytes rest = ch ":" :: a1 :: a0 :: (ch "r" :: command :: digits) ++ chk2 :: rest2 ->
  prompt front = true -> buffered_newlines nl = true -> prompt rest = true ->
  is_char a1 = true -> is_char a0 = true ->
  atoi [a1; a0; 0] = device_id_ s ->
  chk = MingHeBuckConverterChecksum.getChecksumCharacter
          (checksum_of (ch ":" :: a1 :: a0 :: bytes "ok") 0) ->
  chk2 = MingHeBuckConverterChecksum.getChecksumCharacter
           (checksum_of (ch ":" :: a1 :: a0 :: ch "r" :: command :: digits) 0) ->
  is_char command = true -> isupper command = false ->
  forallb isdigit digits = true -> (length digits <= 10)%nat ->
  let read := uint32 (decimal digits) in
  (forall v, command = MINGHE_COMMAND_MAX_VOLTAGE ->
     option_map fst (setMaxVoltage v s) = Some (uint16 read =? uint16 v)) /\
  (forall v, command = MINGHE_COMMAND_MAX_CURRENT ->
     option_map fst (setMaxCurrent v s) = Some (uint16 read =? uint16 v)) /\
  (forall v, command = MINGHE_COMMAND_SHUTDOWN_TEMPERATURE ->
     option_map fst (setShutdownTemperature v s) = Some (uint16 read =? uint8 v)) /\
  (forall v, command = MINGHE_COMMAND_FAN_TEMPERATURE ->
     option_map fst (setFanStartTemperature v s) = Some (uint16 read =? uint8 v)) /\
  (forall b, command = MINGHE_COMMAND_OUTPUT_STATE ->
     option_map fst (setOutputEnabled b s) = Some (Bool.eqb (negb (read =? 0)) b)) /\
  (forall b, command = MINGHE_COMMAND_BOOT_OUTPUT_ENABLED ->
     option_map fst (setBootOutputEnabled b s) = Some (Bool.eqb (negb (read =? 0)) b)) /\
  (forall b, command = MINGHE_COMMAND_BEEPER_ENABLED ->
     option_map fst (setBeeperEnabled b s) = Some (Bool.eqb (negb (read =? 0)) b)) /\
  (forall b, command = MINGHE_COMMAND_FAST_VOLTAGE_CHANGE ->
     option_map fst (setFastVoltageChangeEnabled b s) = Some (Bool.eqb (negb (read =? 0)) b)).
Proof.
  intros Hid Hrx Hfront Hrest Hp Hnl Hpr Ha1 Ha0 Hatoi Hsum Hsum2 Hcmd Hcmdu Hd Hlen read.
  assert (Hends : ends_newlines rest = true).
  { destruct rest as [|[d b] rest]; [reflexivity|].
    cbn [line_bytes map snd] in Hrest.
    assert (Eb : b = ch ":") by congruence. subst b.
    cbn [ends_newlines]. rewrite andb_false_r. reflexivity. }
  assert (S : forall A value (convert : Z -> A) (same : A -> bool),
             option_map fst (set_and_verify command value (get_as convert command) same s)
             = Some (same (convert read))).
  { intros A value convert same. unfold set_and_verify.
    destruct (executeSetCommand_ok_state command value s a1 a0 chk front nl rest
                Hid Hrx Hfront Hp Ha1 Ha0 Hatoi Hsum Hnl Hends)
      as (s2 & E2 & Ed & Eb & Epr).
    rewrite E2. cbn [bind]. unfold get_as. rewrite !option_map_bind.
    rewrite (executeGetCommand_prefix s2 command a1 a0 digits [] chk2 rest2);
      rewrite ?app_nil_r; trivial; try (rewrite Ed; trivial).
    - rewrite Eb. exact Hrest.
    - apply Epr, Hpr.
    - lia. }
  unfold setMaxVoltage, setMaxCurrent, setOutputEnabled, setShutdownTemperature,
    setFanStartTemperature, setBootOutputEnabled, setBeeperEnabled,
    setFastVoltageChangeEnabled, getMaxVoltage, getMaxCurrent, getOutputEnabled,
    getShutdownTemperature, getFanStartTemperature, getBootOutputEnabled,
    getBeeperEnabled, getFastVoltageChangeEnabled.
  repeat split; intros v <-; apply S.
Qed.

Lemma setters_compare_the_read_back_witness :
  let answers l := listening 1 (bytes ":01okJ" ++ [carriage_return; newline] ++ l) in
  option_map fst (setMaxVoltage 1200 (answers (bytes ":01ru1200J" ++ [newline]))) = Some true /\
  option_map fst (setMaxVoltage 1200 (answers (bytes ":01ru1250O" ++ [newline]))) = Some false.
Proof.
  cbv zeta.
  assert (Hid : forall l, 0 <= device_id_ (listening 1 l) <= 99)
    by (intros l; vm_compute; split; discriminate).
  split.
  - apply (proj1 (setters_compare_the_read_back
             (listening 1 (bytes ":01okJ" ++ [carriage_return; newline]
                             ++ bytes ":01ru1200J" ++ [newline]))
             MINGHE_COMMAND_MAX_VOLTAGE (ch "0") (ch "1") (ch "J")
             (buffered (bytes ":01okJ")) (buffered [carriage_return; newline])
             (buffered (bytes ":01ru1200J" ++ [newline])) (bytes "1200") (ch "J") [newline]
             (Hid _) eq_refl eq_refl eq_refl eq_refl eq_refl eq_refl eq_refl eq_refl
             eq_refl eq_refl eq_refl eq_refl eq_refl eq_refl
             (proj1 (Nat.leb_le 4 10) eq_refl)) 1200 eq_refl).
  - apply (proj1 (setters_compare_the_read_back
             (listening 1 (bytes ":01okJ" ++ [carriage_return; newline]
                             ++ bytes ":01ru1250O" ++ [newline]))
             MINGHE_COMMAND_MAX_VOLTAGE (ch "0") (ch "1") (ch "J")
             (buffered (bytes ":01okJ")) (buffered [carriage_return; newline])
             (buffered (bytes ":01ru1250O" ++ [newline])) (bytes "1250") (ch "O") [newline]
             (Hid _) eq_refl eq_refl eq_refl eq_refl eq_refl eq_refl eq_refl eq_refl
             eq_refl eq_refl eq_refl eq_refl eq_refl eq_refl
             (proj1 (Nat.leb_le 4 10) eq_refl)) 1200 eq_refl).
Defined.

(** ** C8: an answer that is cut off *)

(** The payload loop on a line on which nothing arrives any more: every
    read times out and returns 0, which is stored, until the loop ends on
    its condition. *)
Lemma payload_loop_silence (n : nat) : forall i buffer k log c id,
  exists k' c',
    payload_loop n i buffer (mkConverter (mkSerial k [] log) c id) =
    ((true, store_from i (repeat 0 n) buffer), mkConverter (mkSerial k' [] log) c' id).
Proof.
  induction n as [|n IH]; intros i buffer k log c id; cbn [payload_loop repeat store_from].
  - exists k, c. reflexivity.
  - rewrite readChar_silence. change (isupper 0) with false. cbv iota.
    unfold checksum_addOutputCharacter, with_checksum. cbn [swserial_ checksum_ device_id_].
    apply IH.
Qed.

(** [readResponseIntoBuffer] on an answer that stops after its payload: no
    checksum character arrives, and the read reports success. *)
Lemma read_unfinished_16 s a1 a0 p :
  line_bytes (rx_line (swserial_ s)) = ch ":" :: a1 :: a0 :: p ->
  prompt (rx_line (swserial_ s)) = true ->
  is_char a1 = true -> is_char a0 = true ->
  forallb (fun b => is_char b && negb (isupper b)) p = true ->
  (length p <= 15)%nat ->
  atoi [a1; a0; 0] = device_id_ s ->
  fst (readResponseIntoBuffer response_buffer_init (16 - 1) s) =
  (true, p ++ repeat 0 (16 - length p)).
Proof.
  intros Hline Hp Ha1 Ha0 Hbytes Hlen Hatoi.
  destruct s as [[k line log] c id]. cbn [swserial_ rx_line device_id_] in *.
  apply line_bytes_cons in Hline as (d0 & l0 & -> & Hline).
  apply line_bytes_cons in Hline as (d1 & l1 & -> & Hline).
  apply line_bytes_cons in Hline as (d2 & pl & -> & Hpl).
  unfold prompt in Hp. cbn [forallb fst] in Hp.
  apply andb_prop in Hp as [H0 Hp]. apply andb_prop in Hp as [H1 Hp].
  apply andb_prop in Hp as [H2 Hp]. fold (prompt pl) in Hp.
  apply Z.leb_le in H0, H1, H2.
  assert (Hl : length pl = length p).
  { unfold line_bytes in Hpl. rewrite <- Hpl, length_map. reflexivity. }
  unfold readResponseIntoBuffer, checksum_reset, with_checksum.
  cbn [swserial_ checksum_ device_id_].
  rewrite sync_loop_step, readChar_prompt by exact H0.
  change (uint8 (ch ":")) with (ch ":").
  change (MINGHE_MAX_JUNK_CHARACTERS <=? uint8 (0 + 1)) with false.
  change (ch ":" =? ch ":") with true. cbv iota.
  unfold checksum_addOutputCharacter, with_checksum. cbn [swserial_ checksum_ device_id_].
  rewrite readChar_prompt by exact H1. cbn [swserial_ checksum_ device_id_].
  rewrite readChar_prompt by exact H2. cbn [swserial_ checksum_ device_id_].
  rewrite (is_char_uint8 a1), (is_char_uint8 a0) by assumption.
  rewrite Hatoi, Z.eqb_refl. cbn [negb].
  change (Z.to_nat (uint8 (16 - 1))) with 15%nat.
  rewrite <- (app_nil_r pl) at 1.
  destruct (payload_loop_bytes pl 15 0 response_buffer_init
              (k + Z.max d0 0 + Z.max d1 0 + Z.max d2 0) [] log
              (MingHeBuckConverterChecksum.addOutputCharacter a0
                 (MingHeBuckConverterChecksum.addOutputCharacter a1
                    (MingHeBuckConverterChecksum.addOutputCharacter (ch ":")
                       (MingHeBuckConverterChecksum.reset c)))) id Hp) as [k' E];
    [rewrite Hpl; exact Hbytes|lia|].
  rewrite E.
  destruct (payload_loop_silence (15 - length pl) (0 + length pl)
              (store_from 0 (line_bytes pl) response_buffer_init) k' log
              (checksum_of (line_bytes pl)
                 (MingHeBuckConverterChecksum.addOutputCharacter a0
                    (MingHeBuckConverterChecksum.addOutputCharacter a1
                       (MingHeBuckConverterChecksum.addOutputCharacter (ch ":")
                          (MingHeBuckConverterChecksum.reset c))))) id) as (k'' & c'' & E').
  rewrite E'. cbn [fst]. f_equal.
  rewrite Hpl, Hl. unfold response_buffer_init.
  pose proof (store_from_zeros [] p 16 ltac:(lia)) as Z1. cbn [length app] in Z1.
  rewrite Z1. cbn [Nat.add].
  pose proof (store_from_zeros p (repeat 0 (15 - length p)) (16 - length p)) as Z0.
  rewrite repeat_length in Z0. specialize (Z0 ltac:(lia)).
  rewrite Z0. f_equal.
  rewrite <- repeat_app. f_equal. lia.
Qed.

(** [readResponse] from the buffer that [readResponseIntoBuffer] has
    filled: direction and command are compared, and the digits are copied
    with the character that ends them. *)
Lemma readResponse_buffer s set command digits tail r :
  fst (readResponseIntoBuffer response_buffer_init (16 - 1) s)
  = (true, (direction_char set :: command :: digits ++ tail) ++ repeat 0 (S r)) ->
  forallb isdigit digits = true -> isdigit (hd 0 tail) = false ->
  (length digits <= 13)%nat ->
  fst (readResponse set command s) = (true, digits ++ [hd 0 tail]).
Proof.
  intros E Hd Hh Hlen. unfold readResponse.
  destruct (readResponseIntoBuffer response_buffer_init (16 - 1) s) as [[ok buf] s1].
  cbn [fst] in E. apply pair_equal_spec in E as [-> ->].
  cbn [app load nth]. fold (direction_char set).
  rewrite !Z.eqb_refl. cbn [negb fst]. f_equal.
  rewrite <- app_assoc.
  assert (Et : exists rest', tail ++ repeat 0 (S r) = hd 0 tail :: rest').
  { destruct tail as [|t tl]; [exists (repeat 0 r)|exists (tl ++ repeat 0 (S r))]; reflexivity. }
  destruct Et as [rest' Et]. rewrite Et.
  apply (copy_loop_digits digits (16 - 2) 0 [direction_char set; command]
           (hd 0 tail) rest' []); trivial.
  simpl. lia.
Qed.

(** C8 fails on the code: a timeout inside the answer is not a failure
    of the read.  When the answer stops after its value field, so that no
    checksum character ever arrives, or when a character that is not upper
    case stands in the place of the checksum character and nothing follows,
    the reads that time out return 0, the payload loop runs to the end of
    the buffer and [readResponseIntoBuffer] reports success;
    [executeGetCommand] then returns the number that the digits received
    denote, not 0. *)
Theorem unfinished_answer_is_returned s command a1 a0 digits tail :
  0 <= device_id_ s <= 99 ->
  line_bytes (rx_line (swserial_ s))
  = ch ":" :: a1 :: a0 :: ch "r" :: command :: digits ++ tail ->
  prompt (rx_line (swserial_ s)) = true ->
  is_char a1 = true -> is_char a0 = true ->
  atoi [a1; a0; 0] = device_id_ s ->
  is_char command = true -> isupper command = false ->
  forallb isdigit digits = true ->
  forallb (fun b => is_char b && negb (isupper b)) tail = true ->
  isdigit (hd 0 tail) = false ->
  (length digits <= 10)%nat -> (length (digits ++ tail) <= 13)%nat ->
  option_map fst (executeGetCommand command s) = Some (uint32 (decimal digits)).
Proof.
  intros Hid Hline Hp Ha1 Ha0 Hatoi Hcmd Hcmdu Hd Ht Hh Hl10 Hlen.
  destruct (sendRequest_defined REQUEST_GET command None s Hid) as [s1 E1].
  rewrite (executeGetCommand_result _ _ _ E1).
  destruct (sendRequest_keeps_line _ _ _ _ _ Hid E1) as (Er & Ed & _).
  rewrite <- Er in Hline, Hp. rewrite <- Ed in Hatoi.
  assert (Hbytes : forallb (fun b => is_char b && negb (isupper b))
                     (ch "r" :: command :: digits ++ tail) = true).
  { cbn [forallb]. rewrite Hcmd, Hcmdu. cbn [negb andb].
    change (is_char (ch "r") && negb (isupper (ch "r"))) with true. cbn [andb].
    rewrite forallb_app, Ht, andb_true_r.
    apply forallb_forall. intros v Hv. apply isdigit_payload.
    rewrite forallb_forall in Hd. apply Hd, Hv. }
  pose proof (read_unfinished_16 s1 a1 a0 (ch "r" :: command :: digits ++ tail)
                Hline Hp Ha1 Ha0 Hbytes ltac:(cbn [length]; lia) Hatoi) as E.
  cbn [length] in E.
  remember (16 - S (S (length (digits ++ tail))))%nat as r eqn:Er'.
  destruct r as [|r]; [lia|].
  rewrite (readResponse_buffer s1 REQUEST_GET command digits tail r E Hd Hh ltac:(lia)).
  rewrite length_app. cbn [length].
  destruct (Z.ltb_spec 11 (Z.of_nat (length digits + 1))); [lia|].
  rewrite <- app_assoc. cbn [app]. rewrite atol_prefix by assumption. reflexivity.
Qed.

Lemma unfinished_answer_is_returned_witness :
  let cut_off := listening 1 (bytes ":01rz60") in
  let no_checksum := listening 1 (bytes ":01rz6015x" ++ [newline]) in
  0 <= device_id_ cut_off <= 99 /\ prompt (rx_line (swserial_ cut_off)) = true /\
  option_map fst (executeGetCommand (ch "z") cut_off) = Some 60 /\
  option_map fst (executeGetCommand (ch "z") no_checksum) = Some 6015.
Proof.
  cbv zeta.
  assert (Hid : forall l, 0 <= device_id_ (listening 1 l) <= 99)
    by (intros l; vm_compute; split; discriminate).
  split; [apply Hid|]. split; [reflexivity|]. split.
  - apply (unfinished_answer_is_returned (listening 1 (bytes ":01rz60")) (ch "z")
             (ch "0") (ch "1") (bytes "60") [] (Hid _) eq_refl eq_refl eq_refl eq_refl
             eq_refl eq_refl eq_refl eq_refl eq_refl eq_refl
             (proj1 (Nat.leb_le 2 10) eq_refl) (proj1 (Nat.leb_le 2 13) eq_refl)).
  - apply (unfinished_answer_is_returned
             (listening 1 (bytes ":01rz6015x" ++ [newline])) (ch "z")
             (ch "0") (ch "1") (bytes "6015") (bytes "x" ++ [newline]) (Hid _)
             eq_refl eq_refl eq_refl eq_refl
             eq_refl eq_refl eq_refl eq_refl eq_refl eq_refl
             (proj1 (Nat.leb_le 4 10) eq_refl) (proj1 (Nat.leb_le 6 13) eq_refl)).
Defined.
